(** * Hexagon analysis pipeline of [backend/geospatial_analyzer.py]

    A shallow embedding of [create_hexagon_projected] and of the class
    [GeospatialAnalyzer] (methods [__init__], [analyze_hexagon] and
    [get_hexagon_geojson]).

    Conventions of the embedding:
    - Python floats are idealised as real numbers ([R]); rounding, infinities
      and NaN are outside the model.
    - The geospatial libraries the module calls (rasterio, pyproj, geopandas,
      shapely) are not part of the repository.  Their calls are fields of a
      record [World]; every call that can raise returns an [Exc].
    - [results] is a Python dict that is filled in place: it is threaded as
      the state of a small state-and-exception monad [M]. *)

From Stdlib Require Import Reals Lra ZArith.
From stdpp Require Import base option list sorting gmap strings.

#[local] Open Scope R_scope.

(** ** Decidable comparisons on floats-as-reals *)

#[global] Instance Rlt_decision (x y : R) : Decision (x < y) := Rlt_dec x y.
#[global] Instance Rgt_decision (x y : R) : Decision (x > y) := Rgt_dec x y.
#[global] Instance Req_decision : EqDecision R := Req_dec_T.

(** ** Planar geometry: the part of shapely the module relies on *)

Definition Coord : Type := R * R.

(** A [Polygon] is its exterior ring, as the coordinate sequence handed to
    the constructor. *)
Definition Polygon : Type := list Coord.

(** Coordinate reference systems are compared for equality only. *)
Definition CRS : Type := string.

(** [math.radians] *)
Definition radians (deg : R) : R := deg * (PI / 180).

(** Twice the signed area of a ring (shoelace sum over consecutive pairs). *)
Fixpoint ring_signed_area2 (ring : list Coord) : R :=
  match ring with
  | p :: (q :: _) as tl => (p.1 * q.2 - q.1 * p.2) + ring_signed_area2 tl
  | _ => 0
  end.

(** [Polygon.area] *)
Definition polygon_area (poly : Polygon) : R :=
  Rabs (ring_signed_area2 poly) / 2.

(** Euclidean distance between two points. *)
Definition distance (p q : Coord) : R :=
  sqrt (Rsqr (p.1 - q.1) + Rsqr (p.2 - q.2)).

Definition Rlist_min (d : R) (l : list R) : R :=
  match l with [] => d | x :: tl => foldr Rmin x tl end.

Definition Rlist_max (d : R) (l : list R) : R :=
  match l with [] => d | x :: tl => foldr Rmax x tl end.

Definition Rlist_sum (l : list R) : R := foldr Rplus 0 l.

(** [total_bounds] of a frame holding one polygon: (minx, miny, maxx, maxy). *)
Definition total_bounds (poly : Polygon) : R * R * R * R :=
  (Rlist_min 0 (fst <$> poly), Rlist_min 0 (snd <$> poly),
   Rlist_max 0 (fst <$> poly), Rlist_max 0 (snd <$> poly)).

(** ** [create_hexagon_projected] *)

(** One turn of the loop body: the vertex appended for loop index [i]. *)
Definition hexagon_vertex (center_x center_y radius_m : R) (i : Z) : Coord :=
  let angle_deg := (60 * i - 30)%Z in
  let angle_rad := radians (IZR angle_deg) in
  let x := center_x + radius_m * cos angle_rad in
  let y := center_y + radius_m * sin angle_rad in
  (x, y).

(** The [crs] argument is accepted and never used, as in the source. *)
Definition create_hexagon_projected
    (center_x center_y radius_m : R) (crs : CRS) : Polygon :=
  let vertices := hexagon_vertex center_x center_y radius_m <$> seqZ 0 6 in
  match vertices with
  | v0 :: _ => vertices ++ [v0]
  | [] => vertices
  end.

(** ** Strings: [str.lower] and the [in] test on strings *)

Definition lower_ascii (c : Ascii.ascii) : Ascii.ascii :=
  let n := Ascii.nat_of_ascii c in
  if bool_decide (65 ≤ n ≤ 90)%nat then Ascii.ascii_of_nat (n + 32) else c.

(** [s.lower()], on the ASCII letters. *)
Fixpoint lower (s : string) : string :=
  match s with
  | EmptyString => EmptyString
  | String c tl => String (lower_ascii c) (lower tl)
  end.

(** [key in s] for two strings: [key] occurs in [s] as a substring. *)
Fixpoint contains (key s : string) : bool :=
  String.prefix key s
  || match s with
     | EmptyString => false
     | String _ tl => contains key tl
     end.

(** [os.path.join] of a directory and a file name. *)
Definition path_join (dir name : string) : string := dir +:+ "/" +:+ name.

(** ** Exceptions, and the monad of a method body

    A computation runs on a state [St] (the dict it fills in place) and
    either yields a value or raises; what was written to the state before a
    [raise] stays written, as in Python. *)

Inductive exn : Type := Exception (msg : string).

Inductive Exc (A : Type) : Type :=
| Ok (a : A)
| Raise (e : exn).
Arguments Ok {A} a.
Arguments Raise {A} e.

#[global] Instance Exc_ret : MRet Exc := λ A a, Ok a.
#[global] Instance Exc_bind : MBind Exc := λ A B k c,
  match c with
  | Ok a => k a
  | Raise e => Raise e
  end.

Definition M (St A : Type) : Type := St → Exc A * St.

Definition ret {St A} (a : A) : M St A := λ s, (Ok a, s).

Definition bind {St A B} (m : M St A) (k : A → M St B) : M St B :=
  λ s, match m s with
       | (Ok a, s') => k a s'
       | (Raise e, s') => (Raise e, s')
       end.

(** A call into a library: it may raise and does not touch the state. *)
Definition call {St A} (c : Exc A) : M St A := λ s, (c, s).

(** [try: body / except Exception as e: handler e] *)
Definition try_except {St A} (body : M St A) (handler : exn → M St A) : M St A :=
  λ s, match body s with
       | (Ok a, s') => (Ok a, s')
       | (Raise e, s') => handler e s'
       end.

Definition get_state {St} : M St St := λ s, (Ok s, s).

(** Outcome of a method body started on the state [s]. *)
Definition run {St A} (m : M St A) (s : St) : Exc A := (m s).1.

#[global] Instance M_ret {St} : MRet (M St) := λ A a, ret a.
#[global] Instance M_bind {St} : MBind (M St) := λ A B k m, bind m k.

(** ** Values of the result mapping *)

Inductive Value : Type :=
| VFloat (x : R)
| VInt (n : Z)
| VStr (s : string)
| VDict (d : gmap string R).

(** [results[key] = v] *)
Definition set_result (key : string) (v : Value) : M (gmap string Value) unit :=
  λ results, (Ok (), <[key := v]> results).

(** ** Data handed over by the geospatial libraries *)

(** [dem_dataset.bounds] *)
Record BoundingBox : Type := {
  bounds_left : R;
  bounds_bottom : R;
  bounds_right : R;
  bounds_top : R
}.

(** An opened raster: the attributes the module reads from it. *)
Record DatasetReader : Type := {
  dataset_name : string;
  crs : CRS;
  bounds : BoundingBox;
  nodata : option R
}.

Inductive GeomType : Type :=
| Point | MultiPoint | LineString | MultiLineString
| PolygonType | MultiPolygon | GeometryCollection.

#[global] Instance GeomType_eq_dec : EqDecision GeomType.
Proof. solve_decision. Defined.

(** A feature geometry, through what the module measures on it:
    [geom.length], [geom.area] and [geom.buffer(d).area]. *)
Record Geometry : Type := {
  geom_type : GeomType;
  geom_length : R;
  geom_area : R;
  buffer_area : R → R
}.

(** One row of a vector layer.  [cell col] is the attribute in column [col]:
    a text value, or [None] for a null. *)
Record Row : Type := {
  geometry : Geometry;
  cell : string → option string
}.

(** A vector layer: [gdf.crs], [gdf.columns] and the rows. *)
Record GeoDataFrame : Type := {
  gdf_crs : CRS;
  columns : list string;
  rows : list Row
}.

(** The one-row frame [GeoDataFrame([1], geometry=[hexagon], crs=...)]. *)
Record HexagonFrame : Type := {
  hex_geometry : Polygon;
  hex_crs : CRS
}.

(** [__geo_interface__] of a hexagon frame: a feature collection holding
    the ring of its polygon. *)
Record GeoJSON : Type := {
  geojson_type : string;
  geojson_coordinates : list Coord
}.

Definition geo_interface (h : HexagonFrame) : GeoJSON :=
  {| geojson_type := "FeatureCollection"; geojson_coordinates := hex_geometry h |}.

(** The library calls of the module.  Each field is total: a call that
    raises returns [Raise]. *)
Record World : Type := {
  (** [rasterio.open(path)] *)
  rasterio_open : string → Exc DatasetReader;
  (** [Transformer.from_crs("EPSG:4326", crs).transform(lat, lon)] *)
  transform : CRS → R → R → Exc (R * R);
  (** [mask(dataset, geometry, crop=True, filled=False, all_touched=True)],
      first band, as the sequence of its cells *)
  mask : DatasetReader → Polygon → Exc (list R);
  (** [gpd.read_file(path)] *)
  read_file : string → Exc GeoDataFrame;
  (** [layer.to_crs(crs)] *)
  to_crs : GeoDataFrame → CRS → Exc GeoDataFrame;
  (** [hexagon_frame.to_crs(crs)] *)
  hexagon_to_crs : HexagonFrame → CRS → Exc HexagonFrame;
  (** [gpd.overlay(layer, hexagon_frame, how='intersection')] *)
  overlay : GeoDataFrame → HexagonFrame → Exc GeoDataFrame
}.

(** ** The analyzer object *)

Record GeospatialAnalyzer : Type := {
  dem_path : string;
  vector_dir : string;
  water_zones_path : string;
  water_ways_path : string;
  buildings : option GeoDataFrame;
  roads : option GeoDataFrame;
  landuse : option GeoDataFrame
}.

(** [try: x = gpd.read_file(path) / except: x = None] *)
Definition load_layer (w : World) (path : string) : option GeoDataFrame :=
  match read_file w path with
  | Ok gdf => Some gdf
  | Raise _ => None
  end.

(** [GeospatialAnalyzer.__init__] *)
Definition init (w : World) (dem_path vector_dir : string) : GeospatialAnalyzer :=
  {| dem_path := dem_path;
     vector_dir := vector_dir;
     water_zones_path := path_join vector_dir "water_zones.shp";
     water_ways_path := path_join vector_dir "water_ways.shp";
     buildings := load_layer w (path_join vector_dir "buildings.shp");
     roads := load_layer w (path_join vector_dir "roads.shp");
     landuse := load_layer w (path_join vector_dir "landuse.shp") |}.

(** ** [analyze_hexagon], step by step *)

Abbreviation Results := (gmap string Value).

(** [hexagon_gdf_projected.geometry.area.iloc[0]] *)
Definition hexagon_area (h : HexagonFrame) : R := polygon_area (hex_geometry h).

(** The "simple bounds check" of lines 106-107. *)
Definition no_overlap (hex_bounds_projected : R * R * R * R)
    (dem_bounds : BoundingBox) : Prop :=
  let '(minx, miny, maxx, maxy) := hex_bounds_projected in
  minx > bounds_right dem_bounds ∨ maxx < bounds_left dem_bounds ∨
  miny > bounds_top dem_bounds ∨ maxy < bounds_bottom dem_bounds.

#[global] Instance no_overlap_dec hb db : Decision (no_overlap hb db).
Proof. destruct hb as [[[minx miny] maxx] maxy]. simpl. apply _. Defined.

(** Lines 96-119: the hexagon the rest of the analysis works on. *)
Definition select_hexagon (dem_dataset : DatasetReader)
    (center_x center_y radius_km : R) : HexagonFrame :=
  let hexagon :=
    create_hexagon_projected center_x center_y (radius_km * 1000) (crs dem_dataset) in
  let hexagon_gdf_projected :=
    {| hex_geometry := hexagon; hex_crs := crs dem_dataset |} in
  let dem_bounds := bounds dem_dataset in
  let hex_bounds_projected := total_bounds (hex_geometry hexagon_gdf_projected) in
  if decide (no_overlap hex_bounds_projected dem_bounds) then
    let dem_center_x := (bounds_left dem_bounds + bounds_right dem_bounds) / 2 in
    let dem_center_y := (bounds_bottom dem_bounds + bounds_top dem_bounds) / 2 in
    let hexagon :=
      create_hexagon_projected dem_center_x dem_center_y (radius_km * 1000)
        (crs dem_dataset) in
    {| hex_geometry := hexagon; hex_crs := crs dem_dataset |}
  else hexagon_gdf_projected.

Definition set_elevation (lo mean hi : R) : M Results unit :=
  set_result "elevation_min" (VFloat lo);;
  set_result "elevation_mean" (VFloat mean);;
  set_result "elevation_max" (VFloat hi).

(** 1. Elevation (lines 122-151). *)
Definition elevation_analysis (w : World) (dem_dataset : DatasetReader)
    (hexagon_gdf_projected : HexagonFrame) : M Results unit :=
  try_except
    (elevation_data ← call (mask w dem_dataset (hex_geometry hexagon_gdf_projected));
     let valid_elevations :=
       filter (λ v, Some v ≠ nodata dem_dataset) elevation_data in
     if decide (0 < length valid_elevations)%nat then
       set_elevation (Rlist_min 0 valid_elevations)
         (Rlist_sum valid_elevations / INR (length valid_elevations))
         (Rlist_max 0 valid_elevations)
     else set_elevation 0 0 0)
    (λ _, set_elevation 0 0 0).

(** The body of [with rasterio.open(...) as dem_dataset:] (lines 86-153). *)
Definition raster_block (w : World) (self : GeospatialAnalyzer)
    (center_lat center_lon radius_km : R) : M Results (HexagonFrame * CRS) :=
  dem_dataset ← call (rasterio_open w (dem_path self));
  '(center_x, center_y) ← call (transform w (crs dem_dataset) center_lat center_lon);
  let hexagon_gdf_projected :=
    select_hexagon dem_dataset center_x center_y radius_km in
  elevation_analysis w dem_dataset hexagon_gdf_projected;;
  let projected_crs := crs dem_dataset in
  mret (hexagon_gdf_projected, projected_crs).

(** [layer.to_crs(projected_crs)] when the layer's CRS differs. *)
Definition ensure_crs (w : World) (layer : GeoDataFrame) (projected_crs : CRS)
    : Exc GeoDataFrame :=
  if decide (gdf_crs layer ≠ projected_crs) then to_crs w layer projected_crs
  else Ok layer.

(** 2. Roads: the [try] body of lines 162-178. *)
Definition roads_body (w : World) (roads : GeoDataFrame)
    (hexagon_gdf_projected : HexagonFrame) (projected_crs : CRS) : M Results unit :=
  roads_gdf_proj ← call (ensure_crs w roads projected_crs);
  roads_in_hexagon ← call (overlay w roads_gdf_proj hexagon_gdf_projected);
  if decide (0 < length (rows roads_in_hexagon))%nat then
    let total_road_length :=
      Rlist_sum ((geom_length ∘ geometry) <$> rows roads_in_hexagon) in
    set_result "total_road_length_m" (VFloat total_road_length)
  else set_result "total_road_length_m" (VInt 0).

Definition roads_analysis (w : World) (self : GeospatialAnalyzer)
    (hexagon_gdf_projected : HexagonFrame) (projected_crs : CRS) : M Results unit :=
  match roads self with
  | Some roads =>
      try_except (roads_body w roads hexagon_gdf_projected projected_crs)
        (λ _, set_result "total_road_length_m" (VInt 0))
  | None => set_result "total_road_length_m" (VInt 0)
  end.

Definition set_buildings (density area : Value) : M Results unit :=
  set_result "building_density" density;;
  set_result "total_building_area_sq_m" area.

(** 3. Buildings: the [try] body of lines 190-211. *)
Definition buildings_body (w : World) (buildings : GeoDataFrame)
    (hexagon_gdf_projected : HexagonFrame) (projected_crs : CRS) : M Results unit :=
  buildings_gdf_proj ← call (ensure_crs w buildings projected_crs);
  buildings_in_hexagon ← call (overlay w buildings_gdf_proj hexagon_gdf_projected);
  if decide (0 < length (rows buildings_in_hexagon))%nat then
    let total_building_area :=
      Rlist_sum ((geom_area ∘ geometry) <$> rows buildings_in_hexagon) in
    let hexagon_area := hexagon_area hexagon_gdf_projected in
    let building_density :=
      if decide (hexagon_area > 0) then total_building_area / hexagon_area else 0 in
    set_buildings (VFloat building_density) (VFloat total_building_area)
  else set_buildings (VInt 0) (VInt 0).

Definition buildings_analysis (w : World) (self : GeospatialAnalyzer)
    (hexagon_gdf_projected : HexagonFrame) (projected_crs : CRS) : M Results unit :=
  match buildings self with
  | Some buildings =>
      try_except (buildings_body w buildings hexagon_gdf_projected projected_crs)
        (λ _, set_buildings (VInt 0) (VInt 0))
  | None => set_buildings (VInt 0) (VInt 0)
  end.

(** The dict [buffer_widths] of lines 249-255, in insertion order. *)
Definition buffer_widths : list (string * Z) :=
  [("river", 20%Z); ("stream", 5%Z); ("canal", 10%Z); ("drain", 2%Z);
   ("default", 5%Z)].

(** [d[key]] on a dict kept as its item list; a missing key raises. *)
Fixpoint getitem (d : list (string * Z)) (key : string) : Exc Z :=
  match d with
  | [] => Raise (Exception "KeyError")
  | (k, v) :: tl => if decide (k = key) then Ok v else getitem tl key
  end.

(** [for key in buffer_widths: if key in water_type: buffer_width =
    buffer_widths[key]; break], started on the items still to visit. *)
Fixpoint scan_widths (items : list (string * Z)) (water_type : string)
    (buffer_width : Z) : Z :=
  match items with
  | [] => buffer_width
  | (key, width) :: tl =>
      if contains key water_type then width
      else scan_widths tl water_type buffer_width
  end.

(** [value.lower()]: a null attribute has no such method. *)
Definition attr_lower (value : option string) : Exc string :=
  match value with
  | Some s => Ok (lower s)
  | None => Raise (Exception "AttributeError")
  end.

(** Lines 261-275: the buffer width of one water way.  [index] is the index
    of the row, that is the columns of the frame it comes from. *)
Definition way_buffer_width (index : list string) (water_way : Row) : Exc Z :=
  buffer_width ← getitem buffer_widths "default";
  if decide ("fclass" ∈ index) then
    water_type ← attr_lower (cell water_way "fclass");
    mret (scan_widths buffer_widths water_type buffer_width)
  else if decide ("type" ∈ index) then
    water_type ← attr_lower (cell water_way "type");
    mret (scan_widths buffer_widths water_type buffer_width)
  else mret buffer_width.

Definition is_line (geom : Geometry) : Prop :=
  geom_type geom = LineString ∨ geom_type geom = MultiLineString.

(** Lines 257-280: the loop over the intersected water ways. *)
Fixpoint water_ways_loop (index : list string) (ways : list Row)
    (total_water_area : R) : Exc R :=
  match ways with
  | [] => mret total_water_area
  | water_way :: tl =>
      let geom := geometry water_way in
      buffer_width ← way_buffer_width index water_way;
      if decide (is_line geom) then
        let buffered_area := buffer_area geom (IZR buffer_width) in
        water_ways_loop index tl (total_water_area + buffered_area)
      else water_ways_loop index tl total_water_area
  end.

(** Lines 237-241: water zones. *)
Definition water_zones_area (w : World) (water_zones_gdf : GeoDataFrame)
    (hexagon_gdf_projected : HexagonFrame) (total_water_area : R) : Exc R :=
  if decide (0 < length (rows water_zones_gdf))%nat then
    water_zones_in_hexagon ← overlay w water_zones_gdf hexagon_gdf_projected;
    if decide (0 < length (rows water_zones_in_hexagon))%nat then
      mret (total_water_area
            + Rlist_sum ((geom_area ∘ geometry) <$> rows water_zones_in_hexagon))
    else mret total_water_area
  else mret total_water_area.

(** Lines 244-282: water ways. *)
Definition water_ways_area (w : World) (water_ways_gdf : GeoDataFrame)
    (hexagon_gdf_projected : HexagonFrame) (total_water_area : R) : Exc R :=
  if decide (0 < length (rows water_ways_gdf))%nat then
    water_ways_in_hexagon ← overlay w water_ways_gdf hexagon_gdf_projected;
    if decide (0 < length (rows water_ways_in_hexagon))%nat then
      water_ways_loop (columns water_ways_in_hexagon) (rows water_ways_in_hexagon)
        total_water_area
    else mret total_water_area
  else mret total_water_area.

(** Lines 225-282: the total water area, or the exception that ends it. *)
Definition total_water (w : World) (self : GeospatialAnalyzer)
    (hexagon_gdf_projected : HexagonFrame) (projected_crs : CRS) : Exc R :=
  water_zones_gdf ← read_file w (water_zones_path self);
  water_ways_gdf ← read_file w (water_ways_path self);
  water_zones_gdf ← ensure_crs w water_zones_gdf projected_crs;
  water_ways_gdf ← ensure_crs w water_ways_gdf projected_crs;
  let total_water_area := 0 in
  total_water_area ←
    water_zones_area w water_zones_gdf hexagon_gdf_projected total_water_area;
  water_ways_area w water_ways_gdf hexagon_gdf_projected total_water_area.

Definition set_water (percentage area : Value) : M Results unit :=
  set_result "water_percentage" percentage;;
  set_result "water_area_sq_m" area.

(** 4. Water (lines 223-295). *)
Definition water_analysis (w : World) (self : GeospatialAnalyzer)
    (hexagon_gdf_projected : HexagonFrame) (projected_crs : CRS) : M Results unit :=
  try_except
    (total_water_area ←
       call (total_water w self hexagon_gdf_projected projected_crs);
     let hexagon_area := hexagon_area hexagon_gdf_projected in
     let water_percentage :=
       if decide (hexagon_area > 0) then total_water_area / hexagon_area * 100
       else 0 in
     set_water (VFloat water_percentage) (VFloat total_water_area))
    (λ _, set_water (VInt 0) (VInt 0)).

(** The candidate names of line 316, in the order they are tried. *)
Definition type_column_candidates : list string :=
  ["fclass"; "type"; "landuse"; "TYPE"; "LANDUSE"; "class"; "CLASS"].

(** [for col in candidates: if col in columns: type_column = col; break] *)
Fixpoint find_type_column (candidates columns : list string) : option string :=
  match candidates with
  | [] => None
  | col :: tl =>
      if decide (col ∈ columns) then Some col else find_type_column tl columns
  end.

(** A [Series] indexed by category: its (label, value) items in index order. *)
Definition Series : Type := list (string * R).

(** Adds one row to the group of its key; groups are kept sorted by key. *)
Fixpoint group_add (key : string) (area : R) (groups : Series) : Series :=
  match groups with
  | [] => [(key, area)]
  | (k, total) :: tl =>
      if decide (key = k) then (k, total + area) :: tl
      else if String.ltb key k then (key, area) :: groups
      else (k, total) :: group_add key area tl
  end.

(** [frame.groupby(type_column)['area'].sum()], where the column [area] holds
    [geometry.area]: one group per text value, sorted by label; rows with a
    null in the column belong to no group. *)
Definition groupby_area_sum (type_column : string) (frame : list Row) : Series :=
  foldl (λ groups row,
           match cell row type_column with
           | Some key => group_add key (geom_area (geometry row)) groups
           | None => groups
           end) [] frame.

(** [series.idxmax()]: the label of the first maximum. *)
Definition idxmax (s : Series) : string :=
  match s with
  | [] => ""
  | g :: tl =>
      (foldl (λ best item, if decide (item.2 > best.2) then item else best) g tl).1
  end.

(** [series.max()] and [series.sum()] *)
Definition series_max (s : Series) : R := Rlist_max 0 (snd <$> s).
Definition series_sum (s : Series) : R := Rlist_sum (snd <$> s).

(** Lines 335-337: the dict filled from [landuse_areas.items()]. *)
Definition build_breakdown (landuse_areas : Series) : gmap string R :=
  foldl (λ landuse_breakdown item, <[lower item.1 := item.2]> landuse_breakdown)
    ∅ landuse_areas.

Definition set_landuse (dominant : string) (percentage : Value)
    (breakdown : gmap string R) : M Results unit :=
  set_result "dominant_landuse" (VStr dominant);;
  set_result "dominant_landuse_percentage" percentage;;
  set_result "landuse_breakdown" (VDict breakdown).

(** 5. Land use: the [try] body of lines 300-356. *)
Definition landuse_body (w : World) (landuse : GeoDataFrame)
    (hexagon_gdf_projected : HexagonFrame) (projected_crs : CRS) : M Results unit :=
  landuse_gdf_proj ← call (ensure_crs w landuse projected_crs);
  landuse_in_hexagon ← call (overlay w landuse_gdf_proj hexagon_gdf_projected);
  if decide (0 < length (rows landuse_in_hexagon))%nat then
    match find_type_column type_column_candidates (columns landuse_in_hexagon) with
    | Some type_column =>
        let landuse_areas :=
          groupby_area_sum type_column (rows landuse_in_hexagon) in
        if decide (0 < length landuse_areas)%nat then
          let dominant_landuse := idxmax landuse_areas in
          let dominant_area := series_max landuse_areas in
          let total_area := series_sum landuse_areas in
          let dominant_percentage := dominant_area / total_area * 100 in
          set_landuse dominant_landuse (VFloat dominant_percentage)
            (build_breakdown landuse_areas)
        else set_landuse "No data" (VInt 0) ∅
    | None => set_landuse "No data" (VInt 0) ∅
    end
  else set_landuse "No data" (VInt 0) ∅.

Definition landuse_analysis (w : World) (self : GeospatialAnalyzer)
    (hexagon_gdf_projected : HexagonFrame) (projected_crs : CRS) : M Results unit :=
  match landuse self with
  | Some landuse =>
      try_except (landuse_body w landuse hexagon_gdf_projected projected_crs)
        (λ _, set_landuse "Error" (VInt 0) ∅)
  | None => set_landuse "No data" (VInt 0) ∅
  end.

(** Lines 159-373: what runs once the raster block has completed. *)
Definition vector_metrics (w : World) (self : GeospatialAnalyzer)
    (hexagon_gdf_projected : HexagonFrame) (projected_crs : CRS) : M Results unit :=
  roads_analysis w self hexagon_gdf_projected projected_crs;;
  buildings_analysis w self hexagon_gdf_projected projected_crs;;
  water_analysis w self hexagon_gdf_projected projected_crs;;
  landuse_analysis w self hexagon_gdf_projected projected_crs;;
  set_result "hexagon_area_sq_km"
    (VFloat (hexagon_area hexagon_gdf_projected / 1000000)).

(** ** [GeospatialAnalyzer.analyze_hexagon]

    The outer handler (lines 155-157) ends the call with [return results]. *)
Definition analyze_hexagon (w : World) (self : GeospatialAnalyzer)
    (center_lat center_lon radius_km : R) : Exc Results :=
  run (stage ← try_except
                 (block ← raster_block w self center_lat center_lon radius_km;
                  mret (Some block))
                 (λ _, mret None);
       match stage with
       | None => get_state
       | Some (hexagon_gdf_projected, projected_crs) =>
           vector_metrics w self hexagon_gdf_projected projected_crs;;
           get_state
       end) ∅.

(** ** [GeospatialAnalyzer.get_hexagon_geojson]

    The method returns a GeoJSON mapping or [None]. *)
Definition get_hexagon_geojson (w : World) (self : GeospatialAnalyzer)
    (center_lat center_lon radius_km : R) : Exc (option GeoJSON) :=
  run (try_except
         (dem_dataset ← call (rasterio_open w (dem_path self));
          '(center_x, center_y) ←
            call (transform w (crs dem_dataset) center_lat center_lon);
          let hexagon :=
            create_hexagon_projected center_x center_y (radius_km * 1000)
              (crs dem_dataset) in
          let hexagon_gdf_projected :=
            {| hex_geometry := hexagon; hex_crs := crs dem_dataset |} in
          hexagon_wgs84 ← call (hexagon_to_crs w hexagon_gdf_projected "EPSG:4326");
          let geojson := geo_interface hexagon_wgs84 in
          mret (Some geojson))
         (λ _, mret None)) ().

(** The keys of the result mapping listed in the interface description. *)
Definition result_keys : gset string :=
  list_to_set
    ["elevation_min"; "elevation_mean"; "elevation_max"; "total_road_length_m";
     "building_density"; "total_building_area_sq_m"; "water_percentage";
     "water_area_sq_m"; "dominant_landuse"; "dominant_landuse_percentage";
     "landuse_breakdown"; "hexagon_area_sq_km"].

(** ** Reading a run

    [produced m key] is what the step [m] stores under [key], and
    [results_for] is the mapping the analysis builds for a given hexagon once
    the raster is open: the elevation step followed by the vector metrics,
    started on the empty dict. *)

Definition produced (m : M Results unit) (key : string) : Value :=
  default (VInt 0) ((m ∅).2 !! key).

Definition results_for (w : World) (self : GeospatialAnalyzer)
    (dem_dataset : DatasetReader) (hexagon_gdf_projected : HexagonFrame) : Results :=
  ((elevation_analysis w dem_dataset hexagon_gdf_projected;;
    vector_metrics w self hexagon_gdf_projected (crs dem_dataset)) ∅).2.

(** The hexagon of the fallback: centred on the middle of the raster bounds. *)
Definition recentred_hexagon (dem_dataset : DatasetReader) (radius_km : R)
    : HexagonFrame :=
  let dem_bounds := bounds dem_dataset in
  {| hex_geometry :=
       create_hexagon_projected
         ((bounds_left dem_bounds + bounds_right dem_bounds) / 2)
         ((bounds_bottom dem_bounds + bounds_top dem_bounds) / 2)
         (radius_km * 1000) (crs dem_dataset);
     hex_crs := crs dem_dataset |}.

(** Two analyzers that read the same raster and the same water files. *)
Definition same_sources (self self' : GeospatialAnalyzer) : Prop :=
  dem_path self' = dem_path self ∧
  water_zones_path self' = water_zones_path self ∧
  water_ways_path self' = water_ways_path self.

(** ** Reading a grouped series *)

(** The value a series holds for a label. *)
Fixpoint series_lookup (s : Series) (label : string) : option R :=
  match s with
  | [] => None
  | (k, v) :: tl => if decide (k = label) then Some v else series_lookup tl label
  end.

(** The intersected areas of the rows of a frame whose class is [key]. *)
Definition category_areas (type_column : string) (frame : list Row)
    (key : string) : list R :=
  (geom_area ∘ geometry) <$> filter (λ row, cell row type_column = Some key) frame.

(** Order of the labels of a series. *)
Definition label_lt (a b : string * R) : Prop := String.ltb a.1 b.1 = true.

(** ** The buffer width in the words of the design document

    The first of river (20), stream (5), canal (10), drain (2) that occurs in
    the lower-cased class name, and 5 when none does. *)
Definition width_of_class (water_type : string) : Z :=
  if contains "river" water_type then 20
  else if contains "stream" water_type then 5
  else if contains "canal" water_type then 10
  else if contains "drain" water_type then 2
  else 5.

(** What one intersected water way adds to the water area. *)
Definition buffered_way_area (index : list string) (water_way : Row) : R :=
  match way_buffer_width index water_way with
  | Ok buffer_width =>
      if decide (is_line (geometry water_way))
      then buffer_area (geometry water_way) (IZR buffer_width)
      else 0
  | Raise _ => 0
  end.

(** The rows of [layer ∩ hexagon] as the water step sees them: an empty layer
    is not intersected at all. *)
Definition rows_in_hexagon (layer inter : GeoDataFrame) : list Row :=
  if decide (0 < length (rows layer))%nat then rows inter else [].

(** ** A small setting for worked examples *)

Definition demo_crs : CRS := "EPSG:32631".

Definition demo_dataset : DatasetReader :=
  {| dataset_name := "DEM_Projected.tif";
     crs := demo_crs;
     bounds := {| bounds_left := 0; bounds_bottom := 0;
                  bounds_right := 10000; bounds_top := 10000 |};
     nodata := Some (-9999) |}.

(** A line of length [len]; buffering by [d] gives a strip with round caps. *)
Definition line_geometry (len : R) : Geometry :=
  {| geom_type := LineString; geom_length := len; geom_area := 0;
     buffer_area := λ d, 2 * d * len + PI * d * d |}.

(** A square-like patch of area [a]. *)
Definition patch_geometry (a : R) : Geometry :=
  {| geom_type := PolygonType; geom_length := 4 * sqrt a; geom_area := a;
     buffer_area := λ d, a + 4 * d * sqrt a + PI * d * d |}.

Fixpoint attr_get (attrs : list (string * option string)) (col : string)
    : option string :=
  match attrs with
  | [] => None
  | (name, value) :: tl => if decide (name = col) then value else attr_get tl col
  end.

Definition row_of (geom : Geometry) (attrs : list (string * option string)) : Row :=
  {| geometry := geom; cell := attr_get attrs |}.

Definition layer_of (cols : list string) (frame : list Row) : GeoDataFrame :=
  {| gdf_crs := demo_crs; columns := cols; rows := frame |}.

Definition demo_roads : GeoDataFrame :=
  layer_of ["fclass"; "geometry"]
    [row_of (line_geometry 120) [("fclass", Some "residential")]].

Definition demo_waterways : GeoDataFrame :=
  layer_of ["fclass"; "geometry"]
    [row_of (line_geometry 50) [("fclass", Some "Stream")];
     row_of (line_geometry 10) [("fclass", Some "river_bank")]].

Definition demo_water_zones : GeoDataFrame :=
  layer_of ["fclass"; "geometry"]
    [row_of (patch_geometry 400) [("fclass", Some "reservoir")]].

(** The two polygons of the land-use scenario: 300 and 700 square metres. *)
Definition scenario_landuse : GeoDataFrame :=
  layer_of ["fclass"; "geometry"]
    [row_of (patch_geometry 300) [("fclass", Some "forest")];
     row_of (patch_geometry 700) [("fclass", Some "urban")]].

(** Two categories whose names differ by case only. *)
Definition mixed_case_landuse : GeoDataFrame :=
  layer_of ["fclass"; "geometry"]
    [row_of (patch_geometry 300) [("fclass", Some "Forest")];
     row_of (patch_geometry 700) [("fclass", Some "forest")]].

(** A land-use layer without features, and one without a class column. *)
Definition empty_landuse : GeoDataFrame := layer_of ["fclass"; "geometry"] [].

Definition unclassified_landuse : GeoDataFrame :=
  layer_of ["name"; "geometry"]
    [row_of (patch_geometry 300) [("name", Some "north field")]].

Definition demo_files (path : string) : Exc GeoDataFrame :=
  if decide (path = "data/Vector/roads.shp") then Ok demo_roads
  else if decide (path = "data/Vector/water_zones.shp") then Ok demo_water_zones
  else if decide (path = "data/Vector/water_ways.shp") then Ok demo_waterways
  else Raise (Exception "DriverError").

(** A world in which the raster opens, the projection is a scaling, and
    every feature of every layer lies inside the hexagon. *)
Definition demo_world : World :=
  {| rasterio_open := λ path,
       if decide (path = "data/DEM/DEM_Projected.tif") then Ok demo_dataset
       else Raise (Exception "RasterioIOError");
     transform := λ _ lat lon, Ok (lon * 1000, lat * 1000);
     mask := λ _ _, Ok [100; 100; -9999];
     read_file := demo_files;
     to_crs := λ layer target,
       Ok {| gdf_crs := target; columns := columns layer; rows := rows layer |};
     hexagon_to_crs := λ h target,
       Ok {| hex_geometry := hex_geometry h; hex_crs := target |};
     overlay := λ layer _, Ok layer |}.

(** The same world with no raster file to open. *)
Definition no_raster_world : World :=
  {| rasterio_open := λ _, Raise (Exception "RasterioIOError");
     transform := transform demo_world;
     mask := mask demo_world;
     read_file := read_file demo_world;
     to_crs := to_crs demo_world;
     hexagon_to_crs := hexagon_to_crs demo_world;
     overlay := overlay demo_world |}.

(** The demo world with an overlay that raises on every layer. *)
Definition failing_overlay_world : World :=
  {| rasterio_open := rasterio_open demo_world;
     transform := transform demo_world;
     mask := mask demo_world;
     read_file := read_file demo_world;
     to_crs := to_crs demo_world;
     hexagon_to_crs := hexagon_to_crs demo_world;
     overlay := λ _ _, Raise (Exception "TopologyException") |}.

(** Water ways of which one has no class, and the files of a world that
    holds them. *)
Definition null_class_waterways : GeoDataFrame :=
  layer_of ["fclass"; "geometry"]
    [row_of (line_geometry 50) [("fclass", Some "stream")];
     row_of (line_geometry 10) [("fclass", None)]].

Definition null_class_files (path : string) : Exc GeoDataFrame :=
  if decide (path = "data/Vector/water_ways.shp") then Ok null_class_waterways
  else demo_files path.

Definition null_class_world : World :=
  {| rasterio_open := rasterio_open demo_world;
     transform := transform demo_world;
     mask := mask demo_world;
     read_file := null_class_files;
     to_crs := to_crs demo_world;
     hexagon_to_crs := hexagon_to_crs demo_world;
     overlay := overlay demo_world |}.

(** A land-use layer whose class column holds nulls only. *)
Definition null_class_landuse : GeoDataFrame :=
  layer_of ["fclass"; "geometry"]
    [row_of (patch_geometry 300) [("fclass", None)];
     row_of (patch_geometry 700) [("fclass", None)]].

(** Two classes of equal area. *)
Definition tied_landuse : GeoDataFrame :=
  layer_of ["fclass"; "geometry"]
    [row_of (patch_geometry 500) [("fclass", Some "urban")];
     row_of (patch_geometry 500) [("fclass", Some "forest")]].

(** The demo world with a raster that cannot be masked. *)
Definition failing_mask_world : World :=
  {| rasterio_open := rasterio_open demo_world;
     transform := transform demo_world;
     mask := λ _ _, Raise (Exception "WindowError");
     read_file := read_file demo_world;
     to_crs := to_crs demo_world;
     hexagon_to_crs := hexagon_to_crs demo_world;
     overlay := overlay demo_world |}.

(** The analyzer [app.py] builds, in the demo world: no buildings and no
    land-use file there. *)
Definition demo_analyzer : GeospatialAnalyzer :=
  init demo_world "data/DEM/DEM_Projected.tif" "data/Vector".

(** The same analyzer holding a given land-use layer (or none). *)
Definition with_landuse (layer : option GeoDataFrame) : GeospatialAnalyzer :=
  {| dem_path := dem_path demo_analyzer;
     vector_dir := vector_dir demo_analyzer;
     water_zones_path := water_zones_path demo_analyzer;
     water_ways_path := water_ways_path demo_analyzer;
     buildings := buildings demo_analyzer;
     roads := roads demo_analyzer;
     landuse := layer |}.

(** A buildings layer with two footprints, and the same analyzer holding a
    given buildings layer (or none). *)
Definition demo_buildings : GeoDataFrame :=
  layer_of ["fclass"; "geometry"]
    [row_of (patch_geometry 250) [("fclass", Some "house")];
     row_of (patch_geometry 150) [("fclass", Some "garage")]].

Definition with_buildings (layer : option GeoDataFrame) : GeospatialAnalyzer :=
  {| dem_path := dem_path demo_analyzer;
     vector_dir := vector_dir demo_analyzer;
     water_zones_path := water_zones_path demo_analyzer;
     water_ways_path := water_ways_path demo_analyzer;
     buildings := layer;
     roads := roads demo_analyzer;
     landuse := landuse demo_analyzer |}.

(** ** More of the module: [__init__] as it runs, numeric entries *)

#[global] Instance Rle_decision (x y : R) : Decision (x <= y) := Rle_dec x y.

(** [try: layer = gpd.read_file(path) / except: layer = None], inside the
    constructor. *)
Definition try_read_file (w : World) (path : string) : M () (option GeoDataFrame) :=
  try_except (gdf ← call (read_file w path); mret (Some gdf)) (λ _, mret None).

(** [GeospatialAnalyzer.__init__] as a method body (lines 45-69). *)
Definition init_body (w : World) (dem_path vector_dir : string)
    : M () GeospatialAnalyzer :=
  let water_zones_path := path_join vector_dir "water_zones.shp" in
  let water_ways_path := path_join vector_dir "water_ways.shp" in
  buildings ← try_read_file w (path_join vector_dir "buildings.shp");
  roads ← try_read_file w (path_join vector_dir "roads.shp");
  landuse ← try_read_file w (path_join vector_dir "landuse.shp");
  mret {| dem_path := dem_path; vector_dir := vector_dir;
          water_zones_path := water_zones_path;
          water_ways_path := water_ways_path;
          buildings := buildings; roads := roads; landuse := landuse |}.

(** The number held by an entry of the result mapping, if it is one. *)
Definition value_num (v : Value) : option R :=
  match v with
  | VFloat x => Some x
  | VInt n => Some (IZR n)
  | VStr _ | VDict _ => None
  end.

(** The cells the elevation step keeps: those different from the no-data
    value of the raster. *)
Definition valid_cells (dem_dataset : DatasetReader) (cells : list R) : list R :=
  filter (λ v, Some v ≠ nodata dem_dataset) cells.

(** The hexagon a caller asked for, before any fallback. *)
Definition requested_hexagon (dem_dataset : DatasetReader)
    (center_x center_y radius_km : R) : HexagonFrame :=
  {| hex_geometry :=
       create_hexagon_projected center_x center_y (radius_km * 1000)
         (crs dem_dataset);
     hex_crs := crs dem_dataset |}.

(** ** [app.py]: the HTTP layer

    A view returns [jsonify(body), status].  The request is what the view
    reads from it: the outcome of [request.get_json()] for the POST view, the
    query arguments for the GET view. *)

Module App.

#[local] Set Warnings "-register-all".
(** What [request.get_json()] can hand over. *)
Inductive JSON : Type :=
| JNull
| JBool (b : bool)
| JNum (x : R)
| JStr (s : string)
| JArr (items : list JSON)
| JObj (fields : gmap string JSON).
#[local] Set Warnings "register-all".

Inductive Body : Type :=
| BodyError (error : string)
| BodyResults (results : gmap string Value)
| BodyGeoJSON (geojson : option GeoJSON)
| BodyHealth (status message : string) (analyzer_initialized : bool).

Record Response : Type := {
  body : Body;
  status_code : Z
}.

(** [str(e)] *)
Definition str (e : exn) : string := let 'Exception msg := e in msg.

(** Truth value of a JSON value, as [if not data] reads it. *)
Definition truthy (data : JSON) : bool :=
  match data with
  | JNull => false
  | JBool b => b
  | JNum x => bool_decide (x ≠ 0)
  | JStr s => bool_decide (s ≠ "")
  | JArr items => bool_decide (items ≠ [])
  | JObj fields => bool_decide (fields ≠ ∅)
  end.

(** [data.get(key, dflt)]: only a dict has the method. *)
Definition get (data : JSON) (key : string) (dflt : JSON) : Exc JSON :=
  match data with
  | JObj fields => Ok (default dflt (fields !! key))
  | _ => Raise (Exception "AttributeError")
  end.

(** Directory layout of lines 10-12, from the directory that holds the
    data. *)
Definition DEM_PATH (DATA_DIR : string) : string :=
  path_join (path_join DATA_DIR "DEM") "DEM_Projected.tif".
Definition VECTOR_DIR (DATA_DIR : string) : string := path_join DATA_DIR "Vector".

(** Lines 15-22: the module-level analyzer, [None] if the constructor
    raises. *)
Definition analyzer (w : World) (DATA_DIR : string) : option GeospatialAnalyzer :=
  match run (try_except
               (analyzer ← init_body w (DEM_PATH DATA_DIR) (VECTOR_DIR DATA_DIR);
                mret (Some analyzer))
               (λ _, mret None)) () with
  | Ok analyzer => analyzer
  | Raise _ => None
  end.

Section Views.

(** [float(s)] on a string is Python's own parser. *)
Variable float_of_string : string → Exc R.

(** [float(v)] on a value read from JSON. *)
Definition float (v : JSON) : Exc R :=
  match v with
  | JNum x => Ok x
  | JBool b => Ok (if b then 1 else 0)
  | JStr s => float_of_string s
  | JNull | JArr _ | JObj _ => Raise (Exception "TypeError")
  end.

(** [float(request.args.get(name))] and [float(request.args.get(name, d))] *)
Definition float_arg (arg : option string) (dflt : option R) : Exc R :=
  match arg, dflt with
  | Some s, _ => float_of_string s
  | None, Some d => Ok d
  | None, None => Raise (Exception "TypeError")
  end.

Definition error_response (message : string) (code : Z) : Response :=
  {| body := BodyError message; status_code := code |}.

(** The view [analyze] (lines 25-58). *)
Definition analyze (w : World) (analyzer : option GeospatialAnalyzer)
    (get_json : Exc JSON) : Exc Response :=
  run (try_except
         (match analyzer with
          | None =>
              mret (error_response
                      "Analyseur non initialisé. Vérifiez les fichiers de données."
                      500)
          | Some analyzer =>
              data ← call get_json;
              if negb (truthy data) then
                mret (error_response "Données JSON manquantes" 400)
              else
                latitude ← call (v ← get data "latitude" JNull; float v);
                longitude ← call (v ← get data "longitude" JNull; float v);
                radius_km ← call (v ← get data "radius_km" (JNum 2); float v);
                if decide (¬ (-90 <= latitude ∧ latitude <= 90)) then
                  mret (error_response "Latitude invalide" 400)
                else if decide (¬ (-180 <= longitude ∧ longitude <= 180)) then
                  mret (error_response "Longitude invalide" 400)
                else if decide (¬ (0.5 <= radius_km ∧ radius_km <= 10)) then
                  mret (error_response "Rayon doit être entre 0.5 et 10 km" 400)
                else
                  results ←
                    call (analyze_hexagon w analyzer latitude longitude radius_km);
                  mret {| body := BodyResults results; status_code := 200 |}
          end)
         (λ e, mret (error_response (str e) 500))) ().

(** The view [get_hexagon_geojson] (lines 61-75).  Calling the method on a
    missing analyzer raises. *)
Definition get_hexagon_geojson (w : World) (analyzer : option GeospatialAnalyzer)
    (args : string → option string) : Exc Response :=
  run (try_except
         (latitude ← call (float_arg (args "lat") None);
          longitude ← call (float_arg (args "lon") None);
          radius_km ← call (float_arg (args "radius") (Some 2));
          geojson ←
            call (match analyzer with
                  | Some analyzer =>
                      get_hexagon_geojson w analyzer latitude longitude radius_km
                  | None => Raise (Exception "AttributeError")
                  end);
          mret {| body := BodyGeoJSON geojson; status_code := 200 |})
         (λ e, mret (error_response (str e) 500))) ().

(** The view [health] (lines 78-87). *)
Definition health (analyzer : option GeospatialAnalyzer) : Exc Response :=
  let status :=
    BodyHealth "ok" "API fonctionnelle" (bool_decide (analyzer ≠ None)) in
  Ok {| body := status; status_code := 200 |}.

End Views.

End App.

(** ** Requests for worked examples of the views *)

(** A parser that knows two spellings. *)
Definition demo_float_of_string (s : string) : Exc R :=
  if decide (s = "5") then Ok 5
  else if decide (s = "-1") then Ok (-1)
  else Raise (Exception "ValueError").

(** The body [{"latitude": 5, "longitude": 5}]. *)
Definition demo_body : gmap string App.JSON :=
  <["latitude" := App.JNum 5]> (<["longitude" := App.JNum 5]> ∅).

(** The body [{"longitude": 5}]. *)
Definition body_without_latitude : gmap string App.JSON :=
  <["longitude" := App.JNum 5]> ∅.

(** The query [?lat=5&lon=5&radius=-1]. *)
Definition demo_args (name : string) : option string :=
  if decide (name = "lat") then Some "5"
  else if decide (name = "lon") then Some "5"
  else if decide (name = "radius") then Some "-1"
  else None.

(** ** Proof automation *)

(** Unfolds the operations of the monads. *)
Ltac unfold_monad :=
  unfold mbind, mret, M_bind, M_ret, Exc_bind, Exc_ret, bind, ret, call,
    try_except, get_state, run in *.

(** Case analysis on membership in an explicit list. *)
Ltac elem_of_cases H :=
  repeat (apply elem_of_cons in H as [->|H]); [..|by apply elem_of_nil in H].

(** Case analysis on the key looked up in two mappings built by the same
    sequence of assignments. *)
Ltac peel_insert k :=
  lazymatch goal with
  | |- <[?a := _]> _ !! k = <[?a := _]> _ !! k =>
      destruct (decide (a = k)) as [<-|];
      [rewrite !lookup_insert_eq; try done
      |rewrite !(lookup_insert_ne _ a k) by done]
  end.

(** * Properties *)

(** ** The hexagon builder *)

Lemma seqZ_0_6 : seqZ 0 6 = [0; 1; 2; 3; 4; 5]%Z.
Proof. reflexivity. Qed.

Lemma create_hexagon_projected_unfold cx cy r crs :
  create_hexagon_projected cx cy r crs =
  [hexagon_vertex cx cy r 0; hexagon_vertex cx cy r 1; hexagon_vertex cx cy r 2;
   hexagon_vertex cx cy r 3; hexagon_vertex cx cy r 4; hexagon_vertex cx cy r 5;
   hexagon_vertex cx cy r 0].
Proof. unfold create_hexagon_projected. rewrite seqZ_0_6. reflexivity. Qed.

Lemma hexagon_vertex_distance cx cy r i :
  distance (hexagon_vertex cx cy r i) (cx, cy) = Rabs r.
Proof.
  unfold distance, hexagon_vertex; cbn [fst snd].
  set (a := radians _).
  replace (Rsqr (cx + r * cos a - cx) + Rsqr (cy + r * sin a - cy))
    with (Rsqr r * (Rsqr (sin a) + Rsqr (cos a))) by (unfold Rsqr; ring).
  rewrite sin2_cos2, Rmult_1_r. apply sqrt_Rsqr_abs.
Qed.

(** The six angles of the loop, in radians. *)
Lemma angle_0 : radians (IZR (60 * 0 - 30)) = - (PI / 6).
Proof. unfold radians. change (60 * 0 - 30)%Z with (-30)%Z. lra. Qed.
Lemma angle_1 : radians (IZR (60 * 1 - 30)) = PI / 6.
Proof. unfold radians. change (60 * 1 - 30)%Z with 30%Z. lra. Qed.
Lemma angle_2 : radians (IZR (60 * 2 - 30)) = PI / 2.
Proof. unfold radians. change (60 * 2 - 30)%Z with 90%Z. lra. Qed.
Lemma angle_3 : radians (IZR (60 * 3 - 30)) = - (PI / 6) + PI.
Proof. unfold radians. change (60 * 3 - 30)%Z with 150%Z. lra. Qed.
Lemma angle_4 : radians (IZR (60 * 4 - 30)) = PI / 6 + PI.
Proof. unfold radians. change (60 * 4 - 30)%Z with 210%Z. lra. Qed.
Lemma angle_5 : radians (IZR (60 * 5 - 30)) = PI / 2 + PI.
Proof. unfold radians. change (60 * 5 - 30)%Z with 270%Z. lra. Qed.

Lemma hexagon_vertices_explicit cx cy r crs :
  create_hexagon_projected cx cy r crs =
  [(cx + r * (sqrt 3 / 2), cy + r * - (1 / 2));
   (cx + r * (sqrt 3 / 2), cy + r * (1 / 2));
   (cx + r * 0, cy + r * 1);
   (cx + r * - (sqrt 3 / 2), cy + r * (1 / 2));
   (cx + r * - (sqrt 3 / 2), cy + r * - (1 / 2));
   (cx + r * 0, cy + r * -1);
   (cx + r * (sqrt 3 / 2), cy + r * - (1 / 2))].
Proof.
  rewrite create_hexagon_projected_unfold. unfold hexagon_vertex.
  rewrite angle_0, angle_1, angle_2, angle_3, angle_4, angle_5.
  rewrite !neg_cos, !neg_sin, !cos_neg, !sin_neg.
  rewrite cos_PI6, sin_PI6, cos_PI2, sin_PI2.
  repeat f_equal; lra.
Qed.

Lemma hexagon_polygon_area cx cy r crs :
  polygon_area (create_hexagon_projected cx cy r crs) = 3 * sqrt 3 / 2 * Rsqr r.
Proof.
  rewrite hexagon_vertices_explicit. unfold polygon_area.
  cbn [ring_signed_area2 fst snd].
  match goal with
  | |- Rabs ?e / 2 = _ =>
      replace e with (3 * sqrt 3 * Rsqr r) by (unfold Rsqr; field)
  end.
  rewrite Rabs_pos_eq; [lra|].
  assert (0 <= sqrt 3) by apply sqrt_pos.
  assert (0 <= Rsqr r) by apply Rle_0_sqr.
  nra.
Qed.

(** ** Running the steps of [analyze_hexagon] *)

Lemma set_result_run key v (s : gmap string Value) :
  set_result key v s = (Ok (), <[key := v]> s).
Proof. reflexivity. Qed.

Lemma set_elevation_run lo mean hi (s : gmap string Value) :
  set_elevation lo mean hi s =
  (Ok (), <["elevation_max" := VFloat hi]>
            (<["elevation_mean" := VFloat mean]>
               (<["elevation_min" := VFloat lo]> s))).
Proof. reflexivity. Qed.

Lemma set_buildings_run d a (s : gmap string Value) :
  set_buildings d a s =
  (Ok (), <["total_building_area_sq_m" := a]> (<["building_density" := d]> s)).
Proof. reflexivity. Qed.

Lemma set_water_run p a (s : gmap string Value) :
  set_water p a s =
  (Ok (), <["water_area_sq_m" := a]> (<["water_percentage" := p]> s)).
Proof. reflexivity. Qed.

Lemma set_landuse_run d p b (s : gmap string Value) :
  set_landuse d p b s =
  (Ok (), <["landuse_breakdown" := VDict b]>
            (<["dominant_landuse_percentage" := p]>
               (<["dominant_landuse" := VStr d]> s))).
Proof. reflexivity. Qed.

(** Every step completes, whatever the libraries do, and writes its own keys
    with values that do not depend on the dict it is started on. *)

Lemma elevation_analysis_total w ds hex :
  ∃ lo mean hi, ∀ s : gmap string Value,
    elevation_analysis w ds hex s = set_elevation lo mean hi s.
Proof.
  unfold elevation_analysis. unfold_monad.
  destruct (mask w ds (hex_geometry hex)) as [cells|e].
  - destruct (decide (0 < length (filter (λ v, Some v ≠ nodata ds) cells))%nat);
      do 3 eexists; intros s; reflexivity.
  - do 3 eexists; intros s; reflexivity.
Qed.

Lemma roads_analysis_total w self hex pcrs :
  ∃ v, ∀ s : gmap string Value,
    roads_analysis w self hex pcrs s = set_result "total_road_length_m" v s.
Proof.
  unfold roads_analysis, roads_body. unfold_monad.
  destruct (roads self) as [layer|]; [|eexists; intros s; reflexivity].
  destruct (ensure_crs w layer pcrs) as [proj|e];
    [|eexists; intros s; reflexivity].
  destruct (overlay w proj hex) as [inter|e];
    [|eexists; intros s; reflexivity].
  destruct (decide (0 < length (rows inter))%nat);
    eexists; intros s; reflexivity.
Qed.

Lemma buildings_analysis_total w self hex pcrs :
  ∃ d a, ∀ s : gmap string Value,
    buildings_analysis w self hex pcrs s = set_buildings d a s.
Proof.
  unfold buildings_analysis, buildings_body. unfold_monad.
  destruct (buildings self) as [layer|]; [|do 2 eexists; intros s; reflexivity].
  destruct (ensure_crs w layer pcrs) as [proj|e];
    [|do 2 eexists; intros s; reflexivity].
  destruct (overlay w proj hex) as [inter|e];
    [|do 2 eexists; intros s; reflexivity].
  destruct (decide (0 < length (rows inter))%nat);
    do 2 eexists; intros s; reflexivity.
Qed.

Lemma water_analysis_total w self hex pcrs :
  ∃ p a, ∀ s : gmap string Value,
    water_analysis w self hex pcrs s = set_water p a s.
Proof.
  unfold water_analysis. unfold_monad.
  destruct (total_water w self hex pcrs) as [total|e];
    do 2 eexists; intros s; reflexivity.
Qed.

Lemma landuse_analysis_total w self hex pcrs :
  ∃ d p b, ∀ s : gmap string Value,
    landuse_analysis w self hex pcrs s = set_landuse d p b s.
Proof.
  unfold landuse_analysis, landuse_body. unfold_monad.
  destruct (landuse self) as [layer|]; [|do 3 eexists; intros s; reflexivity].
  destruct (ensure_crs w layer pcrs) as [proj|e];
    [|do 3 eexists; intros s; reflexivity].
  destruct (overlay w proj hex) as [inter|e];
    [|do 3 eexists; intros s; reflexivity].
  destruct (decide (0 < length (rows inter))%nat);
    [|do 3 eexists; intros s; reflexivity].
  destruct (find_type_column type_column_candidates (columns inter)) as [col|];
    [|do 3 eexists; intros s; reflexivity].
  destruct (decide (0 < length (groupby_area_sum col (rows inter)))%nat);
    do 3 eexists; intros s; reflexivity.
Qed.

Lemma roads_analysis_run w self hex pcrs (s : gmap string Value) :
  roads_analysis w self hex pcrs s =
  set_result "total_road_length_m"
    (produced (roads_analysis w self hex pcrs) "total_road_length_m") s.
Proof.
  destruct (roads_analysis_total w self hex pcrs) as [v Hv].
  unfold produced. rewrite !Hv, !set_result_run. cbn [snd].
  by rewrite lookup_insert_eq.
Qed.

Lemma elevation_analysis_run w ds hex (s : gmap string Value) :
  elevation_analysis w ds hex s =
  (Ok (),
   <["elevation_max" := produced (elevation_analysis w ds hex) "elevation_max"]>
     (<["elevation_mean" := produced (elevation_analysis w ds hex) "elevation_mean"]>
        (<["elevation_min" := produced (elevation_analysis w ds hex) "elevation_min"]> s))).
Proof.
  destruct (elevation_analysis_total w ds hex) as (lo & mean & hi & Hv).
  unfold produced. rewrite !Hv, !set_elevation_run. cbn [snd].
  by simplify_map_eq.
Qed.

Lemma buildings_analysis_run w self hex pcrs (s : gmap string Value) :
  buildings_analysis w self hex pcrs s =
  (Ok (),
   <["total_building_area_sq_m" :=
       produced (buildings_analysis w self hex pcrs) "total_building_area_sq_m"]>
     (<["building_density" :=
          produced (buildings_analysis w self hex pcrs) "building_density"]> s)).
Proof.
  destruct (buildings_analysis_total w self hex pcrs) as (d & a & Hv).
  unfold produced. rewrite !Hv, !set_buildings_run. cbn [snd].
  by simplify_map_eq.
Qed.

Lemma water_analysis_run w self hex pcrs (s : gmap string Value) :
  water_analysis w self hex pcrs s =
  (Ok (),
   <["water_area_sq_m" := produced (water_analysis w self hex pcrs) "water_area_sq_m"]>
     (<["water_percentage" :=
          produced (water_analysis w self hex pcrs) "water_percentage"]> s)).
Proof.
  destruct (water_analysis_total w self hex pcrs) as (p & a & Hv).
  unfold produced. rewrite !Hv, !set_water_run. cbn [snd].
  by simplify_map_eq.
Qed.

Lemma landuse_analysis_run w self hex pcrs (s : gmap string Value) :
  landuse_analysis w self hex pcrs s =
  (Ok (),
   <["landuse_breakdown" :=
       produced (landuse_analysis w self hex pcrs) "landuse_breakdown"]>
     (<["dominant_landuse_percentage" :=
          produced (landuse_analysis w self hex pcrs) "dominant_landuse_percentage"]>
        (<["dominant_landuse" :=
             produced (landuse_analysis w self hex pcrs) "dominant_landuse"]> s))).
Proof.
  destruct (landuse_analysis_total w self hex pcrs) as (d & p & b & Hv).
  unfold produced. rewrite !Hv, !set_landuse_run. cbn [snd].
  by simplify_map_eq.
Qed.

Lemma vector_metrics_run w self hex pcrs (s : gmap string Value) :
  vector_metrics w self hex pcrs s =
  (Ok (),
   <["hexagon_area_sq_km" := VFloat (hexagon_area hex / 1000000)]>
     ((landuse_analysis w self hex pcrs
         ((water_analysis w self hex pcrs
             ((buildings_analysis w self hex pcrs
                 ((roads_analysis w self hex pcrs s).2)).2)).2)).2)).
Proof.
  unfold vector_metrics. unfold_monad.
  rewrite roads_analysis_run, set_result_run. cbn [snd].
  rewrite buildings_analysis_run. cbn [snd].
  rewrite water_analysis_run. cbn [snd].
  rewrite landuse_analysis_run. cbn [snd].
  reflexivity.
Qed.

(** The mapping built for a hexagon, key by key. *)
Lemma results_for_unfold w self ds hex :
  let pcrs := crs ds in
  results_for w self ds hex =
  <["hexagon_area_sq_km" := VFloat (hexagon_area hex / 1000000)]>
  (<["landuse_breakdown" :=
       produced (landuse_analysis w self hex pcrs) "landuse_breakdown"]>
  (<["dominant_landuse_percentage" :=
       produced (landuse_analysis w self hex pcrs) "dominant_landuse_percentage"]>
  (<["dominant_landuse" :=
       produced (landuse_analysis w self hex pcrs) "dominant_landuse"]>
  (<["water_area_sq_m" := produced (water_analysis w self hex pcrs) "water_area_sq_m"]>
  (<["water_percentage" :=
       produced (water_analysis w self hex pcrs) "water_percentage"]>
  (<["total_building_area_sq_m" :=
       produced (buildings_analysis w self hex pcrs) "total_building_area_sq_m"]>
  (<["building_density" :=
       produced (buildings_analysis w self hex pcrs) "building_density"]>
  (<["total_road_length_m" :=
       produced (roads_analysis w self hex pcrs) "total_road_length_m"]>
  (<["elevation_max" := produced (elevation_analysis w ds hex) "elevation_max"]>
  (<["elevation_mean" := produced (elevation_analysis w ds hex) "elevation_mean"]>
  (<["elevation_min" := produced (elevation_analysis w ds hex) "elevation_min"]>
     ∅))))))))))).
Proof.
  intros pcrs. unfold results_for. unfold_monad.
  rewrite elevation_analysis_run, vector_metrics_run. cbn [snd].
  rewrite roads_analysis_run, set_result_run. cbn [snd].
  rewrite buildings_analysis_run. cbn [snd].
  rewrite water_analysis_run. cbn [snd].
  rewrite landuse_analysis_run. cbn [snd].
  reflexivity.
Qed.

Lemma results_for_dom w self ds hex :
  dom (results_for w self ds hex) = result_keys.
Proof.
  rewrite results_for_unfold. rewrite !dom_insert_L, dom_empty_L.
  unfold result_keys. cbn [list_to_set foldr]. set_solver.
Qed.

(** ** The three ways [analyze_hexagon] ends *)

Lemma analyze_hexagon_ok w self lat lon radius_km ds cx cy :
  rasterio_open w (dem_path self) = Ok ds →
  transform w (crs ds) lat lon = Ok (cx, cy) →
  analyze_hexagon w self lat lon radius_km =
  Ok (results_for w self ds (select_hexagon ds cx cy radius_km)).
Proof.
  intros Hopen Htr. unfold analyze_hexagon, raster_block, results_for.
  unfold_monad. rewrite Hopen, Htr.
  rewrite elevation_analysis_run, !vector_metrics_run. reflexivity.
Qed.

Lemma analyze_hexagon_open_raise w self lat lon radius_km e :
  rasterio_open w (dem_path self) = Raise e →
  analyze_hexagon w self lat lon radius_km = Ok ∅.
Proof.
  intros Hopen. unfold analyze_hexagon, raster_block. unfold_monad.
  by rewrite Hopen.
Qed.

Lemma analyze_hexagon_transform_raise w self lat lon radius_km ds e :
  rasterio_open w (dem_path self) = Ok ds →
  transform w (crs ds) lat lon = Raise e →
  analyze_hexagon w self lat lon radius_km = Ok ∅.
Proof.
  intros Hopen Htr. unfold analyze_hexagon, raster_block. unfold_monad.
  by rewrite Hopen, Htr.
Qed.

Lemma select_hexagon_cases ds cx cy radius_km :
  select_hexagon ds cx cy radius_km =
  if decide (no_overlap
               (total_bounds
                  (create_hexagon_projected cx cy (radius_km * 1000) (crs ds)))
               (bounds ds))
  then recentred_hexagon ds radius_km
  else {| hex_geometry :=
            create_hexagon_projected cx cy (radius_km * 1000) (crs ds);
          hex_crs := crs ds |}.
Proof. reflexivity. Qed.

Lemma select_hexagon_area ds cx cy radius_km :
  hexagon_area (select_hexagon ds cx cy radius_km) =
  3 * sqrt 3 / 2 * Rsqr (radius_km * 1000).
Proof.
  rewrite select_hexagon_cases. unfold hexagon_area, recentred_hexagon.
  case_decide; cbn [hex_geometry]; apply hexagon_polygon_area.
Qed.

Lemma select_hexagon_crs ds cx cy radius_km :
  hex_crs (select_hexagon ds cx cy radius_km) = crs ds.
Proof. rewrite select_hexagon_cases. by case_decide. Qed.

(** ** C6: shape of the hexagon *)

(** C6, as amended.  For every centre (x, y) and radius r,
    [create_hexagon_projected] (a function of its arguments and of nothing
    else) returns a ring of exactly 7 coordinate pairs whose first pair is
    also its last.  For r ≥ 0, vertex i, for i = 0..5, is the point at
    angle (60·i − 30) degrees from the centre and at Euclidean distance
    exactly r from it.  For r < 0 it is the opposite point: the one at angle
    (60·i + 150) degrees and at distance −r. *)
Theorem create_hexagon_projected_ring (cx cy r : R) (crs : CRS) :
  let poly := create_hexagon_projected cx cy r crs in
  length poly = 7%nat ∧
  is_Some (poly !! 0%nat) ∧ poly !! 0%nat = poly !! 6%nat ∧
  ∀ i : nat, (i < 6)%nat →
    ∃ v, poly !! i = Some v ∧
         (0 <= r →
          v = (cx + r * cos (radians (60 * INR i - 30)),
               cy + r * sin (radians (60 * INR i - 30))) ∧
          distance v (cx, cy) = r) ∧
         (r < 0 →
          v = (cx + - r * cos (radians (60 * INR i + 150)),
               cy + - r * sin (radians (60 * INR i + 150))) ∧
          distance v (cx, cy) = - r).
Proof.
  intros poly. subst poly. rewrite create_hexagon_projected_unfold.
  split; [reflexivity|]. split; [by eexists|]. split; [reflexivity|].
  intros i Hi.
  assert (Hv : ∀ z : Z, IZR (60 * z - 30) = 60 * INR i - 30 →
            hexagon_vertex cx cy r z =
            (cx + r * cos (radians (60 * INR i - 30)),
             cy + r * sin (radians (60 * INR i - 30)))).
  { intros z Hz. unfold hexagon_vertex. by rewrite Hz. }
  assert (Hopp : radians (60 * INR i + 150) = radians (60 * INR i - 30) + PI).
  { unfold radians. field. }
  assert (Hall : ∀ z : Z, IZR (60 * z - 30) = 60 * INR i - 30 →
            (0 <= r →
             hexagon_vertex cx cy r z =
             (cx + r * cos (radians (60 * INR i - 30)),
              cy + r * sin (radians (60 * INR i - 30))) ∧
             distance (hexagon_vertex cx cy r z) (cx, cy) = r) ∧
            (r < 0 →
             hexagon_vertex cx cy r z =
             (cx + - r * cos (radians (60 * INR i + 150)),
              cy + - r * sin (radians (60 * INR i + 150))) ∧
             distance (hexagon_vertex cx cy r z) (cx, cy) = - r)).
  { intros z Hz. rewrite hexagon_vertex_distance. split; intros Hr.
    - split; [by apply Hv|]. by apply Rabs_pos_eq.
    - split; [|by apply Rabs_left].
      rewrite (Hv z Hz), Hopp, neg_cos, neg_sin. f_equal; ring. }
  destruct i as [|[|[|[|[|[|]]]]]]; try lia;
    (eexists; split; [reflexivity|]);
    apply Hall; cbn [INR]; [change (60 * 0 - 30)%Z with (-30)%Z
                           |change (60 * 1 - 30)%Z with 30%Z
                           |change (60 * 2 - 30)%Z with 90%Z
                           |change (60 * 3 - 30)%Z with 150%Z
                           |change (60 * 4 - 30)%Z with 210%Z
                           |change (60 * 5 - 30)%Z with 270%Z]; lra.
Qed.

Lemma create_hexagon_projected_ring_witness :
  ∃ v, create_hexagon_projected 0 0 2000 demo_crs !! 1%nat = Some v ∧
       v = (0 + 2000 * cos (radians (60 * INR 1 - 30)),
            0 + 2000 * sin (radians (60 * INR 1 - 30))) ∧
       distance v (0, 0) = 2000.
Proof.
  destruct (create_hexagon_projected_ring 0 0 2000 demo_crs)
    as (_ & _ & _ & Hvertex).
  destruct (Hvertex 1%nat ltac:(lia)) as (v & Hv & Hpos & _).
  exists v. split; [exact Hv|]. apply Hpos. lra.
Defined.

(** C6 as it was stated fails for a negative radius: the vertices of the
    hexagon of radius -1 are at distance 1 from the centre, not -1. *)
Lemma create_hexagon_projected_negative_radius :
  ∃ v, create_hexagon_projected 0 0 (-1) demo_crs !! 0%nat = Some v ∧
       distance v (0, 0) ≠ -1.
Proof.
  eexists. split.
  - rewrite create_hexagon_projected_unfold. reflexivity.
  - rewrite hexagon_vertex_distance, Rabs_left by lra. lra.
Qed.

(** ** C7: area of the hexagon *)

(** C7.  For every radius r the area of the polygon built by
    [create_hexagon_projected] is the area (3√3/2)·r² of the regular hexagon,
    and the entry [hexagon_area_sq_km] of a completed analysis is that area,
    for r = radius_km·1000, divided by 1e6. *)
Theorem hexagon_area_analytic :
  (∀ (cx cy r : R) (crs : CRS),
     polygon_area (create_hexagon_projected cx cy r crs)
     = 3 * sqrt 3 / 2 * Rsqr r) ∧
  (∀ w self lat lon radius_km ds cx cy,
     rasterio_open w (dem_path self) = Ok ds →
     transform w (crs ds) lat lon = Ok (cx, cy) →
     ∃ m hex,
       analyze_hexagon w self lat lon radius_km = Ok m ∧
       hex = select_hexagon ds cx cy radius_km ∧
       m !! "hexagon_area_sq_km"
       = Some (VFloat (polygon_area (hex_geometry hex) / 1000000)) ∧
       polygon_area (hex_geometry hex)
       = 3 * sqrt 3 / 2 * Rsqr (radius_km * 1000)).
Proof.
  split; [apply hexagon_polygon_area|].
  intros w self lat lon radius_km ds cx cy Hopen Htr.
  eexists _, _. split; [by eapply analyze_hexagon_ok|]. split; [reflexivity|].
  split; [|apply select_hexagon_area].
  rewrite results_for_unfold. by rewrite lookup_insert_eq.
Qed.

Lemma demo_open : rasterio_open demo_world (dem_path demo_analyzer) = Ok demo_dataset.
Proof. reflexivity. Qed.

Lemma demo_transform lat lon :
  transform demo_world (crs demo_dataset) lat lon = Ok (lon * 1000, lat * 1000).
Proof. reflexivity. Qed.

Lemma hexagon_area_analytic_witness :
  ∃ m, analyze_hexagon demo_world demo_analyzer 5 5 2 = Ok m ∧
       m !! "hexagon_area_sq_km"
       = Some (VFloat (3 * sqrt 3 / 2 * Rsqr (2 * 1000) / 1000000)).
Proof.
  destruct hexagon_area_analytic as [_ Hkm].
  destruct (Hkm demo_world demo_analyzer 5 5 2 demo_dataset (5 * 1000) (5 * 1000)
              demo_open (demo_transform 5 5))
    as (m & hex & Hm & _ & Hlook & Harea).
  exists m. split; [exact Hm|]. by rewrite Hlook, Harea.
Defined.

(** ** Bounding box of the hexagon *)

Lemma foldr_Rmin_spec (x : R) (tl : list R) :
  foldr Rmin x tl ∈ x :: tl ∧ ∀ y, y ∈ x :: tl → foldr Rmin x tl <= y.
Proof.
  induction tl as [|z tl [IHin IHle]]; cbn [foldr].
  - split; [left|]. intros y ->%list_elem_of_singleton. lra.
  - split.
    + destruct (Rle_dec z (foldr Rmin x tl)).
      * rewrite Rmin_left by done. right; left.
      * rewrite Rmin_right by lra.
        apply elem_of_cons in IHin as [Heq|IHin]; [rewrite Heq; left|right; by right].
    + intros y Hy. pose proof (Rmin_l z (foldr Rmin x tl)).
      pose proof (Rmin_r z (foldr Rmin x tl)).
      apply elem_of_cons in Hy as [->|Hy].
      * specialize (IHle x ltac:(left)). lra.
      * apply elem_of_cons in Hy as [->|Hy]; [lra|].
        specialize (IHle y ltac:(by right)). lra.
Qed.

Lemma foldr_Rmax_spec (x : R) (tl : list R) :
  foldr Rmax x tl ∈ x :: tl ∧ ∀ y, y ∈ x :: tl → y <= foldr Rmax x tl.
Proof.
  induction tl as [|z tl [IHin IHle]]; cbn [foldr].
  - split; [left|]. intros y ->%list_elem_of_singleton. lra.
  - split.
    + destruct (Rle_dec z (foldr Rmax x tl)).
      * rewrite Rmax_right by done.
        apply elem_of_cons in IHin as [Heq|IHin]; [rewrite Heq; left|right; by right].
      * rewrite Rmax_left by lra. right; left.
    + intros y Hy. pose proof (Rmax_l z (foldr Rmax x tl)).
      pose proof (Rmax_r z (foldr Rmax x tl)).
      apply elem_of_cons in Hy as [->|Hy].
      * specialize (IHle x ltac:(left)). lra.
      * apply elem_of_cons in Hy as [->|Hy]; [lra|].
        specialize (IHle y ltac:(by right)). lra.
Qed.

Lemma Rlist_min_eq d (l : list R) m :
  m ∈ l → (∀ y, y ∈ l → m <= y) → Rlist_min d l = m.
Proof.
  destruct l as [|x tl]; [by intros ?%elem_of_nil|]. intros Hin Hle.
  destruct (foldr_Rmin_spec x tl) as [Hin' Hle']. unfold Rlist_min.
  apply Rle_antisym; [by apply Hle'|by apply Hle].
Qed.

Lemma Rlist_max_eq d (l : list R) m :
  m ∈ l → (∀ y, y ∈ l → y <= m) → Rlist_max d l = m.
Proof.
  destruct l as [|x tl]; [by intros ?%elem_of_nil|]. intros Hin Hle.
  destruct (foldr_Rmax_spec x tl) as [Hin' Hle']. unfold Rlist_max.
  apply Rle_antisym; [by apply Hle|by apply Hle'].
Qed.

Lemma hexagon_total_bounds cx cy r crs :
  0 <= r →
  total_bounds (create_hexagon_projected cx cy r crs)
  = (cx - r * (sqrt 3 / 2), cy - r, cx + r * (sqrt 3 / 2), cy + r).
Proof.
  intros Hr. rewrite hexagon_vertices_explicit.
  assert (Ht : 0 <= r * (sqrt 3 / 2)).
  { apply Rmult_le_pos; [done|]. pose proof (sqrt_pos 3). lra. }
  replace (r * - (sqrt 3 / 2)) with (- (r * (sqrt 3 / 2))) by ring.
  set (t := r * (sqrt 3 / 2)) in *. clearbody t.
  unfold total_bounds. cbn [fmap list_fmap fst snd].
  repeat f_equal.
  - apply Rlist_min_eq.
    + replace (cx - t) with (cx + - t) by ring. set_solver.
    + intros y Hy. elem_of_cases Hy; lra.
  - apply Rlist_min_eq.
    + replace (cy - r) with (cy + r * -1) by ring. set_solver.
    + intros y Hy. elem_of_cases Hy; lra.
  - apply Rlist_max_eq.
    + set_solver.
    + intros y Hy. elem_of_cases Hy; lra.
  - apply Rlist_max_eq.
    + replace (cy + r) with (cy + r * 1) by ring. set_solver.
    + intros y Hy. elem_of_cases Hy; lra.
Qed.

(** A hexagon whose left edge is beyond the right edge of the raster. *)
Lemma no_overlap_east ds cx cy r crs :
  0 <= r → bounds_right (bounds ds) < cx - r →
  no_overlap (total_bounds (create_hexagon_projected cx cy r crs)) (bounds ds).
Proof.
  intros Hr Hcx. rewrite hexagon_total_bounds by done.
  unfold no_overlap. left.
  assert (sqrt 3 / 2 <= 1).
  { assert (sqrt 3 <= sqrt 4) by (apply sqrt_le_1_alt; lra).
    replace 4 with (Rsqr 2) in H by (unfold Rsqr; lra).
    rewrite sqrt_Rsqr in H by lra. lra. }
  nra.
Qed.

Lemma select_hexagon_at_centre ds radius_km :
  select_hexagon ds
    ((bounds_left (bounds ds) + bounds_right (bounds ds)) / 2)
    ((bounds_bottom (bounds ds) + bounds_top (bounds ds)) / 2) radius_km
  = recentred_hexagon ds radius_km.
Proof. rewrite select_hexagon_cases. by case_decide. Qed.

Lemma select_hexagon_no_overlap ds cx cy radius_km :
  no_overlap
    (total_bounds (create_hexagon_projected cx cy (radius_km * 1000) (crs ds)))
    (bounds ds) →
  select_hexagon ds cx cy radius_km = recentred_hexagon ds radius_km.
Proof. intros H. rewrite select_hexagon_cases. by rewrite decide_True. Qed.

Lemma select_hexagon_overlap ds cx cy radius_km :
  ¬ no_overlap
      (total_bounds (create_hexagon_projected cx cy (radius_km * 1000) (crs ds)))
      (bounds ds) →
  select_hexagon ds cx cy radius_km
  = {| hex_geometry := create_hexagon_projected cx cy (radius_km * 1000) (crs ds);
       hex_crs := crs ds |}.
Proof. intros H. rewrite select_hexagon_cases. by rewrite decide_False. Qed.

(** Reading the entries of a completed analysis. *)
Lemma results_for_lookup w self ds hex :
  let m := results_for w self ds hex in
  let pcrs := crs ds in
  m !! "elevation_min"
    = Some (produced (elevation_analysis w ds hex) "elevation_min") ∧
  m !! "elevation_mean"
    = Some (produced (elevation_analysis w ds hex) "elevation_mean") ∧
  m !! "elevation_max"
    = Some (produced (elevation_analysis w ds hex) "elevation_max") ∧
  m !! "total_road_length_m"
    = Some (produced (roads_analysis w self hex pcrs) "total_road_length_m") ∧
  m !! "building_density"
    = Some (produced (buildings_analysis w self hex pcrs) "building_density") ∧
  m !! "total_building_area_sq_m"
    = Some (produced (buildings_analysis w self hex pcrs) "total_building_area_sq_m") ∧
  m !! "water_percentage"
    = Some (produced (water_analysis w self hex pcrs) "water_percentage") ∧
  m !! "water_area_sq_m"
    = Some (produced (water_analysis w self hex pcrs) "water_area_sq_m") ∧
  m !! "dominant_landuse"
    = Some (produced (landuse_analysis w self hex pcrs) "dominant_landuse") ∧
  m !! "dominant_landuse_percentage"
    = Some (produced (landuse_analysis w self hex pcrs) "dominant_landuse_percentage") ∧
  m !! "landuse_breakdown"
    = Some (produced (landuse_analysis w self hex pcrs) "landuse_breakdown") ∧
  m !! "hexagon_area_sq_km" = Some (VFloat (hexagon_area hex / 1000000)).
Proof.
  intros m pcrs. subst m. rewrite results_for_unfold. fold pcrs.
  repeat split; by simplify_map_eq.
Qed.

(** ** C1: the raster cannot be opened *)

(** C1, as amended.  [analyze_hexagon] never raises.  If the raster dataset
    cannot be opened (or the centre cannot be projected) it returns the
    mapping filled so far, which is empty; whenever the raster opens and the
    centre is projected, the mapping it returns holds exactly the twelve keys
    of the result interface. *)
Theorem analyze_hexagon_raster_failure w self lat lon radius_km :
  (∃ m, analyze_hexagon w self lat lon radius_km = Ok m
        ∧ (m = ∅ ∨ dom m = result_keys)) ∧
  (∀ e, rasterio_open w (dem_path self) = Raise e →
        analyze_hexagon w self lat lon radius_km = Ok ∅) ∧
  (∀ ds e, rasterio_open w (dem_path self) = Ok ds →
           transform w (crs ds) lat lon = Raise e →
           analyze_hexagon w self lat lon radius_km = Ok ∅) ∧
  (∀ ds c, rasterio_open w (dem_path self) = Ok ds →
           transform w (crs ds) lat lon = Ok c →
           ∃ m, analyze_hexagon w self lat lon radius_km = Ok m
                ∧ dom m = result_keys).
Proof.
  assert (Hfull : ∀ ds c, rasterio_open w (dem_path self) = Ok ds →
            transform w (crs ds) lat lon = Ok c →
            ∃ m, analyze_hexagon w self lat lon radius_km = Ok m
                 ∧ dom m = result_keys).
  { intros ds [cx cy] Hopen Htr. eexists. split; [by eapply analyze_hexagon_ok|].
    apply results_for_dom. }
  split; [|split; [|split]].
  - destruct (rasterio_open w (dem_path self)) as [ds|e] eqn:Hopen.
    + destruct (transform w (crs ds) lat lon) as [c|e] eqn:Htr.
      * destruct (Hfull ds c eq_refl Htr) as (m & Hm & Hdom). eauto.
      * exists ∅. split; [by eapply analyze_hexagon_transform_raise|by left].
    + exists ∅. split; [by eapply analyze_hexagon_open_raise|by left].
  - intros e. apply analyze_hexagon_open_raise.
  - intros ds e. apply analyze_hexagon_transform_raise.
  - exact Hfull.
Qed.

Lemma analyze_hexagon_raster_failure_witness :
  analyze_hexagon no_raster_world demo_analyzer 5 5 2 = Ok ∅ ∧
  ∃ m, analyze_hexagon demo_world demo_analyzer 5 5 2 = Ok m
       ∧ dom m = result_keys.
Proof.
  split.
  - destruct (analyze_hexagon_raster_failure no_raster_world demo_analyzer 5 5 2)
      as (_ & Hraise & _).
    apply (Hraise (Exception "RasterioIOError")). reflexivity.
  - destruct (analyze_hexagon_raster_failure demo_world demo_analyzer 5 5 2)
      as (_ & _ & _ & Hfull).
    apply (Hfull demo_dataset (5 * 1000, 5 * 1000)); reflexivity.
Defined.

(** C1 as it was stated fails: with a raster that cannot be opened the call
    does not end in an error, it returns a mapping, and that mapping holds
    none of the promised keys. *)
Lemma analyze_hexagon_unopenable_raster_returns_empty :
  rasterio_open no_raster_world (dem_path demo_analyzer)
    = Raise (Exception "RasterioIOError") ∧
  (∀ e, analyze_hexagon no_raster_world demo_analyzer 5 5 2 ≠ Raise e) ∧
  ∃ m, analyze_hexagon no_raster_world demo_analyzer 5 5 2 = Ok m ∧
       ("elevation_min" ∉ dom m) ∧ dom m ≠ result_keys.
Proof.
  assert (H : analyze_hexagon no_raster_world demo_analyzer 5 5 2 = Ok ∅)
    by (by eapply analyze_hexagon_open_raise).
  split; [reflexivity|]. split; [intros e; by rewrite H|].
  exists ∅. split; [exact H|]. rewrite dom_empty_L.
  split; [apply not_elem_of_empty|].
  intros Heq. assert (Hin : "elevation_min" ∈ result_keys).
  { unfold result_keys. apply elem_of_list_to_set. left. }
  rewrite <- Heq in Hin. by apply not_elem_of_empty in Hin.
Qed.

(** ** C9: [get_hexagon_geojson] *)

(** C9.  [get_hexagon_geojson] never raises: it always returns, and it
    returns [None] as soon as opening the raster, projecting the centre or
    reprojecting the hexagon raises; otherwise it returns the GeoJSON of the
    reprojected hexagon. *)
Theorem get_hexagon_geojson_never_raises w self lat lon radius_km :
  (∃ r, get_hexagon_geojson w self lat lon radius_km = Ok r) ∧
  (∀ e, rasterio_open w (dem_path self) = Raise e →
        get_hexagon_geojson w self lat lon radius_km = Ok None) ∧
  (∀ ds e, rasterio_open w (dem_path self) = Ok ds →
           transform w (crs ds) lat lon = Raise e →
           get_hexagon_geojson w self lat lon radius_km = Ok None) ∧
  (∀ ds cx cy e,
     rasterio_open w (dem_path self) = Ok ds →
     transform w (crs ds) lat lon = Ok (cx, cy) →
     hexagon_to_crs w
       {| hex_geometry :=
            create_hexagon_projected cx cy (radius_km * 1000) (crs ds);
          hex_crs := crs ds |} "EPSG:4326" = Raise e →
     get_hexagon_geojson w self lat lon radius_km = Ok None) ∧
  (∀ ds cx cy h,
     rasterio_open w (dem_path self) = Ok ds →
     transform w (crs ds) lat lon = Ok (cx, cy) →
     hexagon_to_crs w
       {| hex_geometry :=
            create_hexagon_projected cx cy (radius_km * 1000) (crs ds);
          hex_crs := crs ds |} "EPSG:4326" = Ok h →
     get_hexagon_geojson w self lat lon radius_km = Ok (Some (geo_interface h))).
Proof.
  unfold get_hexagon_geojson. unfold_monad.
  split; [|split; [|split; [|split]]].
  - destruct (rasterio_open w (dem_path self)) as [ds|e]; [|by eexists].
    destruct (transform w (crs ds) lat lon) as [[cx cy]|e]; [|by eexists].
    destruct (hexagon_to_crs w _ _); by eexists.
  - by intros e ->.
  - by intros ds e -> ->.
  - by intros ds cx cy e -> -> ->.
  - by intros ds cx cy h -> -> ->.
Qed.

Lemma get_hexagon_geojson_never_raises_witness :
  get_hexagon_geojson no_raster_world demo_analyzer 5 5 2 = Ok None ∧
  ∃ g, get_hexagon_geojson demo_world demo_analyzer 5 5 2 = Ok (Some g).
Proof.
  split.
  - destruct (get_hexagon_geojson_never_raises no_raster_world demo_analyzer 5 5 2)
      as (_ & Hraise & _).
    apply (Hraise (Exception "RasterioIOError")). reflexivity.
  - destruct (get_hexagon_geojson_never_raises demo_world demo_analyzer 5 5 2)
      as (_ & _ & _ & _ & Hok).
    eexists. eapply (Hok demo_dataset (5 * 1000) (5 * 1000)); reflexivity.
Defined.

(** ** C2 and C10: the fallback on a hexagon outside the raster *)

(** C2.  If the bounding box of the requested hexagon does not overlap the
    bounding box of the raster, the hexagon is replaced by the one centred
    on the middle of the raster's bounding box, with the same radius; the
    analysis is carried out once, on that hexagon; and the caller is not told:
    the mapping has the twelve usual keys and is the very mapping returned
    to a request whose centre projects onto the middle of the raster. *)
Theorem analyze_hexagon_recentres_once w self lat lon radius_km ds cx cy :
  rasterio_open w (dem_path self) = Ok ds →
  transform w (crs ds) lat lon = Ok (cx, cy) →
  no_overlap
    (total_bounds (create_hexagon_projected cx cy (radius_km * 1000) (crs ds)))
    (bounds ds) →
  let centre_x := (bounds_left (bounds ds) + bounds_right (bounds ds)) / 2 in
  let centre_y := (bounds_bottom (bounds ds) + bounds_top (bounds ds)) / 2 in
  let recentred :=
    {| hex_geometry :=
         create_hexagon_projected centre_x centre_y (radius_km * 1000) (crs ds);
       hex_crs := crs ds |} in
  select_hexagon ds cx cy radius_km = recentred ∧
  analyze_hexagon w self lat lon radius_km = Ok (results_for w self ds recentred) ∧
  dom (results_for w self ds recentred) = result_keys ∧
  ∀ lat' lon',
    transform w (crs ds) lat' lon' = Ok (centre_x, centre_y) →
    analyze_hexagon w self lat' lon' radius_km
    = analyze_hexagon w self lat lon radius_km.
Proof.
  intros Hopen Htr Hno centre_x centre_y recentred.
  assert (Hsel : select_hexagon ds cx cy radius_km = recentred)
    by (by apply select_hexagon_no_overlap).
  split; [exact Hsel|]. split; [|split].
  - rewrite <- Hsel. by eapply analyze_hexagon_ok.
  - apply results_for_dom.
  - intros lat' lon' Htr'.
    rewrite (analyze_hexagon_ok _ _ _ _ _ _ _ _ Hopen Htr').
    rewrite (analyze_hexagon_ok _ _ _ _ _ _ _ _ Hopen Htr).
    by rewrite Hsel, select_hexagon_at_centre.
Qed.

Lemma demo_far_east_no_overlap :
  no_overlap
    (total_bounds
       (create_hexagon_projected (1000 * 1000) (0 * 1000) (1 * 1000)
          (crs demo_dataset)))
    (bounds demo_dataset).
Proof. apply no_overlap_east; simpl; lra. Qed.

Lemma analyze_hexagon_recentres_once_witness :
  analyze_hexagon demo_world demo_analyzer 0 1000 1
  = Ok (results_for demo_world demo_analyzer demo_dataset
          {| hex_geometry :=
               create_hexagon_projected ((0 + 10000) / 2) ((0 + 10000) / 2)
                 (1 * 1000) demo_crs;
             hex_crs := demo_crs |}).
Proof.
  apply (analyze_hexagon_recentres_once demo_world demo_analyzer 0 1000 1
           demo_dataset (1000 * 1000) (0 * 1000)).
  - reflexivity.
  - reflexivity.
  - exact demo_far_east_no_overlap.
Defined.

(** C10.  Whenever the fallback fires, every entry of the returned mapping
    is computed on the recentred hexagon: the three elevation figures, the
    road length, the two building figures, the two water figures, the three
    land-use entries and the hexagon area.  The mapping has no other key, and
    it is the same for every requested centre that falls outside the raster,
    so nothing in it tells that a substitution took place. *)
Theorem fallback_hexagon_feeds_every_metric w self lat lon radius_km ds cx cy :
  rasterio_open w (dem_path self) = Ok ds →
  transform w (crs ds) lat lon = Ok (cx, cy) →
  no_overlap
    (total_bounds (create_hexagon_projected cx cy (radius_km * 1000) (crs ds)))
    (bounds ds) →
  let hex := recentred_hexagon ds radius_km in
  let pcrs := crs ds in
  ∃ m,
    analyze_hexagon w self lat lon radius_km = Ok m ∧
    m !! "elevation_min"
      = Some (produced (elevation_analysis w ds hex) "elevation_min") ∧
    m !! "elevation_mean"
      = Some (produced (elevation_analysis w ds hex) "elevation_mean") ∧
    m !! "elevation_max"
      = Some (produced (elevation_analysis w ds hex) "elevation_max") ∧
    m !! "total_road_length_m"
      = Some (produced (roads_analysis w self hex pcrs) "total_road_length_m") ∧
    m !! "building_density"
      = Some (produced (buildings_analysis w self hex pcrs) "building_density") ∧
    m !! "total_building_area_sq_m"
      = Some (produced (buildings_analysis w self hex pcrs)
                "total_building_area_sq_m") ∧
    m !! "water_percentage"
      = Some (produced (water_analysis w self hex pcrs) "water_percentage") ∧
    m !! "water_area_sq_m"
      = Some (produced (water_analysis w self hex pcrs) "water_area_sq_m") ∧
    m !! "dominant_landuse"
      = Some (produced (landuse_analysis w self hex pcrs) "dominant_landuse") ∧
    m !! "dominant_landuse_percentage"
      = Some (produced (landuse_analysis w self hex pcrs)
                "dominant_landuse_percentage") ∧
    m !! "landuse_breakdown"
      = Some (produced (landuse_analysis w self hex pcrs) "landuse_breakdown") ∧
    m !! "hexagon_area_sq_km"
      = Some (VFloat (polygon_area (hex_geometry hex) / 1000000)) ∧
    dom m = result_keys ∧
    ∀ lat2 lon2 cx2 cy2,
      transform w (crs ds) lat2 lon2 = Ok (cx2, cy2) →
      no_overlap
        (total_bounds
           (create_hexagon_projected cx2 cy2 (radius_km * 1000) (crs ds)))
        (bounds ds) →
      analyze_hexagon w self lat2 lon2 radius_km = Ok m.
Proof.
  intros Hopen Htr Hno hex pcrs.
  exists (results_for w self ds hex).
  split.
  { rewrite (analyze_hexagon_ok _ _ _ _ _ _ _ _ Hopen Htr).
    by rewrite select_hexagon_no_overlap. }
  pose proof (results_for_lookup w self ds hex) as Hlook. cbn zeta in Hlook.
  destruct Hlook as (?&?&?&?&?&?&?&?&?&?&?&?).
  repeat (split; [assumption|]).
  split; [apply results_for_dom|].
  intros lat2 lon2 cx2 cy2 Htr2 Hno2.
  rewrite (analyze_hexagon_ok _ _ _ _ _ _ _ _ Hopen Htr2).
  by rewrite select_hexagon_no_overlap.
Qed.

Lemma demo_far_north_no_overlap :
  no_overlap
    (total_bounds
       (create_hexagon_projected (5 * 1000) (2000 * 1000) (1 * 1000)
          (crs demo_dataset)))
    (bounds demo_dataset).
Proof.
  rewrite hexagon_total_bounds by lra. unfold no_overlap. simpl. lra.
Qed.

Lemma fallback_hexagon_feeds_every_metric_witness :
  analyze_hexagon demo_world demo_analyzer 2000 5 1
  = analyze_hexagon demo_world demo_analyzer 0 1000 1.
Proof.
  destruct (fallback_hexagon_feeds_every_metric demo_world demo_analyzer
              0 1000 1 demo_dataset (1000 * 1000) (0 * 1000)
              eq_refl eq_refl demo_far_east_no_overlap)
    as (m & Hm & Hrest).
  rewrite Hm. do 13 (destruct Hrest as [_ Hrest]).
  apply (Hrest 2000 5 (5 * 1000) (2000 * 1000) eq_refl demo_far_north_no_overlap).
Defined.

(** ** A metric depends on its own layer only *)

Lemma roads_body_raise w layer hex pcrs e :
  run (roads_body w layer hex pcrs) ∅ = Raise e →
  ∀ s, roads_body w layer hex pcrs s = (Raise e, s).
Proof.
  unfold roads_body. unfold_monad.
  destruct (ensure_crs w layer pcrs) as [proj|e']; [|by intros [= ->]].
  destruct (overlay w proj hex) as [inter|e']; [|by intros [= ->]].
  by destruct (decide (0 < length (rows inter))%nat).
Qed.

Lemma buildings_body_raise w layer hex pcrs e :
  run (buildings_body w layer hex pcrs) ∅ = Raise e →
  ∀ s, buildings_body w layer hex pcrs s = (Raise e, s).
Proof.
  unfold buildings_body. unfold_monad.
  destruct (ensure_crs w layer pcrs) as [proj|e']; [|by intros [= ->]].
  destruct (overlay w proj hex) as [inter|e']; [|by intros [= ->]].
  by destruct (decide (0 < length (rows inter))%nat).
Qed.

Lemma landuse_body_raise w layer hex pcrs e :
  run (landuse_body w layer hex pcrs) ∅ = Raise e →
  ∀ s, landuse_body w layer hex pcrs s = (Raise e, s).
Proof.
  unfold landuse_body. unfold_monad.
  destruct (ensure_crs w layer pcrs) as [proj|e']; [|by intros [= ->]].
  destruct (overlay w proj hex) as [inter|e']; [|by intros [= ->]].
  destruct (decide (0 < length (rows inter))%nat); [|done].
  destruct (find_type_column type_column_candidates (columns inter)) as [col|];
    [|done].
  by destruct (decide (0 < length (groupby_area_sum col (rows inter)))%nat).
Qed.

Lemma roads_analysis_placeholder w self hex pcrs :
  roads self = None
  ∨ (∃ layer e, roads self = Some layer
                ∧ run (roads_body w layer hex pcrs) ∅ = Raise e) →
  ∀ s, roads_analysis w self hex pcrs s
       = set_result "total_road_length_m" (VInt 0) s.
Proof.
  unfold roads_analysis. intros [->|(layer & e & -> & Hraise)] s; [done|].
  unfold try_except. by rewrite (roads_body_raise _ _ _ _ _ Hraise).
Qed.

Lemma buildings_analysis_placeholder w self hex pcrs :
  buildings self = None
  ∨ (∃ layer e, buildings self = Some layer
                ∧ run (buildings_body w layer hex pcrs) ∅ = Raise e) →
  ∀ s, buildings_analysis w self hex pcrs s = set_buildings (VInt 0) (VInt 0) s.
Proof.
  unfold buildings_analysis. intros [->|(layer & e & -> & Hraise)] s; [done|].
  unfold try_except. by rewrite (buildings_body_raise _ _ _ _ _ Hraise).
Qed.

Lemma landuse_analysis_error w self hex pcrs layer e :
  landuse self = Some layer →
  run (landuse_body w layer hex pcrs) ∅ = Raise e →
  ∀ s, landuse_analysis w self hex pcrs s = set_landuse "Error" (VInt 0) ∅ s.
Proof.
  unfold landuse_analysis. intros -> Hraise s.
  unfold try_except. by rewrite (landuse_body_raise _ _ _ _ _ Hraise).
Qed.

Lemma landuse_analysis_not_loaded w self hex pcrs :
  landuse self = None →
  ∀ s, landuse_analysis w self hex pcrs s = set_landuse "No data" (VInt 0) ∅ s.
Proof. unfold landuse_analysis. by intros ->. Qed.

Lemma landuse_analysis_no_features w self hex pcrs layer proj inter :
  landuse self = Some layer →
  ensure_crs w layer pcrs = Ok proj →
  overlay w proj hex = Ok inter →
  rows inter = [] →
  ∀ s, landuse_analysis w self hex pcrs s = set_landuse "No data" (VInt 0) ∅ s.
Proof.
  unfold landuse_analysis, landuse_body. unfold_monad.
  intros -> -> -> -> s. reflexivity.
Qed.

Lemma find_type_column_None candidates cols :
  find_type_column candidates cols = None ↔ ∀ c, c ∈ candidates → c ∉ cols.
Proof.
  induction candidates as [|c tl IH]; cbn [find_type_column].
  - split; [|done]. by intros _ c ?%elem_of_nil.
  - case_decide as Hc.
    + split; [done|]. intros H. by destruct (H c ltac:(left)).
    + rewrite IH. split.
      * intros H c' [->|Hin]%elem_of_cons; auto.
      * intros H c' Hin. apply H. by right.
Qed.

Lemma landuse_analysis_no_column w self hex pcrs layer proj inter :
  landuse self = Some layer →
  ensure_crs w layer pcrs = Ok proj →
  overlay w proj hex = Ok inter →
  (∀ c, c ∈ type_column_candidates → c ∉ columns inter) →
  ∀ s, landuse_analysis w self hex pcrs s = set_landuse "No data" (VInt 0) ∅ s.
Proof.
  unfold landuse_analysis, landuse_body. unfold_monad.
  intros -> -> -> Hcols%find_type_column_None s. rewrite Hcols.
  by case_decide.
Qed.

Lemma produced_set_result (m : M (gmap string Value) unit) key v :
  (∀ s, m s = set_result key v s) → produced m key = v.
Proof.
  intros H. unfold produced. rewrite H, set_result_run. cbn [snd].
  by rewrite lookup_insert_eq.
Qed.

Lemma produced_set_buildings (m : M (gmap string Value) unit) d a :
  (∀ s, m s = set_buildings d a s) →
  produced m "building_density" = d ∧ produced m "total_building_area_sq_m" = a.
Proof.
  intros H. unfold produced. rewrite H, set_buildings_run. cbn [snd].
  by simplify_map_eq.
Qed.

Lemma produced_set_water (m : M (gmap string Value) unit) p a :
  (∀ s, m s = set_water p a s) →
  produced m "water_percentage" = p ∧ produced m "water_area_sq_m" = a.
Proof.
  intros H. unfold produced. rewrite H, set_water_run. cbn [snd].
  by simplify_map_eq.
Qed.

Lemma produced_set_landuse (m : M (gmap string Value) unit) d p b :
  (∀ s, m s = set_landuse d p b s) →
  produced m "dominant_landuse" = VStr d ∧
  produced m "dominant_landuse_percentage" = p ∧
  produced m "landuse_breakdown" = VDict b.
Proof.
  intros H. unfold produced. rewrite H, set_landuse_run. cbn [snd].
  by simplify_map_eq.
Qed.

(** The land-use entries of a completed analysis, given what the land-use
    step writes. *)
Lemma results_for_landuse w self ds hex d p b :
  (∀ s, landuse_analysis w self hex (crs ds) s = set_landuse d p b s) →
  results_for w self ds hex !! "dominant_landuse" = Some (VStr d) ∧
  results_for w self ds hex !! "dominant_landuse_percentage" = Some p ∧
  results_for w self ds hex !! "landuse_breakdown" = Some (VDict b).
Proof.
  intros H. destruct (produced_set_landuse _ _ _ _ H) as (Hd & Hp & Hb).
  pose proof (results_for_lookup w self ds hex) as Hlook. cbn zeta in Hlook.
  destruct Hlook as (_&_&_&_&_&_&_&_&H1&H2&H3&_).
  by rewrite H1, H2, H3, Hd, Hp, Hb.
Qed.

Lemma roads_analysis_ext w self self' hex pcrs :
  roads self' = roads self →
  roads_analysis w self' hex pcrs = roads_analysis w self hex pcrs.
Proof. unfold roads_analysis. by intros ->. Qed.

Lemma buildings_analysis_ext w self self' hex pcrs :
  buildings self' = buildings self →
  buildings_analysis w self' hex pcrs = buildings_analysis w self hex pcrs.
Proof. unfold buildings_analysis. by intros ->. Qed.

Lemma landuse_analysis_ext w self self' hex pcrs :
  landuse self' = landuse self →
  landuse_analysis w self' hex pcrs = landuse_analysis w self hex pcrs.
Proof. unfold landuse_analysis. by intros ->. Qed.

Lemma water_analysis_ext w self self' hex pcrs :
  same_sources self self' →
  water_analysis w self' hex pcrs = water_analysis w self hex pcrs.
Proof.
  intros (_ & Hz & Hw). unfold water_analysis, total_water. by rewrite Hz, Hw.
Qed.

Lemma results_for_except_roads w self self' ds hex k :
  same_sources self self' →
  buildings self' = buildings self → landuse self' = landuse self →
  k ≠ "total_road_length_m" →
  results_for w self' ds hex !! k = results_for w self ds hex !! k.
Proof.
  intros Hsrc Hb Hl Hk. rewrite !results_for_unfold. cbn zeta.
  rewrite (buildings_analysis_ext w self self') by done.
  rewrite (landuse_analysis_ext w self self') by done.
  rewrite (water_analysis_ext w self self') by done.
  repeat peel_insert k. done.
Qed.

Lemma results_for_except_buildings w self self' ds hex k :
  same_sources self self' →
  roads self' = roads self → landuse self' = landuse self →
  k ≠ "building_density" → k ≠ "total_building_area_sq_m" →
  results_for w self' ds hex !! k = results_for w self ds hex !! k.
Proof.
  intros Hsrc Hr Hl Hk1 Hk2. rewrite !results_for_unfold. cbn zeta.
  rewrite (roads_analysis_ext w self self') by done.
  rewrite (landuse_analysis_ext w self self') by done.
  rewrite (water_analysis_ext w self self') by done.
  repeat peel_insert k. done.
Qed.

Lemma results_for_except_landuse w self self' ds hex k :
  same_sources self self' →
  roads self' = roads self → buildings self' = buildings self →
  k ≠ "dominant_landuse" → k ≠ "dominant_landuse_percentage" →
  k ≠ "landuse_breakdown" →
  results_for w self' ds hex !! k = results_for w self ds hex !! k.
Proof.
  intros Hsrc Hr Hb Hk1 Hk2 Hk3. rewrite !results_for_unfold. cbn zeta.
  rewrite (roads_analysis_ext w self self') by done.
  rewrite (buildings_analysis_ext w self self') by done.
  rewrite (water_analysis_ext w self self') by done.
  repeat peel_insert k. done.
Qed.

(** ** C8: failures of the roads, buildings and land-use metrics *)

(** C8, as amended.  In a call whose raster block completes (the raster
    opens and the centre is projected into its CRS), [analyze_hexagon]
    returns a mapping and does not raise.  For each of roads, buildings and
    land use: if the layer was never loaded, or the computation of the metric
    raises, the keys of that metric hold their zero or placeholder value (0
    for the road length, 0 and 0 for the buildings, "No data" or "Error"
    with 0 and an empty breakdown for land use); and whatever happens to the
    layer of one metric, every key of the other metrics keeps its value. *)
Theorem metric_failures_are_isolated w self lat lon radius_km ds cx cy :
  rasterio_open w (dem_path self) = Ok ds →
  transform w (crs ds) lat lon = Ok (cx, cy) →
  let hex := select_hexagon ds cx cy radius_km in
  let pcrs := crs ds in
  ∃ m,
    analyze_hexagon w self lat lon radius_km = Ok m ∧
    (roads self = None
     ∨ (∃ layer e, roads self = Some layer
                   ∧ run (roads_body w layer hex pcrs) ∅ = Raise e) →
     m !! "total_road_length_m" = Some (VInt 0)) ∧
    (buildings self = None
     ∨ (∃ layer e, buildings self = Some layer
                   ∧ run (buildings_body w layer hex pcrs) ∅ = Raise e) →
     m !! "building_density" = Some (VInt 0) ∧
     m !! "total_building_area_sq_m" = Some (VInt 0)) ∧
    (landuse self = None →
     m !! "dominant_landuse" = Some (VStr "No data") ∧
     m !! "dominant_landuse_percentage" = Some (VInt 0) ∧
     m !! "landuse_breakdown" = Some (VDict ∅)) ∧
    (∀ layer e, landuse self = Some layer →
                run (landuse_body w layer hex pcrs) ∅ = Raise e →
     m !! "dominant_landuse" = Some (VStr "Error") ∧
     m !! "dominant_landuse_percentage" = Some (VInt 0) ∧
     m !! "landuse_breakdown" = Some (VDict ∅)) ∧
    (∀ self', same_sources self self' →
       buildings self' = buildings self → landuse self' = landuse self →
       ∃ m', analyze_hexagon w self' lat lon radius_km = Ok m' ∧
             ∀ k, k ≠ "total_road_length_m" → m' !! k = m !! k) ∧
    (∀ self', same_sources self self' →
       roads self' = roads self → landuse self' = landuse self →
       ∃ m', analyze_hexagon w self' lat lon radius_km = Ok m' ∧
             ∀ k, k ≠ "building_density" → k ≠ "total_building_area_sq_m" →
                  m' !! k = m !! k) ∧
    (∀ self', same_sources self self' →
       roads self' = roads self → buildings self' = buildings self →
       ∃ m', analyze_hexagon w self' lat lon radius_km = Ok m' ∧
             ∀ k, k ≠ "dominant_landuse" → k ≠ "dominant_landuse_percentage" →
                  k ≠ "landuse_breakdown" → m' !! k = m !! k).
Proof.
  intros Hopen Htr hex pcrs. exists (results_for w self ds hex).
  split; [by eapply analyze_hexagon_ok|].
  pose proof (results_for_lookup w self ds hex) as Hlook. cbn zeta in Hlook.
  destruct Hlook as (_&_&_&Hroads&Hbd&Hba&_&_&_&_&_&_).
  assert (Hrun : ∀ self', same_sources self self' →
            analyze_hexagon w self' lat lon radius_km
            = Ok (results_for w self' ds hex)).
  { intros self' (Hdem & _). eapply analyze_hexagon_ok; by rewrite ?Hdem. }
  repeat split.
  - intros H. rewrite Hroads. f_equal. apply produced_set_result.
    by apply roads_analysis_placeholder.
  - rewrite Hbd. f_equal.
    by apply (produced_set_buildings _ _ _ (buildings_analysis_placeholder _ _ _ _ H)).
  - rewrite Hba. f_equal.
    by apply (produced_set_buildings _ _ _ (buildings_analysis_placeholder _ _ _ _ H)).
  - by apply (results_for_landuse _ _ _ _ _ _ _
                (landuse_analysis_not_loaded w self hex pcrs H)).
  - by apply (results_for_landuse _ _ _ _ _ _ _
                (landuse_analysis_not_loaded w self hex pcrs H)).
  - by apply (results_for_landuse _ _ _ _ _ _ _
                (landuse_analysis_not_loaded w self hex pcrs H)).
  - by apply (results_for_landuse _ _ _ _ _ _ _
                (landuse_analysis_error w self hex pcrs _ _ H H0)).
  - by apply (results_for_landuse _ _ _ _ _ _ _
                (landuse_analysis_error w self hex pcrs _ _ H H0)).
  - by apply (results_for_landuse _ _ _ _ _ _ _
                (landuse_analysis_error w self hex pcrs _ _ H H0)).
  - intros self' Hsrc Hb Hl. eexists. split; [by apply Hrun|].
    intros k Hk. by apply results_for_except_roads.
  - intros self' Hsrc Hr Hl. eexists. split; [by apply Hrun|].
    intros k Hk1 Hk2. by apply results_for_except_buildings.
  - intros self' Hsrc Hr Hb. eexists. split; [by apply Hrun|].
    intros k Hk1 Hk2 Hk3. by apply results_for_except_landuse.
Qed.

Lemma demo_analyzer_layers :
  roads demo_analyzer = Some demo_roads ∧
  buildings demo_analyzer = None ∧
  landuse demo_analyzer = None.
Proof. repeat split; reflexivity. Qed.

Lemma metric_failures_are_isolated_witness :
  ∃ m, analyze_hexagon failing_overlay_world demo_analyzer 5 5 2 = Ok m ∧
       m !! "total_road_length_m" = Some (VInt 0) ∧
       m !! "building_density" = Some (VInt 0) ∧
       m !! "total_building_area_sq_m" = Some (VInt 0) ∧
       m !! "dominant_landuse" = Some (VStr "No data").
Proof.
  destruct (metric_failures_are_isolated failing_overlay_world demo_analyzer
              5 5 2 demo_dataset (5 * 1000) (5 * 1000) eq_refl eq_refl)
    as (m & Hm & Hroads & Hbuildings & Hlanduse & _).
  exists m. split; [exact Hm|]. split; [|split; [|split]].
  - apply Hroads. right.
    exists demo_roads, (Exception "TopologyException").
    split; reflexivity.
  - apply Hbuildings. left. reflexivity.
  - apply Hbuildings. left. reflexivity.
  - apply Hlanduse. reflexivity.
Defined.

(** C8 as it was stated fails when the raster block does not complete: with
    a raster that cannot be opened and no buildings layer loaded, the call
    returns the empty mapping, in which the keys of the buildings metric are
    not set to 0 but absent, as are those of the roads and of land use. *)
Lemma metric_placeholders_absent_without_raster :
  buildings demo_analyzer = None ∧
  landuse demo_analyzer = None ∧
  ∃ m, analyze_hexagon no_raster_world demo_analyzer 5 5 2 = Ok m ∧
       m !! "building_density" = None ∧
       m !! "total_building_area_sq_m" = None ∧
       m !! "total_road_length_m" = None ∧
       m !! "dominant_landuse" = None.
Proof.
  split; [reflexivity|]. split; [reflexivity|]. exists ∅. split.
  - by apply (analyze_hexagon_open_raise _ _ _ _ _
                (Exception "RasterioIOError")).
  - by rewrite !lookup_empty.
Qed.

(** ** C3: the placeholders of the land-use metric *)

Lemma results_for_same_landuse_entries w self self' ds hex d p b :
  same_sources self self' →
  roads self' = roads self → buildings self' = buildings self →
  (∀ s, landuse_analysis w self hex (crs ds) s = set_landuse d p b s) →
  (∀ s, landuse_analysis w self' hex (crs ds) s = set_landuse d p b s) →
  results_for w self' ds hex = results_for w self ds hex.
Proof.
  intros Hsrc Hr Hb H H'. apply map_eq. intros k.
  destruct (results_for_landuse _ _ _ _ _ _ _ H) as (H1 & H2 & H3).
  destruct (results_for_landuse _ _ _ _ _ _ _ H') as (H1' & H2' & H3').
  destruct (decide (k = "dominant_landuse")) as [->|]; [congruence|].
  destruct (decide (k = "dominant_landuse_percentage")) as [->|]; [congruence|].
  destruct (decide (k = "landuse_breakdown")) as [->|]; [congruence|].
  by apply results_for_except_landuse.
Qed.

(** C3 as it was stated fails: a run with no land-use layer loaded, a run
    whose layer has no feature in the hexagon and a run whose layer has no
    classification column return the very same mapping. *)
Lemma landuse_placeholder_paths_indistinguishable :
  let not_loaded := with_landuse None in
  let no_features := with_landuse (Some empty_landuse) in
  let no_column := with_landuse (Some unclassified_landuse) in
  landuse not_loaded = None ∧
  (∃ inter, overlay demo_world empty_landuse
              (select_hexagon demo_dataset (5 * 1000) (5 * 1000) 2) = Ok inter
            ∧ rows inter = []) ∧
  (∃ inter, overlay demo_world unclassified_landuse
              (select_hexagon demo_dataset (5 * 1000) (5 * 1000) 2) = Ok inter
            ∧ rows inter ≠ []
            ∧ find_type_column type_column_candidates (columns inter) = None) ∧
  analyze_hexagon demo_world no_features 5 5 2
  = analyze_hexagon demo_world not_loaded 5 5 2 ∧
  analyze_hexagon demo_world no_column 5 5 2
  = analyze_hexagon demo_world not_loaded 5 5 2.
Proof.
  intros not_loaded no_features no_column.
  set (hex := select_hexagon demo_dataset (5 * 1000) (5 * 1000) 2).
  split; [reflexivity|]. split; [by eexists|]. split; [by eexists|].
  assert (Hrun : ∀ self, dem_path self = dem_path demo_analyzer →
            analyze_hexagon demo_world self 5 5 2
            = Ok (results_for demo_world self demo_dataset hex)).
  { intros self Hdem. eapply analyze_hexagon_ok; by rewrite ?Hdem. }
  rewrite !Hrun by reflexivity.
  assert (Hnone : ∀ s, landuse_analysis demo_world not_loaded hex
                         (crs demo_dataset) s
                       = set_landuse "No data" (VInt 0) ∅ s)
    by (by apply landuse_analysis_not_loaded).
  split; apply (f_equal Ok).
  - apply (results_for_same_landuse_entries _ _ _ _ _ "No data" (VInt 0) ∅);
      [by repeat split|done|done|exact Hnone|].
    by apply (landuse_analysis_no_features _ _ _ _ empty_landuse
                empty_landuse empty_landuse).
  - apply (results_for_same_landuse_entries _ _ _ _ _ "No data" (VInt 0) ∅);
      [by repeat split|done|done|exact Hnone|].
    apply (landuse_analysis_no_column _ _ _ _ unclassified_landuse
             unclassified_landuse unclassified_landuse); [done..|].
    by apply find_type_column_None.
Qed.

(** ** C4: the water estimate *)

Lemma scan_widths_spec water_type :
  scan_widths buffer_widths water_type 5 = width_of_class water_type.
Proof.
  unfold buffer_widths, width_of_class. cbn [scan_widths].
  repeat (destruct (contains _ water_type); [reflexivity|]). reflexivity.
Qed.

Lemma getitem_default : getitem buffer_widths "default" = Ok 5%Z.
Proof. reflexivity. Qed.

Lemma way_buffer_width_fclass index water_way s :
  "fclass" ∈ index → cell water_way "fclass" = Some s →
  way_buffer_width index water_way = Ok (width_of_class (lower s)).
Proof.
  intros Hin Hcell. unfold way_buffer_width. unfold_monad. rewrite getitem_default.
  rewrite decide_True by done. rewrite Hcell. cbn [attr_lower].
  by rewrite scan_widths_spec.
Qed.

Lemma way_buffer_width_type index water_way s :
  "fclass" ∉ index → "type" ∈ index → cell water_way "type" = Some s →
  way_buffer_width index water_way = Ok (width_of_class (lower s)).
Proof.
  intros Hnin Hin Hcell. unfold way_buffer_width. unfold_monad. rewrite getitem_default.
  rewrite decide_False by done. rewrite decide_True by done.
  rewrite Hcell. cbn [attr_lower]. by rewrite scan_widths_spec.
Qed.

Lemma way_buffer_width_default index water_way :
  "fclass" ∉ index → "type" ∉ index →
  way_buffer_width index water_way = Ok 5%Z.
Proof.
  intros Hnin Hnin'. unfold way_buffer_width. unfold_monad. rewrite getitem_default.
  rewrite decide_False by done. by rewrite decide_False by done.
Qed.

Lemma buffered_way_area_line index water_way z :
  way_buffer_width index water_way = Ok z →
  is_line (geometry water_way) →
  buffered_way_area index water_way = buffer_area (geometry water_way) (IZR z).
Proof.
  intros Hw Hline. unfold buffered_way_area. rewrite Hw.
  by rewrite decide_True.
Qed.

Lemma water_ways_loop_ok index ways total :
  Forall (λ water_way, ∃ z, way_buffer_width index water_way = Ok z) ways →
  ∃ total', water_ways_loop index ways total = Ok total'
            ∧ total' = total + Rlist_sum (buffered_way_area index <$> ways).
Proof.
  intros Hways. revert total.
  induction Hways as [|water_way ways [z Hz] _ IH]; intros total.
  - eexists. split; [reflexivity|]. cbn. lra.
  - cbn [water_ways_loop]. unfold_monad. rewrite Hz.
    cbn [fmap list_fmap Rlist_sum foldr]. unfold buffered_way_area at 1.
    rewrite Hz. case_decide.
    + destruct (IH (total + buffer_area (geometry water_way) (IZR z)))
        as (t & -> & ->).
      eexists. split; [reflexivity|]. unfold Rlist_sum. lra.
    + destruct (IH total) as (t & -> & ->).
      eexists. split; [reflexivity|]. unfold Rlist_sum. lra.
Qed.

Lemma total_water_ok w self hex pcrs zones ways zones' ways' zones_in ways_in :
  read_file w (water_zones_path self) = Ok zones →
  read_file w (water_ways_path self) = Ok ways →
  ensure_crs w zones pcrs = Ok zones' →
  ensure_crs w ways pcrs = Ok ways' →
  overlay w zones' hex = Ok zones_in →
  overlay w ways' hex = Ok ways_in →
  Forall (λ water_way, ∃ z, way_buffer_width (columns ways_in) water_way = Ok z)
    (rows ways_in) →
  ∃ total,
    total_water w self hex pcrs = Ok total ∧
    total = Rlist_sum ((geom_area ∘ geometry) <$> rows_in_hexagon zones' zones_in)
            + Rlist_sum (buffered_way_area (columns ways_in)
                           <$> rows_in_hexagon ways' ways_in).
Proof.
  intros Hz Hw Hz' Hw' Hzi Hwi Hall.
  unfold total_water, water_zones_area, water_ways_area, rows_in_hexagon.
  unfold_monad. rewrite Hz, Hw, Hz', Hw'.
  destruct (decide (0 < length (rows zones'))%nat).
  - rewrite Hzi. destruct (decide (0 < length (rows zones_in))%nat) as [|Hempty].
    + destruct (decide (0 < length (rows ways'))%nat).
      * rewrite Hwi.
        destruct (decide (0 < length (rows ways_in))%nat) as [|Hempty'].
        -- destruct (water_ways_loop_ok _ _
                       (0 + Rlist_sum ((geom_area ∘ geometry) <$> rows zones_in))
                       Hall) as (t & -> & ->).
           eexists. split; [reflexivity|]. lra.
        -- destruct (rows ways_in); [|cbn in Hempty'; lia].
           eexists. split; [reflexivity|]. cbn. lra.
      * eexists. split; [reflexivity|]. cbn. lra.
    + destruct (rows zones_in); [|cbn in Hempty; lia].
      destruct (decide (0 < length (rows ways'))%nat).
      * rewrite Hwi.
        destruct (decide (0 < length (rows ways_in))%nat) as [|Hempty'].
        -- destruct (water_ways_loop_ok _ _ 0 Hall) as (t & -> & ->).
           eexists. split; [reflexivity|]. cbn. lra.
        -- destruct (rows ways_in); [|cbn in Hempty'; lia].
           eexists. split; [reflexivity|]. cbn. lra.
      * eexists. split; [reflexivity|]. cbn. lra.
  - destruct (decide (0 < length (rows ways'))%nat).
    + rewrite Hwi.
      destruct (decide (0 < length (rows ways_in))%nat) as [|Hempty'].
      * destruct (water_ways_loop_ok _ _ 0 Hall) as (t & -> & ->).
        eexists. split; [reflexivity|]. cbn. lra.
      * destruct (rows ways_in); [|cbn in Hempty'; lia].
        eexists. split; [reflexivity|]. cbn. lra.
    + eexists. split; [reflexivity|]. cbn. lra.
Qed.

Lemma hexagon_area_pos ds cx cy radius_km :
  radius_km ≠ 0 → hexagon_area (select_hexagon ds cx cy radius_km) > 0.
Proof.
  intros Hr. rewrite select_hexagon_area.
  assert (0 < sqrt 3) by (apply sqrt_lt_R0; lra).
  assert (0 < Rsqr (radius_km * 1000)) by (apply Rsqr_pos_lt; lra).
  nra.
Qed.


Lemma demo_waterways_widths :
  Forall (λ water_way,
            ∃ z, way_buffer_width (columns demo_waterways) water_way = Ok z)
    (rows demo_waterways).
Proof. repeat constructor; by eexists. Qed.


(** ** C5: the land-use classifier *)

Lemma landuse_analysis_grouped w self hex pcrs layer proj inter col :
  landuse self = Some layer →
  ensure_crs w layer pcrs = Ok proj →
  overlay w proj hex = Ok inter →
  rows inter ≠ [] →
  find_type_column type_column_candidates (columns inter) = Some col →
  groupby_area_sum col (rows inter) ≠ [] →
  let landuse_areas := groupby_area_sum col (rows inter) in
  ∀ s, landuse_analysis w self hex pcrs s
       = set_landuse (idxmax landuse_areas)
           (VFloat (series_max landuse_areas / series_sum landuse_areas * 100))
           (build_breakdown landuse_areas) s.
Proof.
  unfold landuse_analysis, landuse_body. unfold_monad.
  intros -> -> -> Hrows -> Hgroups s.
  rewrite decide_True by (destruct (rows inter); [done|cbn; lia]).
  rewrite decide_True; [done|].
  destruct (groupby_area_sum col (rows inter)); [done|cbn; lia].
Qed.

(** The classification column is the first candidate that is a column. *)
Lemma find_type_column_first candidates cols col :
  find_type_column candidates cols = Some col ↔
  ∃ before after, candidates = before ++ col :: after ∧ col ∈ cols ∧
                  ∀ c, c ∈ before → c ∉ cols.
Proof.
  induction candidates as [|c tl IH]; cbn [find_type_column].
  - split; [done|]. intros (before & after & Heq & _). by destruct before.
  - case_decide as Hc.
    + split.
      * intros [= <-]. exists [], tl. split; [done|]. split; [done|].
        by intros c' ?%elem_of_nil.
      * intros (before & after & Heq & Hin & Hbefore).
        destruct before as [|b before]; simplify_eq/=; [done|].
        by destruct (Hbefore b ltac:(left)).
    + rewrite IH. split.
      * intros (before & after & -> & Hin & Hbefore).
        exists (c :: before), after. split; [done|]. split; [done|].
        intros c' [->|Hc']%elem_of_cons; auto.
      * intros (before & after & Heq & Hin & Hbefore).
        destruct before as [|b before]; simplify_eq/=; [done|].
        exists before, after. split; [done|]. split; [done|].
        intros c' Hc'. apply Hbefore. by right.
Qed.

(** [idxmax] names a group whose summed area is [series_max], and no group
    has a larger one. *)
Lemma foldl_best_spec (g : string * R) (tl : Series) :
  let best := foldl (λ best item, if decide (item.2 > best.2) then item else best)
                g tl in
  best ∈ g :: tl ∧ ∀ item, item ∈ g :: tl → item.2 <= best.2.
Proof.
  revert g. induction tl as [|h tl IH]; intros g; cbn [foldl].
  - split; [left|]. intros item ->%list_elem_of_singleton. lra.
  - case_decide as Hgt.
    + destruct (IH h) as [Hin Hle]. split.
      * right. exact Hin.
      * intros item [->|Hitem]%elem_of_cons; [|by apply Hle].
        specialize (Hle h ltac:(left)). lra.
    + destruct (IH g) as [Hin Hle]. split.
      * apply elem_of_cons in Hin as [->|Hin]; [left|right; by right].
      * intros item [->|[->|Hitem]%elem_of_cons]%elem_of_cons.
        -- apply Hle. left.
        -- specialize (Hle g ltac:(left)). lra.
        -- apply Hle. by right.
Qed.

Lemma idxmax_spec (s : Series) :
  s ≠ [] →
  (idxmax s, series_max s) ∈ s ∧ ∀ item, item ∈ s → item.2 <= series_max s.
Proof.
  destruct s as [|g tl]; [done|]. intros _.
  destruct (foldl_best_spec g tl) as [Hin Hle]. cbn zeta in Hin, Hle.
  set (best := foldl _ g tl) in *.
  assert (Hmax : series_max (g :: tl) = best.2).
  { unfold series_max. apply Rlist_max_eq.
    - apply list_elem_of_fmap. by exists best.
    - intros y (item & -> & Hitem)%list_elem_of_fmap. by apply Hle. }
  rewrite Hmax. unfold idxmax. fold best. split; [by destruct best|exact Hle].
Qed.

(** The breakdown holds the summed area of every category, under its
    lower-cased name, as long as lower-casing keeps the names apart. *)
Lemma build_breakdown_snoc (s : Series) item :
  build_breakdown (s ++ [item]) = <[lower item.1 := item.2]> (build_breakdown s).
Proof. unfold build_breakdown. by rewrite foldl_app. Qed.

Lemma build_breakdown_lookup (s : Series) key area :
  NoDup (lower ∘ fst <$> s) →
  (key, area) ∈ s →
  build_breakdown s !! lower key = Some area.
Proof.
  induction s as [|item s IH] using rev_ind; [by intros _ ?%elem_of_nil|].
  rewrite fmap_app, build_breakdown_snoc. cbn [fmap list_fmap].
  intros [Hnd [Hdisj _]]%NoDup_app [Hin|Hin%list_elem_of_singleton]%elem_of_app.
  - rewrite lookup_insert_ne; [by apply IH|].
    intros Heq. apply (Hdisj (lower key)).
    + apply list_elem_of_fmap. by exists (key, area).
    + rewrite <- Heq. left.
  - subst item. cbn. by rewrite lookup_insert_eq.
Qed.

Lemma build_breakdown_dom (s : Series) :
  dom (build_breakdown s) = list_to_set (lower ∘ fst <$> s).
Proof.
  induction s as [|item s IH] using rev_ind; [apply dom_empty_L|].
  rewrite build_breakdown_snoc, dom_insert_L, IH, fmap_app, list_to_set_app_L.
  cbn. rewrite (right_id_L ∅ (∪)). apply (comm_L (∪)).
Qed.

Lemma two_groups_dominant (ka kb : string) (a b : R) :
  a < b →
  idxmax [(ka, a); (kb, b)] = kb ∧
  series_max [(ka, a); (kb, b)] = b ∧
  series_sum [(ka, a); (kb, b)] = a + b.
Proof.
  intros Hab. split; [|split].
  - unfold idxmax. cbn [foldl snd]. by rewrite decide_True by lra.
  - unfold series_max, Rlist_max. cbn [fmap list_fmap foldr snd].
    apply Rmax_left. lra.
  - unfold series_sum, Rlist_sum. cbn [fmap list_fmap foldr snd]. lra.
Qed.

Lemma scenario_groups :
  groupby_area_sum "fclass" (rows scenario_landuse)
  = [("forest", 300); ("urban", 700)].
Proof. reflexivity. Qed.

Lemma mixed_case_breakdown :
  build_breakdown [("Forest", 300); ("forest", 700)] = {["forest" := 700]}.
Proof.
  unfold build_breakdown. cbn [foldl fst snd].
  change (lower "Forest") with "forest". change (lower "forest") with "forest".
  by rewrite insert_insert_eq, insert_empty.
Qed.

Lemma mixed_case_groups :
  groupby_area_sum "fclass" (rows mixed_case_landuse)
  = [("Forest", 300); ("forest", 700)].
Proof. reflexivity. Qed.

Lemma demo_landuse_entries (layer : GeoDataFrame) ka kb a b breakdown :
  gdf_crs layer = demo_crs →
  rows layer ≠ [] →
  find_type_column type_column_candidates (columns layer) = Some "fclass" →
  groupby_area_sum "fclass" (rows layer) = [(ka, a); (kb, b)] →
  a < b → b / (a + b) * 100 = 70 →
  build_breakdown [(ka, a); (kb, b)] = breakdown →
  ∃ m,
    analyze_hexagon demo_world (with_landuse (Some layer)) 5 5 2 = Ok m ∧
    m !! "dominant_landuse" = Some (VStr kb) ∧
    m !! "dominant_landuse_percentage" = Some (VFloat 70) ∧
    m !! "landuse_breakdown" = Some (VDict breakdown).
Proof.
  intros Hcrs Hrows Hcol Hgroups Hab Hpct Hbreak.
  set (hex := select_hexagon demo_dataset (5 * 1000) (5 * 1000) 2).
  exists (results_for demo_world (with_landuse (Some layer)) demo_dataset hex).
  split.
  { apply (analyze_hexagon_ok demo_world _ 5 5 2 demo_dataset (5 * 1000) (5 * 1000));
      reflexivity. }
  apply results_for_landuse. intros s.
  rewrite (landuse_analysis_grouped demo_world _ hex (crs demo_dataset)
             layer layer layer "fclass"); try done.
  - rewrite Hgroups.
    destruct (two_groups_dominant ka kb a b Hab) as (-> & -> & ->).
    by rewrite Hpct, Hbreak.
  - unfold ensure_crs. rewrite decide_False; [done|]. intros Hne. by apply Hne.
  - by rewrite Hgroups.
Qed.

(** The scenario of the design document: two intersecting polygons of 300
    and 700 square metres, classes "forest" and "urban" in column [fclass]. *)
Lemma landuse_scenario_forest_urban :
  ∃ m,
    analyze_hexagon demo_world (with_landuse (Some scenario_landuse)) 5 5 2 = Ok m ∧
    m !! "dominant_landuse" = Some (VStr "urban") ∧
    m !! "dominant_landuse_percentage" = Some (VFloat 70) ∧
    m !! "landuse_breakdown"
    = Some (VDict (<["urban" := 700]> (<["forest" := 300]> ∅))).
Proof.
  apply (demo_landuse_entries scenario_landuse "forest" "urban" 300 700);
    try done; lra.
Qed.

(** C5 fails on categories whose names differ by case only.  With a polygon
    of 300 square metres of class "Forest" and one of 700 of class "forest",
    the grouping keeps two categories, but both are stored in the breakdown
    under "forest": the second assignment replaces the first, so the
    breakdown is {"forest": 700} and the 300 square metres of "Forest"
    appear under no name. *)
Theorem landuse_breakdown_mixed_case :
  groupby_area_sum "fclass" (rows mixed_case_landuse)
  = [("Forest", 300); ("forest", 700)] ∧
  ∃ m,
    analyze_hexagon demo_world (with_landuse (Some mixed_case_landuse)) 5 5 2
    = Ok m ∧
    m !! "dominant_landuse" = Some (VStr "forest") ∧
    m !! "dominant_landuse_percentage" = Some (VFloat 70) ∧
    m !! "landuse_breakdown" = Some (VDict {["forest" := 700]}) ∧
    ∀ breakdown, m !! "landuse_breakdown" = Some (VDict breakdown) →
                 breakdown !! lower "Forest" ≠ Some 300 ∧
                 breakdown !! lower "Forest" ≠ Some (300 + 700).
Proof.
  split; [exact mixed_case_groups|].
  destruct (demo_landuse_entries mixed_case_landuse "Forest" "forest" 300 700
              {["forest" := 700]}) as (m & Hm & Hd & Hp & Hb);
    [reflexivity|done|reflexivity|exact mixed_case_groups|lra|lra
    |exact mixed_case_breakdown|].
  exists m. repeat (split; [done|]).
  intros breakdown. rewrite Hb. intros [= <-].
  change (lower "Forest") with "forest". rewrite lookup_singleton_eq.
  split; intros [= H]; lra.
Qed.

(** *** Grouping: one group per class, holding the sum of its areas *)

Lemma ascii_compare_refl a : Ascii.compare a a = Eq.
Proof. unfold Ascii.compare. apply N.compare_refl. Qed.

Lemma ascii_compare_lt_trans a b c :
  Ascii.compare a b = Lt → Ascii.compare b c = Lt → Ascii.compare a c = Lt.
Proof.
  unfold Ascii.compare. rewrite !N.compare_lt_iff. apply N.lt_trans.
Qed.

Lemma string_compare_refl s : String.compare s s = Eq.
Proof. induction s as [|a s IH]; [done|]. cbn. by rewrite ascii_compare_refl. Qed.

Lemma string_compare_lt_trans s1 s2 s3 :
  String.compare s1 s2 = Lt → String.compare s2 s3 = Lt →
  String.compare s1 s3 = Lt.
Proof.
  revert s2 s3. induction s1 as [|a s1 IH]; intros [|b s2] [|c s3]; cbn; try done.
  destruct (Ascii.compare a b) eqn:Hab; try done;
    destruct (Ascii.compare b c) eqn:Hbc; try done.
  - apply Ascii.compare_eq_iff in Hab as ->. rewrite Hbc. apply IH.
  - apply Ascii.compare_eq_iff in Hab as ->. by rewrite Hbc.
  - apply Ascii.compare_eq_iff in Hbc as <-. by rewrite Hab.
  - by rewrite (ascii_compare_lt_trans _ _ _ Hab Hbc).
Qed.

Lemma string_ltb_trans s1 s2 s3 :
  String.ltb s1 s2 = true → String.ltb s2 s3 = true → String.ltb s1 s3 = true.
Proof.
  unfold String.ltb. intros H12 H23.
  destruct (String.compare s1 s2) eqn:E12; try done.
  destruct (String.compare s2 s3) eqn:E23; try done.
  by rewrite (string_compare_lt_trans _ _ _ E12 E23).
Qed.

Lemma string_ltb_irrefl s : String.ltb s s = false.
Proof. unfold String.ltb. by rewrite string_compare_refl. Qed.

Lemma string_ltb_connex s1 s2 :
  s1 ≠ s2 → String.ltb s1 s2 = false → String.ltb s2 s1 = true.
Proof.
  unfold String.ltb. intros Hne. rewrite (String.compare_antisym s1 s2).
  destruct (String.compare s2 s1) eqn:E; cbn; try done.
  apply String.compare_eq_iff in E. by subst.
Qed.

Lemma series_lookup_None_above (s : Series) key :
  Forall (λ item, String.ltb key item.1 = true) s → series_lookup s key = None.
Proof.
  induction 1 as [|[k v] tl Hlt _ IH]; [done|]. cbn in *.
  rewrite decide_False; [done|]. intros ->. by rewrite string_ltb_irrefl in Hlt.
Qed.

Lemma group_add_Forall (P : string → Prop) key area (s : Series) :
  P key → Forall (λ item, P item.1) s →
  Forall (λ item, P item.1) (group_add key area s).
Proof.
  intros Hkey. induction 1 as [|[k v] tl Hk Htl IH]; cbn [group_add].
  - by repeat constructor.
  - case_decide; [by constructor|].
    destruct (String.ltb key k); repeat constructor; done.
Qed.

Lemma group_add_sorted key area (s : Series) :
  StronglySorted label_lt s → StronglySorted label_lt (group_add key area s).
Proof.
  induction 1 as [|[k v] tl Hsorted IH Hall]; cbn [group_add].
  - by repeat constructor.
  - case_decide as Heq.
    + by constructor.
    + destruct (String.ltb key k) eqn:Hlt.
      * constructor; [by constructor|]. constructor; [done|].
        eapply Forall_impl; [exact Hall|]. intros item Hitem.
        unfold label_lt in *. by eapply string_ltb_trans.
      * constructor; [done|].
        apply (group_add_Forall (λ label, String.ltb k label = true));
          [|done].
        apply string_ltb_connex; [done|exact Hlt].
Qed.

Lemma group_add_lookup key area (s : Series) label :
  StronglySorted label_lt s →
  series_lookup (group_add key area s) label
  = if decide (key = label)
    then Some (match series_lookup s label with
               | Some total => total + area
               | None => area
               end)
    else series_lookup s label.
Proof.
  induction 1 as [|[k v] tl Hsorted IH Hall]; cbn [group_add series_lookup].
  - by destruct (decide (key = label)).
  - destruct (decide (key = k)) as [->|Hne]; cbn [series_lookup].
    + by destruct (decide (k = label)).
    + destruct (String.ltb key k) eqn:Hlt; cbn [series_lookup].
      * destruct (decide (key = label)) as [<-|]; [|done].
        rewrite decide_False by done.
        rewrite series_lookup_None_above; [done|].
        eapply Forall_impl; [exact Hall|]. intros item Hitem.
        unfold label_lt in *. by eapply string_ltb_trans.
      * rewrite IH. destruct (decide (k = label)) as [<-|]; [|done].
        by rewrite decide_False.
Qed.

Lemma groupby_area_sum_snoc col frame row :
  groupby_area_sum col (frame ++ [row])
  = match cell row col with
    | Some key => group_add key (geom_area (geometry row)) (groupby_area_sum col frame)
    | None => groupby_area_sum col frame
    end.
Proof. unfold groupby_area_sum. by rewrite foldl_app. Qed.

Lemma groupby_area_sum_sorted col frame :
  StronglySorted label_lt (groupby_area_sum col frame).
Proof.
  induction frame as [|row frame IH] using rev_ind; [constructor|].
  rewrite groupby_area_sum_snoc. destruct (cell row col); [|done].
  by apply group_add_sorted.
Qed.

Lemma Rlist_sum_snoc (l : list R) x : Rlist_sum (l ++ [x]) = Rlist_sum l + x.
Proof.
  unfold Rlist_sum. induction l as [|y l IH]; cbn [app foldr]; [lra|].
  rewrite IH. lra.
Qed.

(** The series has a value for a class exactly when some row carries the
    class, and the value is the sum of the areas of those rows. *)
Lemma groupby_area_sum_lookup col frame key :
  match series_lookup (groupby_area_sum col frame) key with
  | Some total =>
      category_areas col frame key ≠ []
      ∧ total = Rlist_sum (category_areas col frame key)
  | None => category_areas col frame key = []
  end.
Proof.
  induction frame as [|row frame IH] using rev_ind; [done|].
  rewrite groupby_area_sum_snoc. unfold category_areas in *.
  rewrite filter_app, fmap_app, filter_cons, filter_nil.
  destruct (cell row col) as [k|] eqn:Hcell.
  - rewrite group_add_lookup by apply groupby_area_sum_sorted.
    destruct (decide (k = key)) as [->|Hne].
    + rewrite decide_True by done. cbn [fmap list_fmap].
      split; [by intros [_ ?]%app_eq_nil|].
      rewrite Rlist_sum_snoc.
      destruct (series_lookup (groupby_area_sum col frame) key) as [total|].
      * destruct IH as [_ ->]. done.
      * rewrite IH. cbn. lra.
    + rewrite decide_False by congruence. cbn [fmap list_fmap].
      by rewrite app_nil_r.
  - rewrite decide_False by done. cbn [fmap list_fmap]. by rewrite app_nil_r.
Qed.

Lemma series_lookup_elem_of (s : Series) key value :
  StronglySorted label_lt s → (key, value) ∈ s → series_lookup s key = Some value.
Proof.
  induction 1 as [|[k v] tl Hsorted IH Hall]; [by intros ?%elem_of_nil|].
  intros [[= -> ->]|Hin]%elem_of_cons; cbn [series_lookup].
  - by rewrite decide_True.
  - rewrite decide_False; [by apply IH|]. intros ->.
    rewrite Forall_forall in Hall. specialize (Hall _ Hin).
    unfold label_lt in Hall. cbn in Hall. by rewrite string_ltb_irrefl in Hall.
Qed.

Lemma groupby_area_sum_elem_of col frame key total :
  (key, total) ∈ groupby_area_sum col frame →
  category_areas col frame key ≠ []
  ∧ total = Rlist_sum (category_areas col frame key).
Proof.
  intros Hin%series_lookup_elem_of; [|apply groupby_area_sum_sorted].
  pose proof (groupby_area_sum_lookup col frame key) as H.
  by rewrite Hin in H.
Qed.

(** The land-use classifier on a layer that has features in the hexagon, a
    classification column and at least one classified feature: the column is
    the first candidate present; each group holds the summed area of its
    class; the dominant class is a group of largest area; the percentage is
    that area over the total, times 100; the breakdown has the lower-cased
    class names as keys and, when lower-casing keeps the names apart, maps
    each of them to the area of its class. *)
Lemma landuse_classifier_grouped w self lat lon radius_km ds cx cy
    layer proj inter col :
  rasterio_open w (dem_path self) = Ok ds →
  transform w (crs ds) lat lon = Ok (cx, cy) →
  let hex := select_hexagon ds cx cy radius_km in
  landuse self = Some layer →
  ensure_crs w layer (crs ds) = Ok proj →
  overlay w proj hex = Ok inter →
  rows inter ≠ [] →
  find_type_column type_column_candidates (columns inter) = Some col →
  groupby_area_sum col (rows inter) ≠ [] →
  let landuse_areas := groupby_area_sum col (rows inter) in
  (∃ before after,
     type_column_candidates = before ++ col :: after ∧ col ∈ columns inter ∧
     ∀ c, c ∈ before → c ∉ columns inter) ∧
  (∀ key total, (key, total) ∈ landuse_areas →
     total = Rlist_sum (category_areas col (rows inter) key)) ∧
  (idxmax landuse_areas, series_max landuse_areas) ∈ landuse_areas ∧
  (∀ item, item ∈ landuse_areas → item.2 <= series_max landuse_areas) ∧
  ∃ m breakdown,
    analyze_hexagon w self lat lon radius_km = Ok m ∧
    m !! "dominant_landuse" = Some (VStr (idxmax landuse_areas)) ∧
    m !! "dominant_landuse_percentage"
    = Some (VFloat (series_max landuse_areas / series_sum landuse_areas * 100)) ∧
    m !! "landuse_breakdown" = Some (VDict breakdown) ∧
    dom breakdown = list_to_set (lower ∘ fst <$> landuse_areas) ∧
    (NoDup (lower ∘ fst <$> landuse_areas) →
     ∀ key total, (key, total) ∈ landuse_areas →
                  breakdown !! lower key = Some total).
Proof.
  intros Hopen Htr hex Hl Hp Hi Hrows Hcol Hgroups areas.
  split; [by apply find_type_column_first|].
  split; [intros key total Hin; by apply groupby_area_sum_elem_of in Hin as [_ ?]|].
  destruct (idxmax_spec areas Hgroups) as [Hin Hmax].
  split; [exact Hin|]. split; [exact Hmax|].
  exists (results_for w self ds hex), (build_breakdown areas).
  split; [by eapply analyze_hexagon_ok|].
  destruct (results_for_landuse w self ds hex _ _ _
              (landuse_analysis_grouped w self hex (crs ds) layer proj inter col
                 Hl Hp Hi Hrows Hcol Hgroups)) as (H1 & H2 & H3).
  split; [exact H1|]. split; [exact H2|]. split; [exact H3|].
  split; [apply build_breakdown_dom|].
  intros Hnd key total Hkey. by apply build_breakdown_lookup.
Qed.

(** ** C3: the placeholders against a real result *)

Lemma build_breakdown_nonempty (s : Series) :
  s ≠ [] → build_breakdown s ≠ ∅.
Proof.
  destruct s as [|item s _] using rev_ind; [done|]. intros _.
  rewrite build_breakdown_snoc. apply insert_non_empty.
Qed.

(** C3, as amended.  In an analysis whose raster block completes (the
    raster opens and the centre is projected into its CRS), the three
    placeholder outcomes of the land-use metric (layer not loaded at startup,
    no feature intersects the hexagon, no classification column found) each
    yield dominant_landuse = "No data", dominant_landuse_percentage = 0 and
    an empty landuse_breakdown, and an exception in the metric yields
    "Error", 0 and an empty breakdown.  The three "No data" outcomes write
    the same three entries, so the returned mapping does not tell them apart
    from one another.  It does tell them apart from "Error", whose name
    differs, and from a real result (a class column found and at least one
    class grouped), whose percentage is a float and whose breakdown is not
    empty. *)
Theorem landuse_placeholders_coincide w self lat lon radius_km ds cx cy :
  rasterio_open w (dem_path self) = Ok ds →
  transform w (crs ds) lat lon = Ok (cx, cy) →
  let hex := select_hexagon ds cx cy radius_km in
  let pcrs := crs ds in
  ∃ m,
    analyze_hexagon w self lat lon radius_km = Ok m ∧
    let placeholder (name : string) :=
      m !! "dominant_landuse" = Some (VStr name) ∧
      m !! "dominant_landuse_percentage" = Some (VInt 0) ∧
      m !! "landuse_breakdown" = Some (VDict ∅) in
    (landuse self = None → placeholder "No data") ∧
    (∀ layer proj inter,
       landuse self = Some layer →
       ensure_crs w layer pcrs = Ok proj →
       overlay w proj hex = Ok inter →
       rows inter = [] → placeholder "No data") ∧
    (∀ layer proj inter,
       landuse self = Some layer →
       ensure_crs w layer pcrs = Ok proj →
       overlay w proj hex = Ok inter →
       (∀ c, c ∈ type_column_candidates → c ∉ columns inter) →
       placeholder "No data") ∧
    (∀ layer e,
       landuse self = Some layer →
       run (landuse_body w layer hex pcrs) ∅ = Raise e →
       placeholder "Error") ∧
    ¬ (placeholder "No data" ∧ placeholder "Error") ∧
    (∀ layer proj inter col,
       landuse self = Some layer →
       ensure_crs w layer pcrs = Ok proj →
       overlay w proj hex = Ok inter →
       find_type_column type_column_candidates (columns inter) = Some col →
       groupby_area_sum col (rows inter) ≠ [] →
       (∃ name percentage breakdown,
          m !! "dominant_landuse" = Some (VStr name) ∧
          m !! "dominant_landuse_percentage" = Some (VFloat percentage) ∧
          m !! "landuse_breakdown" = Some (VDict breakdown) ∧
          breakdown ≠ ∅) ∧
       ¬ placeholder "No data" ∧ ¬ placeholder "Error").
Proof.
  intros Hopen Htr hex pcrs. exists (results_for w self ds hex).
  split; [by eapply analyze_hexagon_ok|]. cbn zeta.
  split; [|split; [|split; [|split; [|split]]]].
  - intros H. apply results_for_landuse.
    by apply landuse_analysis_not_loaded.
  - intros layer proj inter Hl Hp Hi Hrows. apply results_for_landuse.
    by eapply landuse_analysis_no_features.
  - intros layer proj inter Hl Hp Hi Hcols. apply results_for_landuse.
    by eapply landuse_analysis_no_column.
  - intros layer e Hl Hraise. apply results_for_landuse.
    by eapply landuse_analysis_error.
  - intros [(Hno & _) (Herr & _)]. congruence.
  - intros layer proj inter col Hl Hp Hi Hcol Hgroups.
    assert (Hrows : rows inter ≠ []).
    { intros Hnil. apply Hgroups. by rewrite Hnil. }
    destruct (results_for_landuse w self ds hex _ _ _
                (landuse_analysis_grouped w self hex pcrs layer proj inter col
                   Hl Hp Hi Hrows Hcol Hgroups)) as (H1 & H2 & H3).
    pose proof (build_breakdown_nonempty _ Hgroups) as Hne.
    split; [|split].
    + eexists _, _, _. by repeat split.
    + intros (_ & Hpct & _). congruence.
    + intros (_ & Hpct & _). congruence.
Qed.

Lemma landuse_placeholders_coincide_witness :
  (∃ m, analyze_hexagon demo_world (with_landuse (Some empty_landuse)) 5 5 2 = Ok m ∧
        m !! "dominant_landuse" = Some (VStr "No data") ∧
        m !! "dominant_landuse_percentage" = Some (VInt 0) ∧
        m !! "landuse_breakdown" = Some (VDict ∅)) ∧
  (∃ m name percentage breakdown,
     analyze_hexagon demo_world (with_landuse (Some scenario_landuse)) 5 5 2 = Ok m ∧
     m !! "dominant_landuse" = Some (VStr name) ∧
     m !! "dominant_landuse_percentage" = Some (VFloat percentage) ∧
     m !! "landuse_breakdown" = Some (VDict breakdown) ∧
     breakdown ≠ ∅).
Proof.
  split.
  - destruct (landuse_placeholders_coincide demo_world
                (with_landuse (Some empty_landuse)) 5 5 2 demo_dataset
                (5 * 1000) (5 * 1000) eq_refl eq_refl)
      as (m & Hm & _ & Hempty & _).
    exists m. split; [exact Hm|].
    apply (Hempty empty_landuse empty_landuse empty_landuse); reflexivity.
  - destruct (landuse_placeholders_coincide demo_world
                (with_landuse (Some scenario_landuse)) 5 5 2 demo_dataset
                (5 * 1000) (5 * 1000) eq_refl eq_refl)
      as (m & Hm & _ & _ & _ & _ & _ & Hreal).
    destruct (Hreal scenario_landuse scenario_landuse scenario_landuse "fclass"
                eq_refl eq_refl eq_refl eq_refl)
      as ((name & percentage & breakdown & H) & _).
    { rewrite scenario_groups. discriminate. }
    exists m, name, percentage, breakdown. split; [exact Hm|exact H].
Defined.

(** * Further properties of the module *)

(** ** The hexagon builder: box, edges, orientation *)

Lemma hexagon_total_bounds_abs cx cy r crs :
  total_bounds (create_hexagon_projected cx cy r crs)
  = (cx - Rabs r * (sqrt 3 / 2), cy - Rabs r,
     cx + Rabs r * (sqrt 3 / 2), cy + Rabs r).
Proof.
  destruct (Rle_dec 0 r) as [Hr|Hr].
  { rewrite hexagon_total_bounds by done. by rewrite Rabs_pos_eq. }
  rewrite Rabs_left by lra. rewrite hexagon_vertices_explicit.
  assert (Hs : 0 <= sqrt 3 / 2) by (pose proof (sqrt_pos 3); lra).
  assert (Ht : r * (sqrt 3 / 2) <= 0) by nra.
  replace (r * - (sqrt 3 / 2)) with (- (r * (sqrt 3 / 2))) by ring.
  replace (- r * (sqrt 3 / 2)) with (- (r * (sqrt 3 / 2))) by ring.
  set (t := r * (sqrt 3 / 2)) in *. clearbody t.
  unfold total_bounds. cbn [fmap list_fmap fst snd].
  repeat f_equal.
  - apply Rlist_min_eq.
    + replace (cx - - t) with (cx + t) by ring. set_solver.
    + intros y Hy. elem_of_cases Hy; lra.
  - apply Rlist_min_eq.
    + replace (cy - - r) with (cy + r * 1) by ring. set_solver.
    + intros y Hy. elem_of_cases Hy; lra.
  - apply Rlist_max_eq.
    + set_solver.
    + intros y Hy. elem_of_cases Hy; lra.
  - apply Rlist_max_eq.
    + replace (cy + - r) with (cy + r * -1) by ring. set_solver.
    + intros y Hy. elem_of_cases Hy; lra.
Qed.

(** X1.  The bounding box of the hexagon of centre (x, y) and radius r is
    [x − |r|·√3/2, x + |r|·√3/2] × [y − |r|, y + |r|]: it is |r|·√3 wide and
    2·|r| high. *)
Theorem hexagon_bounding_box (cx cy r : R) (crs : CRS) :
  let '(minx, miny, maxx, maxy) :=
    total_bounds (create_hexagon_projected cx cy r crs) in
  minx = cx - Rabs r * (sqrt 3 / 2) ∧ maxx = cx + Rabs r * (sqrt 3 / 2) ∧
  miny = cy - Rabs r ∧ maxy = cy + Rabs r ∧
  maxx - minx = Rabs r * sqrt 3 ∧ maxy - miny = 2 * Rabs r.
Proof.
  rewrite hexagon_total_bounds_abs. repeat split; lra.
Qed.

Lemma sqrt3_sqr : sqrt 3 * sqrt 3 = 3.
Proof. apply sqrt_sqrt. lra. Qed.

Lemma distance_of_squares (p q : Coord) r :
  Rsqr (p.1 - q.1) + Rsqr (p.2 - q.2) = Rsqr r → distance p q = Rabs r.
Proof. intros H. unfold distance. rewrite H. apply sqrt_Rsqr_abs. Qed.

(** X2.  The hexagon is regular: each of its six edges, from vertex i to
    vertex i+1 of the ring, has length |r|. *)
Theorem hexagon_edges_have_length_radius (cx cy r : R) (crs : CRS) (i : nat) :
  (i < 6)%nat →
  ∃ p q, create_hexagon_projected cx cy r crs !! i = Some p ∧
         create_hexagon_projected cx cy r crs !! S i = Some q ∧
         distance p q = Rabs r.
Proof.
  intros Hi. rewrite hexagon_vertices_explicit.
  pose proof sqrt3_sqr as Hs. set (s := sqrt 3) in *. clearbody s.
  destruct i as [|[|[|[|[|[|]]]]]]; try lia;
    (eexists _, _; split; [reflexivity|]; split; [reflexivity|]);
    apply distance_of_squares; cbn [fst snd]; unfold Rsqr; nra.
Qed.

Lemma hexagon_edges_have_length_radius_witness :
  ∃ p q, create_hexagon_projected 0 0 2000 demo_crs !! 1%nat = Some p ∧
         create_hexagon_projected 0 0 2000 demo_crs !! 2%nat = Some q ∧
         distance p q = 2000.
Proof.
  destruct (hexagon_edges_have_length_radius 0 0 2000 demo_crs 1 ltac:(lia))
    as (p & q & Hp & Hq & Hd).
  exists p, q. split; [exact Hp|]. split; [exact Hq|].
  rewrite Hd. apply Rabs_pos_eq. lra.
Defined.

(** X3.  The hexagon stands on a vertex: vertex 2 is the point (x, y + r)
    straight above the centre and vertex 5 the point (x, y − r) straight
    below it, while vertices 0 and 1 share the abscissa x + r·√3/2 and
    vertices 3 and 4 the abscissa x − r·√3/2, so the two edges between them
    are vertical. *)
Theorem hexagon_stands_on_a_vertex (cx cy r : R) (crs : CRS) :
  let poly := create_hexagon_projected cx cy r crs in
  poly !! 2%nat = Some (cx, cy + r) ∧
  poly !! 5%nat = Some (cx, cy - r) ∧
  (∃ y0 y1, poly !! 0%nat = Some (cx + r * (sqrt 3 / 2), y0) ∧
            poly !! 1%nat = Some (cx + r * (sqrt 3 / 2), y1) ∧ y1 - y0 = r) ∧
  (∃ y3 y4, poly !! 3%nat = Some (cx - r * (sqrt 3 / 2), y3) ∧
            poly !! 4%nat = Some (cx - r * (sqrt 3 / 2), y4) ∧ y3 - y4 = r).
Proof.
  intros poly. subst poly. rewrite hexagon_vertices_explicit.
  cbn [lookup list_lookup]. repeat split.
  - do 2 f_equal; lra.
  - do 2 f_equal; lra.
  - eexists _, _. split; [reflexivity|]. split; [reflexivity|]. lra.
  - exists (cy + r * (1 / 2)), (cy + r * - (1 / 2)).
    split; [|split]; [do 2 f_equal; lra..|lra].
Qed.

(** ** The bounds test and the fallback *)

Lemma centre_inside_overlaps ds cx cy r crs :
  bounds_left (bounds ds) <= cx <= bounds_right (bounds ds) →
  bounds_bottom (bounds ds) <= cy <= bounds_top (bounds ds) →
  ¬ no_overlap (total_bounds (create_hexagon_projected cx cy r crs)) (bounds ds).
Proof.
  intros Hx Hy. rewrite hexagon_total_bounds_abs. unfold no_overlap.
  pose proof (Rabs_pos r). pose proof (sqrt_pos 3).
  assert (0 <= Rabs r * (sqrt 3 / 2)) by nra.
  lra.
Qed.

(** X4.  A request whose projected centre lies within the bounds of the
    raster is analysed on the hexagon it asked for, whatever the radius: the
    fallback does not fire. *)
Theorem centre_inside_raster_is_not_recentred w self lat lon radius_km ds cx cy :
  rasterio_open w (dem_path self) = Ok ds →
  transform w (crs ds) lat lon = Ok (cx, cy) →
  bounds_left (bounds ds) <= cx <= bounds_right (bounds ds) →
  bounds_bottom (bounds ds) <= cy <= bounds_top (bounds ds) →
  select_hexagon ds cx cy radius_km = requested_hexagon ds cx cy radius_km ∧
  analyze_hexagon w self lat lon radius_km
  = Ok (results_for w self ds (requested_hexagon ds cx cy radius_km)).
Proof.
  intros Hopen Htr Hx Hy.
  assert (Hsel : select_hexagon ds cx cy radius_km
                 = requested_hexagon ds cx cy radius_km).
  { apply select_hexagon_overlap. by apply centre_inside_overlaps. }
  split; [exact Hsel|]. rewrite <- Hsel. by eapply analyze_hexagon_ok.
Qed.

Lemma centre_inside_raster_is_not_recentred_witness :
  analyze_hexagon demo_world demo_analyzer 5 5 2
  = Ok (results_for demo_world demo_analyzer demo_dataset
          (requested_hexagon demo_dataset (5 * 1000) (5 * 1000) 2)).
Proof.
  apply (centre_inside_raster_is_not_recentred demo_world demo_analyzer 5 5 2
           demo_dataset (5 * 1000) (5 * 1000)).
  - reflexivity.
  - reflexivity.
  - simpl. lra.
  - simpl. lra.
Defined.

(** X5.  When the bounds of the raster are well formed (left ≤ right and
    bottom ≤ top), the hexagon of the fallback overlaps the raster: the
    bounds test, which the code does not repeat, would pass on it, and
    selecting a hexagon at the middle of the raster gives that hexagon. *)
Theorem fallback_hexagon_overlaps_raster ds radius_km :
  bounds_left (bounds ds) <= bounds_right (bounds ds) →
  bounds_bottom (bounds ds) <= bounds_top (bounds ds) →
  ¬ no_overlap (total_bounds (hex_geometry (recentred_hexagon ds radius_km)))
      (bounds ds).
Proof.
  intros Hx Hy. unfold recentred_hexagon. cbn [hex_geometry].
  apply centre_inside_overlaps; lra.
Qed.

Lemma fallback_hexagon_overlaps_raster_witness :
  ¬ no_overlap (total_bounds (hex_geometry (recentred_hexagon demo_dataset 2)))
      (bounds demo_dataset).
Proof.
  apply (fallback_hexagon_overlaps_raster demo_dataset 2); simpl; lra.
Defined.

(** ** The elevation step *)

(** The list that [mask] returns stands for the cells of the masked array
    that the mask leaves visible; the step keeps those that differ from the
    no-data value.  A window in which no cell is kept makes numpy report a
    masked minimum, which is no real number: the properties of this section
    are stated for a mask that raises or that leaves at least one valid
    cell. *)

Lemma Rlist_sum_lower (l : list R) a :
  (∀ y, y ∈ l → a <= y) → INR (length l) * a <= Rlist_sum l.
Proof.
  unfold Rlist_sum. induction l as [|x l IH]; intros Hl.
  - cbn. lra.
  - cbn [length foldr]. rewrite S_INR.
    pose proof (Hl x ltac:(left)). pose proof (IH (λ y Hy, Hl y ltac:(by right))).
    lra.
Qed.

Lemma Rlist_sum_upper (l : list R) b :
  (∀ y, y ∈ l → y <= b) → Rlist_sum l <= INR (length l) * b.
Proof.
  unfold Rlist_sum. induction l as [|x l IH]; intros Hl.
  - cbn. lra.
  - cbn [length foldr]. rewrite S_INR.
    pose proof (Hl x ltac:(left)). pose proof (IH (λ y Hy, Hl y ltac:(by right))).
    lra.
Qed.

Lemma Rlist_min_max_spec (l : list R) :
  l ≠ [] →
  Rlist_min 0 l ∈ l ∧ Rlist_max 0 l ∈ l ∧
  ∀ y, y ∈ l → Rlist_min 0 l <= y <= Rlist_max 0 l.
Proof.
  destruct l as [|x tl]; [done|]. intros _.
  destruct (foldr_Rmin_spec x tl) as [Hmin Hle].
  destruct (foldr_Rmax_spec x tl) as [Hmax Hge].
  unfold Rlist_min, Rlist_max. split; [done|]. split; [done|].
  intros y Hy. split; [by apply Hle|by apply Hge].
Qed.

Lemma Rlist_mean_between (l : list R) :
  l ≠ [] →
  Rlist_min 0 l <= Rlist_sum l / INR (length l) <= Rlist_max 0 l.
Proof.
  intros Hl. destruct (Rlist_min_max_spec l Hl) as (_ & _ & Hb).
  assert (Hn : 0 < INR (length l)).
  { apply lt_0_INR. destruct l; [done|cbn; lia]. }
  pose proof (Rlist_sum_lower l (Rlist_min 0 l) (λ y Hy, proj1 (Hb y Hy))).
  pose proof (Rlist_sum_upper l (Rlist_max 0 l) (λ y Hy, proj2 (Hb y Hy))).
  set (q := Rlist_sum l / INR (length l)).
  assert (Hq : q * INR (length l) = Rlist_sum l) by (unfold q; field; lra).
  split; nra.
Qed.

Lemma elevation_analysis_valid w ds hex cells :
  mask w ds (hex_geometry hex) = Ok cells →
  valid_cells ds cells ≠ [] →
  ∀ s, elevation_analysis w ds hex s
       = set_elevation (Rlist_min 0 (valid_cells ds cells))
           (Rlist_sum (valid_cells ds cells)
            / INR (length (valid_cells ds cells)))
           (Rlist_max 0 (valid_cells ds cells)) s.
Proof.
  intros Hmask Hvalid s. unfold elevation_analysis. unfold_monad.
  rewrite Hmask. fold (valid_cells ds cells).
  rewrite decide_True; [done|]. destruct (valid_cells ds cells); [done|cbn; lia].
Qed.

Lemma elevation_analysis_mask_raises w ds hex e :
  mask w ds (hex_geometry hex) = Raise e →
  ∀ s, elevation_analysis w ds hex s = set_elevation 0 0 0 s.
Proof.
  intros Hmask s. unfold elevation_analysis. unfold_monad. by rewrite Hmask.
Qed.

Lemma results_for_elevation w self ds hex lo mean hi :
  (∀ s, elevation_analysis w ds hex s = set_elevation lo mean hi s) →
  results_for w self ds hex !! "elevation_min" = Some (VFloat lo) ∧
  results_for w self ds hex !! "elevation_mean" = Some (VFloat mean) ∧
  results_for w self ds hex !! "elevation_max" = Some (VFloat hi).
Proof.
  intros H.
  pose proof (results_for_lookup w self ds hex) as Hlook. cbn zeta in Hlook.
  destruct Hlook as (H1&H2&H3&_). rewrite H1, H2, H3.
  unfold produced. rewrite !H, !set_elevation_run. cbn [snd].
  by simplify_map_eq.
Qed.

(** X6.  In a completed analysis in which masking the raster raises, or
    leaves at least one cell different from the no-data value, the three
    elevation entries are floats with
    elevation_min ≤ elevation_mean ≤ elevation_max. *)
Theorem elevation_min_le_mean_le_max w self lat lon radius_km ds cx cy :
  rasterio_open w (dem_path self) = Ok ds →
  transform w (crs ds) lat lon = Ok (cx, cy) →
  let hex := select_hexagon ds cx cy radius_km in
  (∃ e, mask w ds (hex_geometry hex) = Raise e)
  ∨ (∃ cells, mask w ds (hex_geometry hex) = Ok cells
              ∧ valid_cells ds cells ≠ []) →
  ∃ m lo mean hi,
    analyze_hexagon w self lat lon radius_km = Ok m ∧
    m !! "elevation_min" = Some (VFloat lo) ∧
    m !! "elevation_mean" = Some (VFloat mean) ∧
    m !! "elevation_max" = Some (VFloat hi) ∧
    lo <= mean <= hi.
Proof.
  intros Hopen Htr hex Hcase.
  assert (Hrun : analyze_hexagon w self lat lon radius_km
                 = Ok (results_for w self ds hex)) by (by eapply analyze_hexagon_ok).
  destruct Hcase as [[e Hmask]|(cells & Hmask & Hvalid)].
  - destruct (results_for_elevation w self ds hex 0 0 0
                (elevation_analysis_mask_raises w ds hex e Hmask))
      as (H1 & H2 & H3).
    eexists _, 0, 0, 0. repeat (split; [done|]). lra.
  - destruct (results_for_elevation w self ds hex _ _ _
                (elevation_analysis_valid w ds hex cells Hmask Hvalid))
      as (H1 & H2 & H3).
    eexists _, _, _, _. repeat (split; [done|]).
    by apply Rlist_mean_between.
Qed.

Lemma demo_valid_cells : valid_cells demo_dataset [100; 100; -9999] = [100; 100].
Proof.
  unfold valid_cells. cbn [nodata demo_dataset].
  rewrite filter_cons_True by (intros [= H]; lra).
  rewrite filter_cons_True by (intros [= H]; lra).
  by rewrite filter_cons_False by (intros H; by apply H).
Qed.

Lemma elevation_min_le_mean_le_max_witness :
  ∃ m lo mean hi,
    analyze_hexagon demo_world demo_analyzer 5 5 2 = Ok m ∧
    m !! "elevation_min" = Some (VFloat lo) ∧
    m !! "elevation_mean" = Some (VFloat mean) ∧
    m !! "elevation_max" = Some (VFloat hi) ∧
    lo <= mean <= hi.
Proof.
  apply (elevation_min_le_mean_le_max demo_world demo_analyzer 5 5 2
           demo_dataset (5 * 1000) (5 * 1000) eq_refl eq_refl).
  right. exists [100; 100; -9999]. split; [reflexivity|].
  rewrite demo_valid_cells. discriminate.
Defined.



(** X8.  When masking the raster raises, the exception is caught inside
    the raster block: the three elevation entries are 0.0 and the analysis
    goes on, so the mapping still has its twelve keys. *)
Theorem elevation_without_data_is_zero w self lat lon radius_km ds cx cy e :
  rasterio_open w (dem_path self) = Ok ds →
  transform w (crs ds) lat lon = Ok (cx, cy) →
  mask w ds (hex_geometry (select_hexagon ds cx cy radius_km)) = Raise e →
  ∃ m,
    analyze_hexagon w self lat lon radius_km = Ok m ∧
    m !! "elevation_min" = Some (VFloat 0) ∧
    m !! "elevation_mean" = Some (VFloat 0) ∧
    m !! "elevation_max" = Some (VFloat 0) ∧
    dom m = result_keys.
Proof.
  intros Hopen Htr Hmask.
  destruct (results_for_elevation w self ds _ 0 0 0
              (elevation_analysis_mask_raises w ds _ e Hmask)) as (H1 & H2 & H3).
  eexists. split; [by eapply analyze_hexagon_ok|].
  repeat (split; [done|]). apply results_for_dom.
Qed.

Lemma elevation_without_data_is_zero_witness :
  ∃ m, analyze_hexagon failing_mask_world demo_analyzer 5 5 2 = Ok m ∧
       m !! "elevation_min" = Some (VFloat 0) ∧
       m !! "elevation_mean" = Some (VFloat 0) ∧
       m !! "elevation_max" = Some (VFloat 0).
Proof.
  destruct (elevation_without_data_is_zero failing_mask_world demo_analyzer
              5 5 2 demo_dataset (5 * 1000) (5 * 1000)
              (Exception "WindowError") eq_refl eq_refl eq_refl)
    as (m & Hm & Hmin & Hmean & Hmax & _).
  exists m. split; [exact Hm|]. split; [exact Hmin|]. split; [exact Hmean|exact Hmax].
Defined.

(** ** Roads, buildings and water: what the entries hold *)

Lemma results_for_roads w self ds hex v :
  (∀ s, roads_analysis w self hex (crs ds) s = set_result "total_road_length_m" v s) →
  results_for w self ds hex !! "total_road_length_m" = Some v.
Proof.
  intros H.
  pose proof (results_for_lookup w self ds hex) as Hlook. cbn zeta in Hlook.
  destruct Hlook as (_&_&_&H1&_). rewrite H1. f_equal.
  by apply produced_set_result.
Qed.

Lemma results_for_buildings w self ds hex d a :
  (∀ s, buildings_analysis w self hex (crs ds) s = set_buildings d a s) →
  results_for w self ds hex !! "building_density" = Some d ∧
  results_for w self ds hex !! "total_building_area_sq_m" = Some a.
Proof.
  intros H. destruct (produced_set_buildings _ _ _ H) as [Hd Ha].
  pose proof (results_for_lookup w self ds hex) as Hlook. cbn zeta in Hlook.
  destruct Hlook as (_&_&_&_&H1&H2&_). by rewrite H1, H2, Hd, Ha.
Qed.

Lemma results_for_water w self ds hex p a :
  (∀ s, water_analysis w self hex (crs ds) s = set_water p a s) →
  results_for w self ds hex !! "water_percentage" = Some p ∧
  results_for w self ds hex !! "water_area_sq_m" = Some a.
Proof.
  intros H. destruct (produced_set_water _ _ _ H) as [Hp Ha].
  pose proof (results_for_lookup w self ds hex) as Hlook. cbn zeta in Hlook.
  destruct Hlook as (_&_&_&_&_&_&H1&H2&_). by rewrite H1, H2, Hp, Ha.
Qed.

Lemma results_for_hexagon_area w self ds hex :
  results_for w self ds hex !! "hexagon_area_sq_km"
  = Some (VFloat (hexagon_area hex / 1000000)).
Proof.
  pose proof (results_for_lookup w self ds hex) as Hlook. cbn zeta in Hlook.
  by destruct Hlook as (_&_&_&_&_&_&_&_&_&_&_&H).
Qed.

Lemma roads_analysis_loaded w self hex pcrs layer proj inter :
  roads self = Some layer →
  ensure_crs w layer pcrs = Ok proj →
  overlay w proj hex = Ok inter →
  ∃ v, (∀ s, roads_analysis w self hex pcrs s
             = set_result "total_road_length_m" v s) ∧
       value_num v = Some (Rlist_sum ((geom_length ∘ geometry) <$> rows inter)) ∧
       (rows inter = [] → v = VInt 0).
Proof.
  intros Hl Hp Hi. unfold roads_analysis, roads_body. unfold_monad.
  rewrite Hl, Hp, Hi. case_decide as Hlen.
  - eexists. split; [done|]. split; [done|].
    intros Hrows. rewrite Hrows in Hlen. cbn in Hlen. lia.
  - eexists. split; [done|].
    destruct (rows inter); [|cbn in Hlen; lia]. by cbn.
Qed.

(** X9.  When the roads layer is loaded and its intersection with the
    hexagon is computed, total_road_length_m is the sum of the lengths of
    the intersected pieces; it is the integer 0 when there are none. *)
Theorem road_length_is_sum_of_pieces w self lat lon radius_km ds cx cy
    layer proj inter :
  rasterio_open w (dem_path self) = Ok ds →
  transform w (crs ds) lat lon = Ok (cx, cy) →
  roads self = Some layer →
  ensure_crs w layer (crs ds) = Ok proj →
  overlay w proj (select_hexagon ds cx cy radius_km) = Ok inter →
  ∃ m v,
    analyze_hexagon w self lat lon radius_km = Ok m ∧
    m !! "total_road_length_m" = Some v ∧
    value_num v = Some (Rlist_sum ((geom_length ∘ geometry) <$> rows inter)) ∧
    (rows inter = [] → v = VInt 0).
Proof.
  intros Hopen Htr Hl Hp Hi.
  destruct (roads_analysis_loaded _ _ _ _ _ _ _ Hl Hp Hi) as (v & Hv & Hnum & H0).
  eexists _, v. split; [by eapply analyze_hexagon_ok|].
  split; [by apply results_for_roads|]. by split.
Qed.

Lemma road_length_is_sum_of_pieces_witness :
  ∃ m v, analyze_hexagon demo_world demo_analyzer 5 5 2 = Ok m ∧
         m !! "total_road_length_m" = Some v ∧ value_num v = Some 120.
Proof.
  destruct (road_length_is_sum_of_pieces demo_world demo_analyzer 5 5 2
              demo_dataset (5 * 1000) (5 * 1000) demo_roads demo_roads demo_roads
              eq_refl eq_refl eq_refl eq_refl eq_refl)
    as (m & v & Hm & Hv & Hnum & _).
  exists m, v. split; [exact Hm|]. split; [exact Hv|].
  rewrite Hnum. f_equal. unfold Rlist_sum. simpl. lra.
Defined.

Lemma buildings_analysis_values w self hex pcrs :
  ∃ vd va d a,
    (∀ s, buildings_analysis w self hex pcrs s = set_buildings vd va s) ∧
    value_num vd = Some d ∧ value_num va = Some a ∧
    (hexagon_area hex > 0 → d * hexagon_area hex = a).
Proof.
  assert (Hzero : ∃ vd va d a,
            (∀ s, set_buildings (VInt 0) (VInt 0) s = set_buildings vd va s) ∧
            value_num vd = Some d ∧ value_num va = Some a ∧
            (hexagon_area hex > 0 → d * hexagon_area hex = a)).
  { exists (VInt 0), (VInt 0), 0, 0. repeat split; try done. intros _. lra. }
  unfold buildings_analysis, buildings_body. unfold_monad.
  destruct (buildings self) as [layer|]; [|exact Hzero].
  destruct (ensure_crs w layer pcrs) as [proj|e]; [|exact Hzero].
  destruct (overlay w proj hex) as [inter|e]; [|exact Hzero].
  destruct (decide (0 < length (rows inter))%nat); [|exact Hzero].
  eexists _, _, _, _. split; [done|]. split; [done|]. split; [done|].
  intros Hpos. rewrite decide_True by done. field. lra.
Qed.

(** X10.  In every completed analysis with a non-zero radius the building
    entries agree with the hexagon area of the same mapping:
    building_density × hexagon_area_sq_km × 10⁶ = total_building_area_sq_m.
    So the density lies in [0, 1] exactly when the building area lies
    between 0 and the hexagon area. *)
Theorem building_density_matches_area w self lat lon radius_km ds cx cy :
  rasterio_open w (dem_path self) = Ok ds →
  transform w (crs ds) lat lon = Ok (cx, cy) →
  radius_km ≠ 0 →
  ∃ m vd va d a h,
    analyze_hexagon w self lat lon radius_km = Ok m ∧
    m !! "building_density" = Some vd ∧ value_num vd = Some d ∧
    m !! "total_building_area_sq_m" = Some va ∧ value_num va = Some a ∧
    m !! "hexagon_area_sq_km" = Some (VFloat h) ∧
    d * (h * 1000000) = a ∧
    (0 <= d <= 1 ↔ 0 <= a <= h * 1000000).
Proof.
  intros Hopen Htr Hr. set (hex := select_hexagon ds cx cy radius_km).
  destruct (buildings_analysis_values w self hex (crs ds))
    as (vd & va & d & a & Hrun & Hd & Ha & Hrel).
  destruct (results_for_buildings _ _ _ _ _ _ Hrun) as [H1 H2].
  pose proof (hexagon_area_pos ds cx cy radius_km Hr) as Hpos. fold hex in Hpos.
  specialize (Hrel Hpos).
  exists (results_for w self ds hex), vd, va, d, a, (hexagon_area hex / 1000000).
  split; [by eapply analyze_hexagon_ok|].
  split; [exact H1|]. split; [exact Hd|]. split; [exact H2|]. split; [exact Ha|].
  split; [apply results_for_hexagon_area|].
  replace (hexagon_area hex / 1000000 * 1000000) with (hexagon_area hex)
    by (field; lra).
  split; [exact Hrel|]. split; intros [? ?]; split; nra.
Qed.

Lemma buildings_analysis_loaded w self hex pcrs layer proj inter :
  buildings self = Some layer →
  ensure_crs w layer pcrs = Ok proj →
  overlay w proj hex = Ok inter →
  rows inter ≠ [] →
  let total_building_area := Rlist_sum ((geom_area ∘ geometry) <$> rows inter) in
  ∀ s, buildings_analysis w self hex pcrs s
       = set_buildings
           (VFloat (if decide (hexagon_area hex > 0)
                    then total_building_area / hexagon_area hex else 0))
           (VFloat total_building_area) s.
Proof.
  intros Hl Hp Hi Hrows total s. unfold buildings_analysis, buildings_body.
  unfold_monad. rewrite Hl, Hp, Hi.
  rewrite decide_True; [done|]. destruct (rows inter); [done|cbn; lia].
Qed.

Lemma demo_buildings_entries :
  ∃ d, results_for demo_world (with_buildings (Some demo_buildings)) demo_dataset
         (select_hexagon demo_dataset (5 * 1000) (5 * 1000) 2)
       !! "building_density" = Some (VFloat d) ∧
       results_for demo_world (with_buildings (Some demo_buildings)) demo_dataset
         (select_hexagon demo_dataset (5 * 1000) (5 * 1000) 2)
       !! "total_building_area_sq_m" = Some (VFloat 400).
Proof.
  set (hex := select_hexagon demo_dataset (5 * 1000) (5 * 1000) 2).
  destruct (results_for_buildings demo_world (with_buildings (Some demo_buildings))
              demo_dataset hex _ _
              (buildings_analysis_loaded demo_world
                 (with_buildings (Some demo_buildings)) hex (crs demo_dataset)
                 demo_buildings demo_buildings demo_buildings
                 eq_refl eq_refl eq_refl ltac:(discriminate)))
    as [Hd Ha].
  eexists. split; [exact Hd|]. rewrite Ha. do 2 f_equal.
  unfold Rlist_sum. simpl. lra.
Qed.

Lemma building_density_matches_area_witness :
  ∃ m d h,
    analyze_hexagon demo_world (with_buildings (Some demo_buildings)) 5 5 2 = Ok m ∧
    m !! "building_density" = Some (VFloat d) ∧
    m !! "total_building_area_sq_m" = Some (VFloat 400) ∧
    m !! "hexagon_area_sq_km" = Some (VFloat h) ∧
    d * (h * 1000000) = 400.
Proof.
  destruct (building_density_matches_area demo_world
              (with_buildings (Some demo_buildings)) 5 5 2
              demo_dataset (5 * 1000) (5 * 1000) eq_refl eq_refl ltac:(lra))
    as (m & vd & va & d & a & h & Hm & H1 & H2 & H3 & H4 & H5 & H6 & _).
  destruct demo_buildings_entries as (d' & Hd & Ha).
  pose proof Hm as Heq.
  rewrite (analyze_hexagon_ok demo_world (with_buildings (Some demo_buildings))
             5 5 2 demo_dataset (5 * 1000) (5 * 1000) eq_refl eq_refl) in Heq.
  injection Heq as Heq. rewrite Heq in Hd, Ha.
  rewrite Hd in H1. injection H1 as H1. rewrite <- H1 in H2.
  rewrite Ha in H3. injection H3 as H3. rewrite <- H3 in H4.
  cbn [value_num] in H2, H4. injection H2 as H2. injection H4 as H4.
  exists m, d, h. split; [exact Hm|].
  split; [by rewrite <- H2|]. split; [exact Ha|]. split; [exact H5|].
  by rewrite H6, <- H4.
Defined.

Lemma water_analysis_values w self hex pcrs :
  ∃ vp va p a,
    (∀ s, water_analysis w self hex pcrs s = set_water vp va s) ∧
    value_num vp = Some p ∧ value_num va = Some a ∧
    (hexagon_area hex > 0 → p / 100 * hexagon_area hex = a).
Proof.
  unfold water_analysis. unfold_monad.
  destruct (total_water w self hex pcrs) as [total|e].
  - eexists _, _, _, _. split; [done|]. split; [done|]. split; [done|].
    intros Hpos. rewrite decide_True by done. field. lra.
  - exists (VInt 0), (VInt 0), 0, 0. repeat split; try done. intros _. lra.
Qed.

(** X11.  In every completed analysis with a non-zero radius the water
    entries agree with the hexagon area of the same mapping:
    water_percentage / 100 × hexagon_area_sq_km × 10⁶ = water_area_sq_m. *)
Theorem water_percentage_matches_area w self lat lon radius_km ds cx cy :
  rasterio_open w (dem_path self) = Ok ds →
  transform w (crs ds) lat lon = Ok (cx, cy) →
  radius_km ≠ 0 →
  ∃ m vp va p a h,
    analyze_hexagon w self lat lon radius_km = Ok m ∧
    m !! "water_percentage" = Some vp ∧ value_num vp = Some p ∧
    m !! "water_area_sq_m" = Some va ∧ value_num va = Some a ∧
    m !! "hexagon_area_sq_km" = Some (VFloat h) ∧
    p / 100 * (h * 1000000) = a.
Proof.
  intros Hopen Htr Hr. set (hex := select_hexagon ds cx cy radius_km).
  destruct (water_analysis_values w self hex (crs ds))
    as (vp & va & p & a & Hrun & Hp & Ha & Hrel).
  destruct (results_for_water _ _ _ _ _ _ Hrun) as [H1 H2].
  pose proof (hexagon_area_pos ds cx cy radius_km Hr) as Hpos. fold hex in Hpos.
  specialize (Hrel Hpos).
  exists (results_for w self ds hex), vp, va, p, a, (hexagon_area hex / 1000000).
  split; [by eapply analyze_hexagon_ok|].
  split; [exact H1|]. split; [exact Hp|]. split; [exact H2|]. split; [exact Ha|].
  split; [apply results_for_hexagon_area|].
  replace (hexagon_area hex / 1000000 * 1000000) with (hexagon_area hex)
    by (field; lra).
  exact Hrel.
Qed.

Lemma water_percentage_matches_area_witness :
  ∃ m vp va p a h,
    analyze_hexagon demo_world demo_analyzer 5 5 2 = Ok m ∧
    m !! "water_percentage" = Some vp ∧ value_num vp = Some p ∧
    m !! "water_area_sq_m" = Some va ∧ value_num va = Some a ∧
    m !! "hexagon_area_sq_km" = Some (VFloat h) ∧
    p / 100 * (h * 1000000) = a.
Proof.
  apply (water_percentage_matches_area demo_world demo_analyzer 5 5 2
           demo_dataset (5 * 1000) (5 * 1000) eq_refl eq_refl).
  lra.
Defined.

(** ** Failures of the water step *)

Lemma total_water_unreadable w self hex pcrs :
  (∃ e, read_file w (water_zones_path self) = Raise e)
  ∨ (∃ e, read_file w (water_ways_path self) = Raise e) →
  ∃ e, total_water w self hex pcrs = Raise e.
Proof.
  unfold total_water. unfold_monad. intros [[e He]|[e He]].
  - rewrite He. by eexists.
  - destruct (read_file w (water_zones_path self)); rewrite ?He; by eexists.
Qed.

Lemma water_analysis_raise w self hex pcrs e :
  total_water w self hex pcrs = Raise e →
  ∀ s, water_analysis w self hex pcrs s = set_water (VInt 0) (VInt 0) s.
Proof. intros H s. unfold water_analysis. unfold_monad. by rewrite H. Qed.

Lemma results_for_except_water w self self' ds hex k :
  roads self' = roads self → buildings self' = buildings self →
  landuse self' = landuse self →
  k ≠ "water_percentage" → k ≠ "water_area_sq_m" →
  results_for w self' ds hex !! k = results_for w self ds hex !! k.
Proof.
  intros Hr Hb Hl Hk1 Hk2. rewrite !results_for_unfold. cbn zeta.
  rewrite (roads_analysis_ext w self self') by done.
  rewrite (buildings_analysis_ext w self self') by done.
  rewrite (landuse_analysis_ext w self self') by done.
  repeat peel_insert k. done.
Qed.

(** X12.  If the water step raises, as it does when either water file
    cannot be read, water_percentage and water_area_sq_m are both the
    integer 0 and the call still returns its twelve keys; and whatever the
    two water files are, every other key of the mapping keeps its value. *)
Theorem water_failure_is_isolated w self lat lon radius_km ds cx cy :
  rasterio_open w (dem_path self) = Ok ds →
  transform w (crs ds) lat lon = Ok (cx, cy) →
  let hex := select_hexagon ds cx cy radius_km in
  ∃ m,
    analyze_hexagon w self lat lon radius_km = Ok m ∧
    dom m = result_keys ∧
    ((∃ e, total_water w self hex (crs ds) = Raise e) →
     m !! "water_percentage" = Some (VInt 0) ∧
     m !! "water_area_sq_m" = Some (VInt 0)) ∧
    ((∃ e, read_file w (water_zones_path self) = Raise e)
     ∨ (∃ e, read_file w (water_ways_path self) = Raise e) →
     m !! "water_percentage" = Some (VInt 0) ∧
     m !! "water_area_sq_m" = Some (VInt 0)) ∧
    (∀ self',
       dem_path self' = dem_path self → roads self' = roads self →
       buildings self' = buildings self → landuse self' = landuse self →
       ∃ m', analyze_hexagon w self' lat lon radius_km = Ok m' ∧
             ∀ k, k ≠ "water_percentage" → k ≠ "water_area_sq_m" →
                  m' !! k = m !! k).
Proof.
  intros Hopen Htr hex. exists (results_for w self ds hex).
  split; [by eapply analyze_hexagon_ok|]. split; [apply results_for_dom|].
  assert (Hraise : (∃ e, total_water w self hex (crs ds) = Raise e) →
            results_for w self ds hex !! "water_percentage" = Some (VInt 0) ∧
            results_for w self ds hex !! "water_area_sq_m" = Some (VInt 0)).
  { intros [e He]. apply results_for_water. by eapply water_analysis_raise. }
  split; [exact Hraise|]. split.
  - intros Hfile. apply Hraise. by apply total_water_unreadable.
  - intros self' Hdem Hr Hb Hl. exists (results_for w self' ds hex). split.
    + eapply analyze_hexagon_ok; by rewrite ?Hdem.
    + intros k Hk1 Hk2. by apply results_for_except_water.
Qed.

Lemma water_failure_is_isolated_witness :
  ∃ m, analyze_hexagon failing_overlay_world demo_analyzer 5 5 2 = Ok m ∧
       m !! "water_percentage" = Some (VInt 0) ∧
       m !! "water_area_sq_m" = Some (VInt 0).
Proof.
  destruct (water_failure_is_isolated failing_overlay_world demo_analyzer 5 5 2
              demo_dataset (5 * 1000) (5 * 1000) eq_refl eq_refl)
    as (m & Hm & _ & Hraise & _).
  exists m. split; [exact Hm|]. apply Hraise.
  exists (Exception "TopologyException"). reflexivity.
Defined.

Lemma water_ways_loop_raise index ways total :
  Exists (λ water_way, ∃ e, way_buffer_width index water_way = Raise e) ways →
  ∃ e, water_ways_loop index ways total = Raise e.
Proof.
  revert total. induction ways as [|water_way ways IH]; intros total Hex.
  - by apply Exists_nil in Hex.
  - cbn [water_ways_loop]. unfold_monad.
    destruct (way_buffer_width index water_way) as [z|e] eqn:Hz; [|by eexists].
    apply Exists_cons in Hex as [[e He]|Hex]; [congruence|].
    case_decide; by apply IH.
Qed.

Lemma way_buffer_width_null index water_way :
  "fclass" ∈ index → cell water_way "fclass" = None →
  ∃ e, way_buffer_width index water_way = Raise e.
Proof.
  intros Hin Hcell. unfold way_buffer_width. unfold_monad.
  rewrite getitem_default, decide_True by done. rewrite Hcell. by eexists.
Qed.

(** X13.  One water way with a null [fclass] is enough to lose the whole
    water estimate: reading its class raises, the step ends in its handler,
    and both entries are the integer 0, the water zones included. *)
Theorem null_water_class_zeroes_water w self lat lon radius_km ds cx cy
    zones ways zones' ways' zone_total ways_in water_way :
  rasterio_open w (dem_path self) = Ok ds →
  transform w (crs ds) lat lon = Ok (cx, cy) →
  let hex := select_hexagon ds cx cy radius_km in
  read_file w (water_zones_path self) = Ok zones →
  read_file w (water_ways_path self) = Ok ways →
  ensure_crs w zones (crs ds) = Ok zones' →
  ensure_crs w ways (crs ds) = Ok ways' →
  water_zones_area w zones' hex 0 = Ok zone_total →
  rows ways' ≠ [] →
  overlay w ways' hex = Ok ways_in →
  "fclass" ∈ columns ways_in →
  water_way ∈ rows ways_in →
  cell water_way "fclass" = None →
  ∃ m,
    analyze_hexagon w self lat lon radius_km = Ok m ∧
    m !! "water_percentage" = Some (VInt 0) ∧
    m !! "water_area_sq_m" = Some (VInt 0).
Proof.
  intros Hopen Htr hex Hz Hw Hz' Hw' Hzone Hrows Hwi Hcol Hin Hnull.
  exists (results_for w self ds hex).
  split; [by eapply analyze_hexagon_ok|].
  assert (Hraise : ∃ e, total_water w self hex (crs ds) = Raise e).
  { unfold total_water, water_ways_area. unfold_monad.
    rewrite Hz, Hw, Hz', Hw', Hzone.
    rewrite decide_True by (destruct (rows ways'); [done|cbn; lia]).
    rewrite Hwi.
    rewrite decide_True
      by (destruct (rows ways_in); [by apply elem_of_nil in Hin|cbn; lia]).
    apply water_ways_loop_raise. apply Exists_exists. exists water_way.
    split; [done|]. by apply way_buffer_width_null. }
  destruct Hraise as [e He]. apply results_for_water.
  by eapply water_analysis_raise.
Qed.

Lemma null_water_class_zeroes_water_witness :
  ∃ m, analyze_hexagon null_class_world demo_analyzer 5 5 2 = Ok m ∧
       m !! "water_percentage" = Some (VInt 0) ∧
       m !! "water_area_sq_m" = Some (VInt 0).
Proof.
  apply (null_water_class_zeroes_water null_class_world demo_analyzer 5 5 2
           demo_dataset (5 * 1000) (5 * 1000)
           demo_water_zones null_class_waterways
           demo_water_zones null_class_waterways
           (0 + Rlist_sum ((geom_area ∘ geometry) <$> rows demo_water_zones))
           null_class_waterways
           (row_of (line_geometry 10) [("fclass", None)]));
    try reflexivity.
  - done.
  - left.
  - right. left.
Defined.

(** ** The land-use classifier: edge cases *)

Lemma groupby_area_sum_all_null col frame :
  (∀ row, row ∈ frame → cell row col = None) →
  groupby_area_sum col frame = [].
Proof.
  induction frame as [|row frame IH] using rev_ind; [done|]. intros Hnull.
  rewrite groupby_area_sum_snoc.
  rewrite (Hnull row) by (apply elem_of_app; right; left).
  apply IH. intros r Hr. apply Hnull. apply elem_of_app. by left.
Qed.

Lemma landuse_analysis_no_groups w self hex pcrs layer proj inter col :
  landuse self = Some layer →
  ensure_crs w layer pcrs = Ok proj →
  overlay w proj hex = Ok inter →
  find_type_column type_column_candidates (columns inter) = Some col →
  groupby_area_sum col (rows inter) = [] →
  ∀ s, landuse_analysis w self hex pcrs s = set_landuse "No data" (VInt 0) ∅ s.
Proof.
  unfold landuse_analysis, landuse_body. unfold_monad.
  intros -> -> -> -> Hgroups s. rewrite Hgroups.
  case_decide; [|done]. by rewrite decide_False by (cbn; lia).
Qed.

(** X14.  A fourth way to "No data": the layer has features in the hexagon
    and a classification column, but every feature has a null in that
    column.  The three land-use entries are then "No data", 0 and an empty
    breakdown, as on the other placeholder paths. *)
Theorem landuse_all_null_is_no_data w self lat lon radius_km ds cx cy
    layer proj inter col :
  rasterio_open w (dem_path self) = Ok ds →
  transform w (crs ds) lat lon = Ok (cx, cy) →
  landuse self = Some layer →
  ensure_crs w layer (crs ds) = Ok proj →
  overlay w proj (select_hexagon ds cx cy radius_km) = Ok inter →
  find_type_column type_column_candidates (columns inter) = Some col →
  (∀ row, row ∈ rows inter → cell row col = None) →
  ∃ m,
    analyze_hexagon w self lat lon radius_km = Ok m ∧
    m !! "dominant_landuse" = Some (VStr "No data") ∧
    m !! "dominant_landuse_percentage" = Some (VInt 0) ∧
    m !! "landuse_breakdown" = Some (VDict ∅).
Proof.
  intros Hopen Htr Hl Hp Hi Hcol Hnull.
  eexists. split; [by eapply analyze_hexagon_ok|].
  apply results_for_landuse.
  eapply landuse_analysis_no_groups; [done..|].
  by apply groupby_area_sum_all_null.
Qed.

Lemma landuse_all_null_is_no_data_witness :
  ∃ m,
    analyze_hexagon demo_world (with_landuse (Some null_class_landuse)) 5 5 2
    = Ok m ∧
    m !! "dominant_landuse" = Some (VStr "No data").
Proof.
  destruct (landuse_all_null_is_no_data demo_world
              (with_landuse (Some null_class_landuse)) 5 5 2 demo_dataset
              (5 * 1000) (5 * 1000) null_class_landuse null_class_landuse
              null_class_landuse "fclass" eq_refl eq_refl eq_refl eq_refl
              eq_refl eq_refl)
    as (m & Hm & Hd & _).
  { intros row Hrow. cbn in Hrow. elem_of_cases Hrow; reflexivity. }
  exists m. split; [exact Hm|exact Hd].
Defined.

Lemma Rlist_sum_ge_elem (l : list R) x :
  (∀ y, y ∈ l → 0 <= y) → x ∈ l → x <= Rlist_sum l.
Proof.
  unfold Rlist_sum. induction l as [|z l IH]; intros Hpos Hx.
  - by apply elem_of_nil in Hx.
  - cbn [foldr]. pose proof (Hpos z ltac:(left)).
    pose proof (Rlist_sum_lower l 0 (λ y Hy, Hpos y ltac:(by right))) as Hs.
    unfold Rlist_sum in Hs. rewrite Rmult_0_r in Hs.
    apply elem_of_cons in Hx as [->|Hx]; [lra|].
    specialize (IH (λ y Hy, Hpos y ltac:(by right)) Hx). lra.
Qed.

Lemma groupby_area_sum_nonneg col frame item :
  (∀ row, row ∈ frame → 0 <= geom_area (geometry row)) →
  item ∈ groupby_area_sum col frame → 0 <= item.2.
Proof.
  intros Hpos Hin. destruct item as [key total].
  apply groupby_area_sum_elem_of in Hin as [_ ->]. cbn [snd].
  pose proof (Rlist_sum_lower (category_areas col frame key) 0) as Hs.
  rewrite Rmult_0_r in Hs. apply Hs. unfold category_areas.
  intros y (row & -> & Hrow%list_elem_of_filter)%list_elem_of_fmap.
  apply Hpos, Hrow.
Qed.

(** X15.  When no intersected feature has a negative area and the grouped
    areas add up to a positive total, dominant_landuse_percentage is a float
    greater than 0 and at most 100. *)
Theorem dominant_percentage_within_100 w self lat lon radius_km ds cx cy
    layer proj inter col :
  rasterio_open w (dem_path self) = Ok ds →
  transform w (crs ds) lat lon = Ok (cx, cy) →
  landuse self = Some layer →
  ensure_crs w layer (crs ds) = Ok proj →
  overlay w proj (select_hexagon ds cx cy radius_km) = Ok inter →
  find_type_column type_column_candidates (columns inter) = Some col →
  (∀ row, row ∈ rows inter → 0 <= geom_area (geometry row)) →
  0 < series_sum (groupby_area_sum col (rows inter)) →
  ∃ m percentage,
    analyze_hexagon w self lat lon radius_km = Ok m ∧
    m !! "dominant_landuse_percentage" = Some (VFloat percentage) ∧
    0 < percentage <= 100.
Proof.
  intros Hopen Htr Hl Hp Hi Hcol Hpos Hsum.
  set (areas := groupby_area_sum col (rows inter)) in *.
  assert (Hgroups : areas ≠ []).
  { intros Heq. rewrite Heq in Hsum. unfold series_sum, Rlist_sum in Hsum.
    cbn in Hsum. lra. }
  assert (Hrows : rows inter ≠ []).
  { intros Heq. apply Hgroups. subst areas. by rewrite Heq. }
  destruct (results_for_landuse w self ds _ _ _ _
              (landuse_analysis_grouped w self _ (crs ds) layer proj inter col
                 Hl Hp Hi Hrows Hcol Hgroups)) as (_ & H2 & _).
  eexists _, _. split; [by eapply analyze_hexagon_ok|]. split; [exact H2|].
  fold areas. destruct (idxmax_spec areas Hgroups) as [Hin Hmax].
  assert (Hnonneg : ∀ y, y ∈ snd <$> areas → 0 <= y).
  { intros y (item & -> & Hitem)%list_elem_of_fmap.
    by eapply groupby_area_sum_nonneg. }
  assert (Hle : series_max areas <= series_sum areas).
  { unfold series_sum. apply Rlist_sum_ge_elem; [done|].
    apply list_elem_of_fmap. by exists (idxmax areas, series_max areas). }
  assert (Hgt : 0 < series_max areas).
  { destruct (Rlt_dec 0 (series_max areas)) as [|Hn]; [done|]. exfalso.
    pose proof (Rlist_sum_upper (snd <$> areas) (series_max areas)) as Hup.
    unfold series_sum in Hsum.
    assert (0 <= INR (length (snd <$> areas))) by apply pos_INR.
    assert (Rlist_sum (snd <$> areas)
            <= INR (length (snd <$> areas)) * series_max areas).
    { apply Hup. intros y (item & -> & Hitem)%list_elem_of_fmap.
      by apply Hmax. }
    nra. }
  set (q := series_max areas / series_sum areas).
  assert (Hq : q * series_sum areas = series_max areas)
    by (unfold q; field; lra).
  split; nra.
Qed.

Lemma dominant_percentage_within_100_witness :
  ∃ m percentage,
    analyze_hexagon demo_world (with_landuse (Some scenario_landuse)) 5 5 2
    = Ok m ∧
    m !! "dominant_landuse_percentage" = Some (VFloat percentage) ∧
    0 < percentage <= 100.
Proof.
  apply (dominant_percentage_within_100 demo_world
           (with_landuse (Some scenario_landuse)) 5 5 2 demo_dataset
           (5 * 1000) (5 * 1000) scenario_landuse scenario_landuse
           scenario_landuse "fclass"); try reflexivity.
  - intros row Hrow. cbn in Hrow. elem_of_cases Hrow; cbn; lra.
  - rewrite scenario_groups. unfold series_sum, Rlist_sum. cbn. lra.
Defined.

(** X16.  On the grouped path the breakdown always has an entry for the
    dominant class, under its lower-cased name; dominant_landuse itself keeps
    the spelling of the layer.  When lower-casing keeps the class names
    apart, that entry is the dominant area. *)
Theorem dominant_class_is_in_breakdown w self lat lon radius_km ds cx cy
    layer proj inter col :
  rasterio_open w (dem_path self) = Ok ds →
  transform w (crs ds) lat lon = Ok (cx, cy) →
  landuse self = Some layer →
  ensure_crs w layer (crs ds) = Ok proj →
  overlay w proj (select_hexagon ds cx cy radius_km) = Ok inter →
  find_type_column type_column_candidates (columns inter) = Some col →
  groupby_area_sum col (rows inter) ≠ [] →
  let landuse_areas := groupby_area_sum col (rows inter) in
  ∃ m dominant breakdown,
    analyze_hexagon w self lat lon radius_km = Ok m ∧
    m !! "dominant_landuse" = Some (VStr dominant) ∧
    m !! "landuse_breakdown" = Some (VDict breakdown) ∧
    (∃ row, row ∈ rows inter ∧ cell row col = Some dominant) ∧
    lower dominant ∈ dom breakdown ∧
    (NoDup (lower ∘ fst <$> landuse_areas) →
     breakdown !! lower dominant = Some (series_max landuse_areas)).
Proof.
  intros Hopen Htr Hl Hp Hi Hcol Hgroups areas.
  assert (Hrows : rows inter ≠ []).
  { intros Heq. apply Hgroups. by rewrite Heq. }
  destruct (results_for_landuse w self ds _ _ _ _
              (landuse_analysis_grouped w self _ (crs ds) layer proj inter col
                 Hl Hp Hi Hrows Hcol Hgroups)) as (H1 & _ & H3).
  fold areas in H1, H3. destruct (idxmax_spec areas Hgroups) as [Hin _].
  eexists _, _, _. split; [by eapply analyze_hexagon_ok|].
  split; [exact H1|]. split; [exact H3|]. split; [|split].
  - apply groupby_area_sum_elem_of in Hin as [Hne _].
    unfold category_areas in Hne.
    destruct (filter _ (rows inter)) as [|row rest] eqn:Hf; [done|].
    assert (Hrow : row ∈ filter (λ row, cell row col = Some (idxmax areas))
                           (rows inter)) by (rewrite Hf; left).
    apply list_elem_of_filter in Hrow as [? ?]. by exists row.
  - rewrite build_breakdown_dom. apply elem_of_list_to_set.
    apply list_elem_of_fmap. by exists (idxmax areas, series_max areas).
  - intros Hnd. by apply build_breakdown_lookup.
Qed.

Lemma dominant_class_is_in_breakdown_witness :
  ∃ m dominant breakdown,
    analyze_hexagon demo_world (with_landuse (Some mixed_case_landuse)) 5 5 2
    = Ok m ∧
    m !! "dominant_landuse" = Some (VStr dominant) ∧
    m !! "landuse_breakdown" = Some (VDict breakdown) ∧
    lower dominant ∈ dom breakdown.
Proof.
  destruct (dominant_class_is_in_breakdown demo_world
              (with_landuse (Some mixed_case_landuse)) 5 5 2 demo_dataset
              (5 * 1000) (5 * 1000) mixed_case_landuse mixed_case_landuse
              mixed_case_landuse "fclass" eq_refl eq_refl eq_refl eq_refl
              eq_refl eq_refl)
    as (m & dominant & breakdown & Hm & Hd & Hb & _ & Hin & _).
  { by rewrite mixed_case_groups. }
  by exists m, dominant, breakdown.
Defined.

Lemma foldl_best_first (g : string * R) (tl : Series) :
  let best := foldl (λ best item, if decide (item.2 > best.2) then item else best)
                g tl in
  ∃ before after,
    g :: tl = before ++ best :: after ∧
    (∀ item, item ∈ before → item.2 < best.2) ∧
    (∀ item, item ∈ after → item.2 <= best.2).
Proof.
  revert g. induction tl as [|h tl IH]; intros g; cbn [foldl].
  - exists [], []. split; [done|]. split; by intros item ?%elem_of_nil.
  - case_decide as Hgt.
    + destruct (IH h) as (before & after & Heq & Hb & Ha).
      destruct (foldl_best_spec h tl) as [_ Hle].
      exists (g :: before), after. cbn zeta in *. rewrite Heq.
      split; [done|]. split; [|done].
      intros item [->|Hitem]%elem_of_cons; [|by apply Hb].
      specialize (Hle h ltac:(left)). lra.
    + destruct (IH g) as (before & after & Heq & Hb & Ha). cbn zeta in *.
      destruct (foldl_best_spec g tl) as [_ Hle]. cbn zeta in Hle.
      set (best := foldl _ g tl) in *. clearbody best.
      destruct before as [|b before]; cbn [app] in Heq.
      * injection Heq as Hg Htl. subst best after.
        exists [], (h :: tl). split; [done|].
        split; [by intros item ?%elem_of_nil|].
        intros item [->|Hitem]%elem_of_cons; [lra|]. apply Hle. by right.
      * injection Heq as Hg Htl. subst b tl.
        exists (g :: h :: before), after. split; [done|]. split; [|done].
        intros item [->|[->|Hitem]%elem_of_cons]%elem_of_cons.
        -- apply Hb. left.
        -- specialize (Hb g ltac:(left)). lra.
        -- apply Hb. by right.
Qed.

Lemma idxmax_first_label (s : Series) key total :
  StronglySorted label_lt s →
  (key, total) ∈ s → total = series_max s →
  key = idxmax s ∨ String.ltb (idxmax s) key = true.
Proof.
  destruct s as [|g tl]; [by intros _ ?%elem_of_nil|]. intros Hsorted Hin Hmax.
  destruct (idxmax_spec (g :: tl) ltac:(done)) as [Hbest _].
  destruct (foldl_best_first g tl) as (before & after & Heq & Hb & Ha).
  cbn zeta in *. unfold idxmax in *. set (best := foldl _ g tl) in *.
  assert (Hval : series_max (g :: tl) = best.2).
  { apply series_lookup_elem_of in Hbest; [|done].
    assert (Hbest' : (best.1, best.2) ∈ g :: tl).
    { rewrite Heq. apply elem_of_app. right. destruct best. left. }
    apply series_lookup_elem_of in Hbest'; [|done]. congruence. }
  rewrite Heq in Hin, Hsorted.
  apply elem_of_app in Hin as [Hin|Hin].
  - specialize (Hb _ Hin). cbn in Hb. lra.
  - apply elem_of_cons in Hin as [Hin|Hin]; [left; by rewrite <- Hin|right].
    apply StronglySorted_app_1_r in Hsorted.
    apply StronglySorted_inv in Hsorted as [_ Hall].
    rewrite Forall_forall in Hall. by apply (Hall (key, total)).
Qed.

(** X17.  When several classes share the largest summed area, the one
    reported as dominant_landuse is the first of them in the order of the
    class names: no other class of that area has a smaller name. *)
Theorem dominant_tie_goes_to_first_name w self lat lon radius_km ds cx cy
    layer proj inter col :
  rasterio_open w (dem_path self) = Ok ds →
  transform w (crs ds) lat lon = Ok (cx, cy) →
  landuse self = Some layer →
  ensure_crs w layer (crs ds) = Ok proj →
  overlay w proj (select_hexagon ds cx cy radius_km) = Ok inter →
  find_type_column type_column_candidates (columns inter) = Some col →
  groupby_area_sum col (rows inter) ≠ [] →
  let landuse_areas := groupby_area_sum col (rows inter) in
  ∃ m dominant,
    analyze_hexagon w self lat lon radius_km = Ok m ∧
    m !! "dominant_landuse" = Some (VStr dominant) ∧
    (dominant, series_max landuse_areas) ∈ landuse_areas ∧
    ∀ key total,
      (key, total) ∈ landuse_areas → total = series_max landuse_areas →
      key = dominant ∨ String.ltb dominant key = true.
Proof.
  intros Hopen Htr Hl Hp Hi Hcol Hgroups areas.
  assert (Hrows : rows inter ≠ []).
  { intros Heq. apply Hgroups. by rewrite Heq. }
  destruct (results_for_landuse w self ds _ _ _ _
              (landuse_analysis_grouped w self _ (crs ds) layer proj inter col
                 Hl Hp Hi Hrows Hcol Hgroups)) as (H1 & _ & _).
  fold areas in H1. destruct (idxmax_spec areas Hgroups) as [Hin _].
  eexists _, _. split; [by eapply analyze_hexagon_ok|].
  split; [exact H1|]. split; [exact Hin|].
  intros key total Hkey Htotal.
  apply (idxmax_first_label areas key total); [|done..].
  apply groupby_area_sum_sorted.
Qed.

Lemma tied_groups :
  groupby_area_sum "fclass" (rows tied_landuse)
  = [("forest", 500); ("urban", 500)].
Proof. reflexivity. Qed.

Lemma dominant_tie_goes_to_first_name_witness :
  ∃ m, analyze_hexagon demo_world (with_landuse (Some tied_landuse)) 5 5 2 = Ok m ∧
       m !! "dominant_landuse" = Some (VStr "forest").
Proof.
  destruct (dominant_tie_goes_to_first_name demo_world
              (with_landuse (Some tied_landuse)) 5 5 2 demo_dataset
              (5 * 1000) (5 * 1000) tied_landuse tied_landuse tied_landuse
              "fclass" eq_refl eq_refl eq_refl eq_refl eq_refl eq_refl)
    as (m & dominant & Hm & Hd & Hin & Hfirst).
  { by rewrite tied_groups. }
  exists m. split; [exact Hm|]. rewrite Hd. do 2 f_equal.
  rewrite tied_groups in Hin, Hfirst.
  assert (Hmax : series_max [("forest", 500); ("urban", 500)] = 500).
  { unfold series_max, Rlist_max. cbn. apply Rmax_left. lra. }
  assert (Hforest : "forest" = dominant ∨ String.ltb dominant "forest" = true).
  { apply (Hfirst "forest" 500); [left|by rewrite Hmax]. }
  destruct Hforest as [Heq|Hlt]; [done|].
  rewrite Hmax in Hin.
  apply elem_of_cons in Hin as [Hin|Hin]; [by injection Hin|].
  apply list_elem_of_singleton in Hin. injection Hin as ->. done.
Defined.

(** ** The constructor *)

Lemma try_read_file_run w path (s : ()) :
  try_read_file w path s = (Ok (load_layer w path), s).
Proof.
  unfold try_read_file, load_layer. unfold_monad.
  by destruct (read_file w path).
Qed.

Lemma init_body_run w dem vec :
  run (init_body w dem vec) () = Ok (init w dem vec).
Proof.
  unfold init_body, init. unfold_monad. by rewrite !try_read_file_run.
Qed.

Lemma load_layer_None w path :
  load_layer w path = None ↔ ∃ e, read_file w path = Raise e.
Proof.
  unfold load_layer. destruct (read_file w path) as [gdf|e].
  - split; [done|]. by intros [e ?].
  - split; [by eexists|done].
Qed.

(** X18.  The constructor never raises, whatever the vector files are: it
    returns an analyzer that keeps the raster path (which it does not open),
    points to the two water files inside the vector directory, and holds
    each of the buildings, roads and land-use layers exactly when its
    shapefile could be read, [None] otherwise. *)
Theorem constructor_never_raises w dem vec :
  ∃ self,
    run (init_body w dem vec) () = Ok self ∧
    dem_path self = dem ∧
    water_zones_path self = path_join vec "water_zones.shp" ∧
    water_ways_path self = path_join vec "water_ways.shp" ∧
    (buildings self = None
     ↔ ∃ e, read_file w (path_join vec "buildings.shp") = Raise e) ∧
    (roads self = None ↔ ∃ e, read_file w (path_join vec "roads.shp") = Raise e) ∧
    (landuse self = None
     ↔ ∃ e, read_file w (path_join vec "landuse.shp") = Raise e) ∧
    (∀ gdf, read_file w (path_join vec "buildings.shp") = Ok gdf →
            buildings self = Some gdf) ∧
    (∀ gdf, read_file w (path_join vec "roads.shp") = Ok gdf →
            roads self = Some gdf) ∧
    (∀ gdf, read_file w (path_join vec "landuse.shp") = Ok gdf →
            landuse self = Some gdf).
Proof.
  exists (init w dem vec). split; [apply init_body_run|].
  repeat (split; [done|]). cbn [buildings roads landuse init].
  repeat (split; [apply load_layer_None|]).
  unfold load_layer. repeat split; by intros gdf ->.
Qed.

Lemma constructor_never_raises_witness :
  ∃ self,
    run (init_body demo_world "data/DEM/DEM_Projected.tif" "data/Vector") ()
    = Ok self ∧
    roads self = Some demo_roads ∧ buildings self = None.
Proof.
  destruct (constructor_never_raises demo_world "data/DEM/DEM_Projected.tif"
              "data/Vector")
    as (self & Hrun & _ & _ & _ & Hb & _ & _ & _ & Hr & _).
  exists self. split; [exact Hrun|]. split.
  - apply Hr. reflexivity.
  - apply Hb. exists (Exception "DriverError"). reflexivity.
Defined.

(** X19.  A shapefile that cannot be read when the analyzer is built costs
    its metric for good: every later analysis whose raster block completes
    reports total_road_length_m = 0 without roads.shp, building_density = 0
    and total_building_area_sq_m = 0 without buildings.shp, and "No data"
    with percentage 0 and an empty breakdown without landuse.shp. *)
Theorem unreadable_shapefile_costs_its_metric w dem vec self lat lon radius_km
    ds cx cy :
  run (init_body w dem vec) () = Ok self →
  rasterio_open w dem = Ok ds →
  transform w (crs ds) lat lon = Ok (cx, cy) →
  ∃ m,
    analyze_hexagon w self lat lon radius_km = Ok m ∧
    ((∃ e, read_file w (path_join vec "roads.shp") = Raise e) →
     m !! "total_road_length_m" = Some (VInt 0)) ∧
    ((∃ e, read_file w (path_join vec "buildings.shp") = Raise e) →
     m !! "building_density" = Some (VInt 0) ∧
     m !! "total_building_area_sq_m" = Some (VInt 0)) ∧
    ((∃ e, read_file w (path_join vec "landuse.shp") = Raise e) →
     m !! "dominant_landuse" = Some (VStr "No data") ∧
     m !! "dominant_landuse_percentage" = Some (VInt 0) ∧
     m !! "landuse_breakdown" = Some (VDict ∅)).
Proof.
  rewrite init_body_run. intros [= <-] Hopen Htr.
  set (self := init w dem vec). set (hex := select_hexagon ds cx cy radius_km).
  exists (results_for w self ds hex).
  split; [by eapply analyze_hexagon_ok|]. split; [|split].
  - intros Hraise%load_layer_None. apply results_for_roads.
    apply roads_analysis_placeholder. by left.
  - intros Hraise%load_layer_None. apply results_for_buildings.
    apply buildings_analysis_placeholder. by left.
  - intros Hraise%load_layer_None. apply results_for_landuse.
    by apply landuse_analysis_not_loaded.
Qed.

Lemma unreadable_shapefile_costs_its_metric_witness :
  ∃ m,
    analyze_hexagon demo_world demo_analyzer 5 5 2 = Ok m ∧
    m !! "building_density" = Some (VInt 0) ∧
    m !! "dominant_landuse" = Some (VStr "No data").
Proof.
  destruct (unreadable_shapefile_costs_its_metric demo_world
              "data/DEM/DEM_Projected.tif" "data/Vector" demo_analyzer 5 5 2
              demo_dataset (5 * 1000) (5 * 1000)
              (init_body_run _ _ _) eq_refl eq_refl)
    as (m & Hm & _ & Hb & Hl).
  exists m. split; [exact Hm|]. split.
  - apply Hb. exists (Exception "DriverError"). reflexivity.
  - apply Hl. exists (Exception "DriverError"). reflexivity.
Defined.

(** ** The hexagon shown and the hexagon analysed *)

Lemma hexagon_geometry_inj cx cy cx' cy' r crs crs' :
  create_hexagon_projected cx cy r crs = create_hexagon_projected cx' cy' r crs' →
  cx = cx' ∧ cy = cy'.
Proof.
  rewrite !create_hexagon_projected_unfold. intros Heq.
  injection Heq as Hx Hy _ _ _ _ _ _ _ _ _ _. split; lra.
Qed.

(** X20.  [get_hexagon_geojson] has no fallback: it reprojects the hexagon
    centred on the requested point even when that hexagon lies outside the
    raster.  With well-formed raster bounds, the polygon it returns then
    comes from a hexagon other than the one [analyze_hexagon] analyses for
    the same request. *)
Theorem geojson_is_not_recentred w self lat lon radius_km ds cx cy h :
  rasterio_open w (dem_path self) = Ok ds →
  transform w (crs ds) lat lon = Ok (cx, cy) →
  bounds_left (bounds ds) <= bounds_right (bounds ds) →
  bounds_bottom (bounds ds) <= bounds_top (bounds ds) →
  no_overlap
    (total_bounds (create_hexagon_projected cx cy (radius_km * 1000) (crs ds)))
    (bounds ds) →
  hexagon_to_crs w (requested_hexagon ds cx cy radius_km) "EPSG:4326" = Ok h →
  get_hexagon_geojson w self lat lon radius_km = Ok (Some (geo_interface h)) ∧
  analyze_hexagon w self lat lon radius_km
  = Ok (results_for w self ds (recentred_hexagon ds radius_km)) ∧
  hex_geometry (requested_hexagon ds cx cy radius_km)
  ≠ hex_geometry (recentred_hexagon ds radius_km).
Proof.
  intros Hopen Htr Hx Hy Hno Hto. split; [|split].
  - unfold get_hexagon_geojson. unfold_monad. rewrite Hopen, Htr.
    fold (requested_hexagon ds cx cy radius_km). by rewrite Hto.
  - rewrite (analyze_hexagon_ok _ _ _ _ _ _ _ _ Hopen Htr).
    by rewrite select_hexagon_no_overlap.
  - unfold requested_hexagon, recentred_hexagon. cbn [hex_geometry].
    intros [-> ->]%hexagon_geometry_inj.
    revert Hno. apply centre_inside_overlaps; lra.
Qed.

Lemma geojson_is_not_recentred_witness :
  ∃ g, get_hexagon_geojson demo_world demo_analyzer 0 1000 1 = Ok (Some g) ∧
       geojson_coordinates g
       ≠ hex_geometry (recentred_hexagon demo_dataset 1).
Proof.
  destruct (geojson_is_not_recentred demo_world demo_analyzer 0 1000 1
              demo_dataset (1000 * 1000) (0 * 1000)
              {| hex_geometry :=
                   hex_geometry
                     (requested_hexagon demo_dataset (1000 * 1000) (0 * 1000) 1);
                 hex_crs := "EPSG:4326" |}
              eq_refl eq_refl)
    as (Hg & _ & Hne).
  - simpl. lra.
  - simpl. lra.
  - exact demo_far_east_no_overlap.
  - reflexivity.
  - eexists. split; [exact Hg|]. exact Hne.
Defined.

(** ** [app.py]: the views *)

Lemma analyze_hexagon_returns w self lat lon radius_km :
  ∃ m, analyze_hexagon w self lat lon radius_km = Ok m.
Proof.
  destruct (rasterio_open w (dem_path self)) as [ds|e] eqn:Hopen.
  - destruct (transform w (crs ds) lat lon) as [[cx cy]|e] eqn:Htr.
    + eexists. by eapply analyze_hexagon_ok.
    + eexists. by eapply analyze_hexagon_transform_raise.
  - eexists. by eapply analyze_hexagon_open_raise.
Qed.

Section ViewProperties.

Variable float_of_string : string → Exc R.

(** [float(data.get(key, dflt))] *)
Let read (data : App.JSON) (key : string) (dflt : App.JSON) : Exc R :=
  v ← App.get data key dflt; App.float float_of_string v.

(** The inputs for which the view [analyze] reaches the analysis. *)
Let accepted (data : App.JSON) (lat lon radius_km : R) : Prop :=
  App.truthy data = true ∧
  read data "latitude" App.JNull = Ok lat ∧
  read data "longitude" App.JNull = Ok lon ∧
  read data "radius_km" (App.JNum 2) = Ok radius_km ∧
  -90 <= lat <= 90 ∧ -180 <= lon <= 180 ∧ 0.5 <= radius_km <= 10.

Lemma analyze_view_accepted w self get_json data lat lon radius_km m :
  get_json = Ok data →
  accepted data lat lon radius_km →
  analyze_hexagon w self lat lon radius_km = Ok m →
  App.analyze float_of_string w (Some self) get_json
  = Ok {| App.body := App.BodyResults m; App.status_code := 200 |}.
Proof.
  intros -> (Ht & Hlat & Hlon & Hr & Hvlat & Hvlon & Hvr) Hm.
  unfold App.analyze. unfold read in *. unfold_monad.
  rewrite Ht. cbn [negb]. rewrite Hlat, Hlon, Hr.
  rewrite decide_False by (intros H; apply H; lra).
  rewrite decide_False by (intros H; apply H; lra).
  rewrite decide_False by (intros H; apply H; lra).
  by rewrite Hm.
Qed.

Lemma analyze_view_outcome w analyzer get_json :
  ∃ resp,
    App.analyze float_of_string w analyzer get_json = Ok resp ∧
    ((∃ msg, App.body resp = App.BodyError msg ∧ App.status_code resp = 500%Z)
     ∨ (∃ msg, App.body resp = App.BodyError msg ∧ App.status_code resp = 400%Z)
     ∨ (∃ self data lat lon radius_km m,
          analyzer = Some self ∧ get_json = Ok data ∧
          accepted data lat lon radius_km ∧
          analyze_hexagon w self lat lon radius_km = Ok m ∧
          App.body resp = App.BodyResults m ∧ App.status_code resp = 200%Z)).
Proof.
  unfold App.analyze. unfold_monad.
  destruct analyzer as [self|]; [|eexists; split; [done|]; left; by eexists].
  destruct get_json as [data|e] eqn:Hjson;
    [|eexists; split; [done|]; left; by eexists].
  destruct (App.truthy data) eqn:Ht; cbn [negb];
    [|eexists; split; [done|]; right; left; by eexists].
  destruct (App.get data "latitude" App.JNull ≫= App.float float_of_string)
    as [lat|e] eqn:Hlat; unfold_monad; rewrite Hlat;
    [|eexists; split; [done|]; left; by eexists].
  destruct (App.get data "longitude" App.JNull ≫= App.float float_of_string)
    as [lon|e] eqn:Hlon; unfold_monad; rewrite Hlon;
    [|eexists; split; [done|]; left; by eexists].
  destruct (App.get data "radius_km" (App.JNum 2) ≫= App.float float_of_string)
    as [radius_km|e] eqn:Hr; unfold_monad; rewrite Hr;
    [|eexists; split; [done|]; left; by eexists].
  destruct (decide (¬ (-90 <= lat ∧ lat <= 90))) as [|Hvlat%dec_stable];
    [eexists; split; [done|]; right; left; by eexists|].
  destruct (decide (¬ (-180 <= lon ∧ lon <= 180))) as [|Hvlon%dec_stable];
    [eexists; split; [done|]; right; left; by eexists|].
  destruct (decide (¬ (0.5 <= radius_km ∧ radius_km <= 10)))
    as [|Hvr%dec_stable];
    [eexists; split; [done|]; right; left; by eexists|].
  destruct (analyze_hexagon_returns w self lat lon radius_km) as [m Hm].
  rewrite Hm. eexists. split; [done|]. right; right.
  destruct Hvlat, Hvlon, Hvr.
  exists self, data, lat, lon, radius_km, m. repeat split; try done.
  all: unfold read; unfold_monad; done.
Qed.

(** X21.  The view [analyze] never raises: whatever the request and the
    libraries do, it answers with status 200, 400 or 500, and the body of a
    400 or a 500 is an error message. *)
Theorem analyze_view_always_answers w analyzer get_json :
  ∃ resp,
    App.analyze float_of_string w analyzer get_json = Ok resp ∧
    (App.status_code resp = 200%Z ∨ App.status_code resp = 400%Z
     ∨ App.status_code resp = 500%Z) ∧
    (App.status_code resp ≠ 200%Z → ∃ msg, App.body resp = App.BodyError msg).
Proof.
  destruct (analyze_view_outcome w analyzer get_json)
    as (resp & Hresp & [(msg & Hb & Hs)|[(msg & Hb & Hs)|H]]).
  - exists resp. split; [done|]. split; [auto|]. intros _. by exists msg.
  - exists resp. split; [done|]. split; [auto|]. intros _. by exists msg.
  - destruct H as (self & data & lat & lon & r & m & _ & _ & _ & _ & Hb & Hs).
    exists resp. split; [done|]. split; [auto|]. by intros [].
Qed.

(** X22.  A 200 from the view [analyze] means the analysis ran on checked
    inputs: the latitude read from the body lies in [-90, 90], the longitude
    in [-180, 180], the radius in [0.5, 10], and the body of the response is
    the mapping [analyze_hexagon] returned for them. *)
Theorem analyze_view_200_means_validated w analyzer get_json resp :
  App.analyze float_of_string w analyzer get_json = Ok resp →
  App.status_code resp = 200%Z →
  ∃ self data lat lon radius_km m,
    analyzer = Some self ∧ get_json = Ok data ∧
    read data "latitude" App.JNull = Ok lat ∧
    read data "longitude" App.JNull = Ok lon ∧
    read data "radius_km" (App.JNum 2) = Ok radius_km ∧
    -90 <= lat <= 90 ∧ -180 <= lon <= 180 ∧ 0.5 <= radius_km <= 10 ∧
    analyze_hexagon w self lat lon radius_km = Ok m ∧
    App.body resp = App.BodyResults m.
Proof.
  intros Hresp Hs.
  destruct (analyze_view_outcome w analyzer get_json)
    as (resp' & Hresp' & Hcases).
  assert (resp' = resp) as -> by congruence.
  destruct Hcases as [(msg & _ & Hs')|[(msg & _ & Hs')|H]]; [congruence..|].
  destruct H as (self & data & lat & lon & r & m & Ha & Hj & Hacc & Hm & Hb & _).
  destruct Hacc as (_ & Hlat & Hlon & Hr & Hvlat & Hvlon & Hvr).
  by exists self, data, lat, lon, r, m.
Qed.

Lemma read_number (fields : gmap string App.JSON) key dflt x :
  default dflt (fields !! key) = App.JNum x →
  read (App.JObj fields) key dflt = Ok x.
Proof. intros H. unfold read. cbn. by rewrite H. Qed.

Lemma truthy_object (fields : gmap string App.JSON) key v :
  fields !! key = Some v → App.truthy (App.JObj fields) = true.
Proof.
  intros H. cbn. apply bool_decide_eq_true. intros ->.
  by rewrite lookup_empty in H.
Qed.

(** X23.  A request whose body is a JSON object holding a numeric latitude
    in [-90, 90], a numeric longitude in [-180, 180] and a radius in
    [0.5, 10] (the number under radius_km, or 2 when the key is absent)
    always gets a 200 with the mapping of [analyze_hexagon]; when the raster
    cannot be opened this is still a 200, with an empty mapping as body. *)
Theorem analyze_view_valid_request w self (fields : gmap string App.JSON)
    lat lon radius_km :
  fields !! "latitude" = Some (App.JNum lat) →
  fields !! "longitude" = Some (App.JNum lon) →
  default (App.JNum 2) (fields !! "radius_km") = App.JNum radius_km →
  -90 <= lat <= 90 → -180 <= lon <= 180 → 0.5 <= radius_km <= 10 →
  ∃ m,
    analyze_hexagon w self lat lon radius_km = Ok m ∧
    App.analyze float_of_string w (Some self) (Ok (App.JObj fields))
    = Ok {| App.body := App.BodyResults m; App.status_code := 200 |} ∧
    ((∃ e, rasterio_open w (dem_path self) = Raise e) → m = ∅).
Proof.
  intros Hlat Hlon Hr Hvlat Hvlon Hvr.
  destruct (analyze_hexagon_returns w self lat lon radius_km) as [m Hm].
  exists m. split; [exact Hm|]. split.
  - eapply analyze_view_accepted; [done| |done].
    split; [by eapply truthy_object|].
    split; [apply read_number; by rewrite Hlat|].
    split; [apply read_number; by rewrite Hlon|].
    split; [by apply read_number|]. done.
  - intros [e He].
    rewrite (analyze_hexagon_open_raise _ _ _ _ _ _ He) in Hm. congruence.
Qed.

(** X24.  A body that is a non-empty JSON object without a latitude, or
    with a null latitude, is answered with a 500, not a 400: the conversion
    to a float raises before any range is checked.  The same holds for the
    longitude. *)
Theorem analyze_view_missing_coordinate w self (fields : gmap string App.JSON) :
  fields ≠ ∅ →
  default App.JNull (fields !! "latitude") = App.JNull
  ∨ default App.JNull (fields !! "longitude") = App.JNull →
  ∃ msg,
    App.analyze float_of_string w (Some self) (Ok (App.JObj fields))
    = Ok {| App.body := App.BodyError msg; App.status_code := 500 |}.
Proof.
  intros Hne Hmissing. unfold App.analyze. unfold_monad.
  cbn [App.truthy]. rewrite bool_decide_eq_true_2 by done. cbn [negb App.get].
  destruct Hmissing as [H|H].
  - rewrite H. cbn. by eexists.
  - destruct (App.float float_of_string (default App.JNull (fields !! "latitude")));
      [|by eexists].
    rewrite H. cbn. by eexists.
Qed.

(** X25.  A falsy body, the empty object [{}] among them, is answered with
    a 400 before anything is read from it; a body that is a non-empty list,
    string or number is answered with a 500, since it has no [get]. *)
Theorem analyze_view_rejects_empty_body w self data :
  (App.truthy data = false →
   ∃ msg,
     App.analyze float_of_string w (Some self) (Ok data)
     = Ok {| App.body := App.BodyError msg; App.status_code := 400 |}) ∧
  App.truthy (App.JObj ∅) = false ∧
  (App.truthy data = true → (∀ fields, data ≠ App.JObj fields) →
   ∃ msg,
     App.analyze float_of_string w (Some self) (Ok data)
     = Ok {| App.body := App.BodyError msg; App.status_code := 500 |}).
Proof.
  split; [|split].
  - intros Ht. unfold App.analyze. unfold_monad. rewrite Ht. by eexists.
  - cbn. by apply bool_decide_eq_false_2; intros H; apply H.
  - intros Ht Hobj. unfold App.analyze. unfold_monad. rewrite Ht. cbn [negb].
    destruct data; try (by eexists). by destruct (Hobj fields).
Qed.

Lemma get_hexagon_geojson_returns w self lat lon radius_km :
  ∃ g, get_hexagon_geojson w self lat lon radius_km = Ok g ∧
       ((∃ e, rasterio_open w (dem_path self) = Raise e) → g = None).
Proof.
  unfold get_hexagon_geojson. unfold_monad.
  destruct (rasterio_open w (dem_path self)) as [ds|e].
  - destruct (transform w (crs ds) lat lon) as [[cx cy]|e];
      [destruct (hexagon_to_crs w _ _)|];
      (eexists; split; [done|]; by intros [? ?]).
  - eexists. by split.
Qed.

(** X26.  The view [get_hexagon_geojson] checks no range: whenever its
    three arguments convert to floats (the radius being 2 when it is
    absent), it answers 200 with what the method returned for them, be the
    latitude, longitude or radius what they may; with a raster that cannot
    be opened that is a 200 whose body is null.  A missing [lat] or [lon]
    gives a 500. *)
Theorem geojson_view_checks_no_range w self (args : string → option string)
    lat lon radius_km :
  (App.float_arg float_of_string (args "lat") None = Ok lat →
   App.float_arg float_of_string (args "lon") None = Ok lon →
   App.float_arg float_of_string (args "radius") (Some 2) = Ok radius_km →
   ∃ g,
     get_hexagon_geojson w self lat lon radius_km = Ok g ∧
     App.get_hexagon_geojson float_of_string w (Some self) args
     = Ok {| App.body := App.BodyGeoJSON g; App.status_code := 200 |} ∧
     ((∃ e, rasterio_open w (dem_path self) = Raise e) → g = None)) ∧
  (args "lat" = None ∨ args "lon" = None →
   ∃ msg,
     App.get_hexagon_geojson float_of_string w (Some self) args
     = Ok {| App.body := App.BodyError msg; App.status_code := 500 |}).
Proof.
  split.
  - intros Hlat Hlon Hr.
    destruct (get_hexagon_geojson_returns w self lat lon radius_km)
      as (g & Hg & Hnone).
    exists g. split; [exact Hg|]. split; [|exact Hnone].
    unfold App.get_hexagon_geojson. unfold_monad.
    by rewrite Hlat, Hlon, Hr, Hg.
  - intros Hmissing. unfold App.get_hexagon_geojson. unfold_monad.
    destruct Hmissing as [H|H].
    + rewrite H. cbn. by eexists.
    + destruct (App.float_arg float_of_string (args "lat") None); [|by eexists].
      rewrite H. cbn. by eexists.
Qed.

End ViewProperties.

(** X27.  The module-level analyzer is never [None]: the constructor cannot
    raise, so the guard of the view [analyze] for a missing analyzer never
    fires and [health] always answers 200 with analyzer_initialized true,
    even when no data file exists. *)
Theorem module_analyzer_is_always_built w DATA_DIR :
  App.analyzer w DATA_DIR
  = Some (init w (App.DEM_PATH DATA_DIR) (App.VECTOR_DIR DATA_DIR)) ∧
  App.health (App.analyzer w DATA_DIR)
  = Ok {| App.body := App.BodyHealth "ok" "API fonctionnelle" true;
          App.status_code := 200 |}.
Proof.
  assert (H : App.analyzer w DATA_DIR
              = Some (init w (App.DEM_PATH DATA_DIR) (App.VECTOR_DIR DATA_DIR))).
  { unfold App.analyzer.
    pose proof (init_body_run w (App.DEM_PATH DATA_DIR) (App.VECTOR_DIR DATA_DIR))
      as Hrun.
    unfold_monad.
    destruct (init_body w (App.DEM_PATH DATA_DIR) (App.VECTOR_DIR DATA_DIR) ())
      as [[a|e] []]; cbn in *; congruence. }
  split; [exact H|]. rewrite H. unfold App.health.
  by rewrite bool_decide_eq_true_2.
Qed.

Lemma demo_body_fields :
  demo_body !! "latitude" = Some (App.JNum 5) ∧
  demo_body !! "longitude" = Some (App.JNum 5) ∧
  demo_body !! "radius_km" = None.
Proof. unfold demo_body. repeat split; by simplify_map_eq. Qed.

Lemma analyze_view_always_answers_witness :
  ∃ msg,
    App.analyze demo_float_of_string demo_world (Some demo_analyzer) (Ok App.JNull)
    = Ok {| App.body := App.BodyError msg; App.status_code := 400 |}.
Proof.
  destruct (analyze_view_always_answers demo_float_of_string demo_world
              (Some demo_analyzer) (Ok App.JNull))
    as (resp & Hresp & _ & Herr).
  assert (Hs : App.status_code resp = 400%Z).
  { cbv [App.analyze run try_except mbind M_bind bind call mret M_ret ret
           App.truthy negb] in Hresp.
    by injection Hresp as <-. }
  destruct Herr as [msg Hmsg]; [by rewrite Hs|].
  exists msg. rewrite Hresp. f_equal. destruct resp as [b c]. cbn in *.
  by subst.
Defined.

Lemma analyze_view_valid_request_witness :
  ∃ m,
    App.analyze demo_float_of_string demo_world (Some demo_analyzer)
      (Ok (App.JObj demo_body))
    = Ok {| App.body := App.BodyResults m; App.status_code := 200 |} ∧
    analyze_hexagon demo_world demo_analyzer 5 5 2 = Ok m ∧
    App.analyze demo_float_of_string no_raster_world (Some demo_analyzer)
      (Ok (App.JObj demo_body))
    = Ok {| App.body := App.BodyResults ∅; App.status_code := 200 |}.
Proof.
  destruct demo_body_fields as (Hlat & Hlon & Hr).
  destruct (analyze_view_valid_request demo_float_of_string demo_world
              demo_analyzer demo_body 5 5 2 Hlat Hlon)
    as (m & Hm & Hview & _); [by rewrite Hr|lra..|].
  destruct (analyze_view_valid_request demo_float_of_string no_raster_world
              demo_analyzer demo_body 5 5 2 Hlat Hlon)
    as (m' & _ & Hview' & Hempty); [by rewrite Hr|lra..|].
  exists m. split; [exact Hview|]. split; [exact Hm|].
  rewrite Hview'. rewrite Hempty; [done|]. by eexists.
Defined.

Lemma demo_view_answer :
  ∃ m,
    App.analyze demo_float_of_string demo_world (Some demo_analyzer)
      (Ok (App.JObj demo_body))
    = Ok {| App.body := App.BodyResults m; App.status_code := 200 |}.
Proof.
  destruct demo_body_fields as (Hlat & Hlon & Hr).
  destruct (analyze_hexagon_returns demo_world demo_analyzer 5 5 2) as [m Hm].
  exists m.
  apply (analyze_view_accepted demo_float_of_string demo_world demo_analyzer
           (Ok (App.JObj demo_body)) (App.JObj demo_body) 5 5 2 m);
    [reflexivity| |exact Hm].
  split; [by eapply truthy_object|].
  split; [apply read_number; by rewrite Hlat|].
  split; [apply read_number; by rewrite Hlon|].
  split; [apply read_number; by rewrite Hr|].
  split; [lra|]. split; lra.
Qed.

Lemma analyze_view_200_means_validated_witness :
  ∃ lat lon radius_km,
    -90 <= lat <= 90 ∧ -180 <= lon <= 180 ∧ 0.5 <= radius_km <= 10.
Proof.
  destruct demo_view_answer as (m & Hview).
  destruct (analyze_view_200_means_validated demo_float_of_string demo_world
              (Some demo_analyzer) (Ok (App.JObj demo_body)) _ Hview eq_refl)
    as (self & data & lat & lon & r & m' & _ & _ & _ & _ & _ & H1 & H2 & H3 & _).
  exists lat, lon, r. split; [exact H1|]. split; [exact H2|exact H3].
Defined.

Lemma analyze_view_missing_coordinate_witness :
  ∃ msg,
    App.analyze demo_float_of_string demo_world (Some demo_analyzer)
      (Ok (App.JObj body_without_latitude))
    = Ok {| App.body := App.BodyError msg; App.status_code := 500 |}.
Proof.
  apply (analyze_view_missing_coordinate demo_float_of_string demo_world
           demo_analyzer body_without_latitude).
  - unfold body_without_latitude. apply insert_non_empty.
  - left. unfold body_without_latitude. by simplify_map_eq.
Defined.

Lemma analyze_view_rejects_empty_body_witness :
  ∃ msg,
    App.analyze demo_float_of_string demo_world (Some demo_analyzer)
      (Ok (App.JObj ∅))
    = Ok {| App.body := App.BodyError msg; App.status_code := 400 |}.
Proof.
  destruct (analyze_view_rejects_empty_body demo_float_of_string demo_world
              demo_analyzer (App.JObj ∅)) as (H400 & Hempty & _).
  exact (H400 Hempty).
Defined.

Lemma geojson_view_checks_no_range_witness :
  ∃ g,
    get_hexagon_geojson demo_world demo_analyzer 5 5 (-1) = Ok g ∧
    App.get_hexagon_geojson demo_float_of_string demo_world (Some demo_analyzer)
      demo_args
    = Ok {| App.body := App.BodyGeoJSON g; App.status_code := 200 |}.
Proof.
  destruct (geojson_view_checks_no_range demo_float_of_string demo_world
              demo_analyzer demo_args 5 5 (-1)) as [Hok _].
  destruct (Hok eq_refl eq_refl eq_refl) as (g & Hg & Hview & _).
  by exists g.
Defined.
